(** * SLO monitor: error budget, burn rate and alert rules

    A shallow embedding of [src/slo_monitor.py] (class [SLOMonitor]) and the
    properties of its evaluation engine.

    Conventions of the embedding.

    - Numbers.  The Python code computes on [int], [float] and, for the values
      that come back from the [DECIMAL] columns of PostgreSQL,
      [decimal.Decimal].  Integers that the code keeps as [int] are [Z];
      a [Decimal] is the exact rational ([Q]) it stands for, and its
      arithmetic is read exactly (the 28 digits of the default context are not
      modelled).  The arithmetic of lines 136-142 is embedded twice: once
      with every number read exactly ([error_budget],
      [simulate_measurements]), and once as the machine runs it
      ([Module Binary64]), with the float-typed lines on IEEE binary64 and
      the coercions of the [INSERT].  What is proved of the exact reading is
      stated as such.
    - Errors.  A Python exception is a value of [exn]; pure code returns
      [result], code that talks to the database is a state-and-error monad
      [M] over the tables.
    - Database.  The three tables are fields of [monitor]; [NOW()] is the
      explicit argument [now] (seconds).  The columns of a row hold no
      [NULL].  The coercion of an inserted measurement to the types of its
      columns is modelled in [Module Binary64] only.
    - Messages.  An f-string is kept as its template with the interpolated
      values ([message]). *)

From Stdlib Require Import ZArith QArith Qround Lqa Lia List Floats Uint63.
From stdpp Require Import base option list gmap strings.

Import ListNotations.

Local Open Scope Z_scope.
Local Open Scope Q_scope.

(** ** Python values and exceptions *)

(** [ZeroDivisionError] stands for the built-in exception and for its
    subclass [decimal.DivisionByZero]; [decimal.InvalidOperation], which
    [Decimal] raises for [0 / 0], is no [ZeroDivisionError].
    [NumericValueOutOfRange] is the error of psycopg2 for a value that
    overflows its column. *)
Inductive exn : Type :=
  | ZeroDivisionError
  | IndexError
  | TypeError
  | OverflowError
  | ValueError
  | InvalidOperation
  | NumericValueOutOfRange.

Inductive result (A : Type) : Type :=
  | Ok (a : A)
  | Raise (e : exn).

Arguments Ok {A} a.
Arguments Raise {A} e.

#[global] Instance result_ret : MRet result := fun A a => Ok a.
#[global] Instance result_bind : MBind result := fun A B k r =>
  match r with
  | Ok a => k a
  | Raise e => Raise e
  end.

(** [r] returns a number equal to [q]. *)
Definition returns (r : result Q) (q : Q) : Prop :=
  match r with
  | Ok x => x == q
  | Raise _ => False
  end.

(** [x < y] on numbers, as a boolean. *)
Definition Qltb (x y : Q) : bool := negb (Qle_bool y x).

(** [x / y] on [int]s and [float]s: Python raises when the divisor is
    zero. *)
Definition py_div (x y : Q) : result Q :=
  if Qeq_bool y 0 then Raise ZeroDivisionError else Ok (x / y).

(** [x / y] on [decimal.Decimal]s, in the default context: a zero divisor
    raises [decimal.DivisionByZero] under a dividend other than zero and
    [decimal.InvalidOperation] under a zero dividend. *)
Definition decimal_div (x y : Q) : result Q :=
  if Qeq_bool y 0
  then if Qeq_bool x 0 then Raise InvalidOperation else Raise ZeroDivisionError
  else Ok (x / y).

(** [int(x)]: truncation towards zero. *)
Definition py_int (x : Q) : Z := Z.quot (Qnum x) (Zpos (Qden x)).

(** [l[i]], with Python's negative indices. *)
Definition getitem {A} (l : list A) (i : Z) : result A :=
  let n := Z.of_nat (length l) in
  let j := if (i <? 0)%Z then (n + i)%Z else i in
  if (j <? 0)%Z then Raise IndexError
  else match l !! Z.to_nat j with
       | Some x => Ok x
       | None => Raise IndexError
       end.

(** ** Burn rate (lines 179-186 of [calculate_burn_rate])

    The part of [calculate_burn_rate] that follows the query, on the list
    [measurements] that the query produced. *)

Definition burn_rate (measurements : list Q) : result Q :=
  if (length measurements <? 2)%nat then Ok 0
  else
    first ← getitem measurements 0;
    newest ← getitem measurements (-1);
    let budget_change := first - newest in
    py_div budget_change (inject_Z (Z.of_nat (length measurements))).

(** ** Error budget (lines 136-142 of [simulate_measurements])

    The arithmetic of [simulate_measurements] on the target read from the
    database and the two counts.  The source binds [total = 1000] on line 122;
    here it is an argument, and [simulate_measurements] below passes 1000.
    Line 137 divides two [int]s; [target] comes back from the database as a
    [Decimal], so lines 140-142 compute on [Decimal]s. *)

Definition allowed_errors_of (target : Q) (total : Z) : Q :=
  inject_Z total * (1 - target / 100).

Definition error_budget (target : Q) (total successes : Z) : result (Q * Q) :=
  ratio ← py_div (inject_Z successes) (inject_Z total);
  let current_slo := ratio * 100 in
  let allowed_errors := allowed_errors_of target total in
  let actual_errors := (total - successes)%Z in
  spent ← decimal_div (allowed_errors - inject_Z actual_errors) allowed_errors;
  let error_budget_remaining := spent * 100 in
  mret (current_slo, error_budget_remaining).

(** ** The monitor and its tables *)

(** An entry of the list [slos] of [define_slos]; also a row of
    [slo_definitions]. *)
Record slo : Type := Slo {
  slo_id : string;
  service_name : string;
  slo_type : string;
  target : Q;
  window : Z;
  description : string
}.

(** A row of [slo_measurements]. *)
Record measurement_row : Type := MeasurementRow {
  row_slo_id : string;
  row_timestamp : Z;
  row_success_count : Z;
  row_total_count : Z;
  row_current_slo : Q;
  row_error_budget_remaining : Q
}.

(** The f-strings of [check_slo_alerts], by template. *)
Inductive message : Type :=
  | SLO_below_target (current target : Q)
  | Error_budget_low (error_budget : Q)
  | High_burn_rate (burn_rate : Q).

(** A row of [slo_alerts]. *)
Record alert_row : Type := AlertRow {
  alert_slo_id : string;
  triggered_at : Z;
  severity : string;
  alert_message : message;
  alert_burn_rate : Q
}.

(** The dict returned by [simulate_measurements]. *)
Record measurement : Type := Measurement {
  m_slo_id : string;
  m_current_slo : Q;
  m_target : Q;
  m_error_budget : Q;
  m_success_count : Z;
  m_total_count : Z
}.

(** [self.slos] and the three tables behind [self.conn]. *)
Record monitor : Type := Monitor {
  slos : gmap string slo;
  slo_definitions : gmap string slo;
  slo_measurements : list measurement_row;
  slo_alerts : list alert_row
}.

Inductive outcome (A : Type) : Type :=
  | Done (a : A) (st : monitor)
  | Failed (e : exn) (st : monitor).

Arguments Done {A} a st.
Arguments Failed {A} e st.

Definition M (A : Type) : Type := monitor -> outcome A.

#[global] Instance M_ret : MRet M := fun A a st => Done a st.
#[global] Instance M_bind : MBind M := fun A B k m st =>
  match m st with
  | Done a st' => k a st'
  | Failed e st' => Failed e st'
  end.

Definition get : M monitor := fun st => Done st st.
Definition put (st : monitor) : M unit := fun _ => Done tt st.

(** Run a pure computation; its exception propagates. *)
Definition lift {A} (r : result A) : M A := fun st =>
  match r with
  | Ok a => Done a st
  | Raise e => Failed e st
  end.

(** *** SQL statements *)

(** [INSERT INTO slo_definitions ... ON CONFLICT (slo_id) DO NOTHING] *)
Definition insert_definition (d : slo) : M unit :=
  st ← get;
  match slo_definitions st !! slo_id d with
  | Some _ => mret tt
  | None =>
      put (Monitor (slos st) (<[slo_id d := d]> (slo_definitions st))
                   (slo_measurements st) (slo_alerts st))
  end.

(** [SELECT target_percentage, measurement_window_hours FROM slo_definitions
    WHERE slo_id = %s], then [cursor.fetchone()]. *)
Definition fetchone_target (id : string) : M (option (Q * Z)) :=
  st ← get;
  mret ((fun d => (target d, window d)) <$> slo_definitions st !! id).

(** [INSERT INTO slo_measurements ...] in the exact reading: the values are
    stored as they are; the timestamp defaults to [NOW()]. *)
Definition insert_measurement (now : Z) (id : string)
    (successes total : Z) (current_slo error_budget_remaining : Q) : M unit :=
  st ← get;
  put (Monitor (slos st) (slo_definitions st)
         (slo_measurements st ++
            [MeasurementRow id now successes total current_slo
               error_budget_remaining])
         (slo_alerts st)).

(** [INSERT INTO slo_alerts ...]; [triggered_at] defaults to [NOW()]. *)
Definition insert_alert (now : Z) (id sev : string) (msg : message)
    (rate : Q) : M unit :=
  st ← get;
  put (Monitor (slos st) (slo_definitions st) (slo_measurements st)
         (slo_alerts st ++ [AlertRow id now sev msg rate])).

(** [ORDER BY timestamp]: rows with equal timestamps keep their order of
    insertion. *)
Fixpoint insert_by_timestamp (r : measurement_row) (l : list measurement_row)
    : list measurement_row :=
  match l with
  | [] => [r]
  | r' :: l' =>
      if (row_timestamp r <? row_timestamp r')%Z then r :: l
      else r' :: insert_by_timestamp r l'
  end.

Definition order_by_timestamp (l : list measurement_row)
    : list measurement_row :=
  fold_left (fun acc r => insert_by_timestamp r acc) l [].

(** [SELECT error_budget_remaining FROM slo_measurements WHERE slo_id = %s
    AND timestamp > NOW() - INTERVAL '1 hour' ORDER BY timestamp] *)
Definition last_hour (now : Z) (id : string) (rows : list measurement_row)
    : list Q :=
  row_error_budget_remaining <$>
    order_by_timestamp
      (List.filter
         (fun r => String.eqb (row_slo_id r) id
                   && (now - 3600 <? row_timestamp r)%Z)
         rows).

Definition select_last_hour (now : Z) (id : string) : M (list Q) :=
  st ← get;
  mret (last_hour now id (slo_measurements st)).

(** ** The methods of [SLOMonitor] *)

(** [for x in l: body(x)] *)
Fixpoint for_each {A} (l : list A) (body : A -> M unit) : M unit :=
  match l with
  | [] => mret tt
  | x :: l' => _ ← body x; for_each l' body
  end.

(** The literal list [slos] of [define_slos]. *)
Definition db_availability : slo :=
  Slo "db-availability" "database" "availability" 99.9 720
      "Database must be available 99.9% of time".

Definition query_latency : slo :=
  Slo "query-latency" "database" "latency" 95.0 168
      "95% of queries must complete in < 100ms".

Definition api_success_rate : slo :=
  Slo "api-success-rate" "api" "success_rate" 99.5 168
      "99.5% of API requests must succeed".

Definition bootstrap_slos : list slo :=
  [db_availability; query_latency; api_success_rate].

(** [self.slos[slo['slo_id']] = slo] *)
Definition remember_slo (d : slo) : M unit :=
  st ← get;
  put (Monitor (<[slo_id d := d]> (slos st)) (slo_definitions st)
         (slo_measurements st) (slo_alerts st)).

Definition define_slos : M unit :=
  for_each bootstrap_slos (fun slo =>
    _ ← insert_definition slo;
    remember_slo slo).

(** [simulate_measurements] (lines 119-160) in the exact reading: the rate
    is the rational its float stands for, and no operation rounds. *)
Definition simulate_measurements (now : Z) (id : string) (success_rate : Q)
    : M measurement :=
  let total := 1000%Z in
  let successes := py_int (inject_Z total * (success_rate / 100)) in
  row ← fetchone_target id;
  (* [target, window = cursor.fetchone()] cannot unpack [None] *)
  '(target, window) ← lift (match row with
                             | Some tw => Ok tw
                             | None => Raise TypeError
                             end);
  '(current_slo, error_budget_remaining) ←
     lift (error_budget target total successes);
  _ ← insert_measurement now id successes total current_slo
        error_budget_remaining;
  mret (Measurement id current_slo target error_budget_remaining
          successes total).

Definition calculate_burn_rate (now : Z) (id : string) : M Q :=
  measurements ← select_last_hour now id;
  lift (burn_rate measurements).

Definition check_slo_alerts (now : Z) (measurement : measurement) : M unit :=
  let slo_id := m_slo_id measurement in
  let current := m_current_slo measurement in
  let target := m_target measurement in
  let error_budget := m_error_budget measurement in
  (* Alert 1: SLO below target *)
  _ ← (if Qltb current target
       then insert_alert now slo_id "high"
              (SLO_below_target current target) 0
       else mret tt);
  (* Alert 2: Error budget low *)
  _ ← (if Qltb error_budget 20
       then
         let severity :=
           if Qltb error_budget 10 then "critical" else "high" in
         insert_alert now slo_id severity (Error_budget_low error_budget) 0
       else mret tt);
  (* Alert 3: High burn rate *)
  burn_rate ← calculate_burn_rate now slo_id;
  if Qltb 5 burn_rate
  then insert_alert now slo_id "critical" (High_burn_rate burn_rate) burn_rate
  else mret tt.

(** The monitor after [connect] and [setup] on an empty database. *)
Definition fresh : monitor := Monitor ∅ ∅ [] [].

(** The state a computation ends in, returned or raised. *)
Definition final {A} (o : outcome A) : monitor :=
  match o with
  | Done _ st => st
  | Failed _ st => st
  end.

(** ** Notions used in the statements *)

(** The monitor with its alert table replaced. *)
Definition with_alerts (st : monitor) (alerts : list alert_row) : monitor :=
  Monitor (slos st) (slo_definitions st) (slo_measurements st) alerts.

(** The rows that one call of [check_slo_alerts] appends, by rule. *)
Definition target_violation (now : Z) (m : measurement) : list alert_row :=
  if Qltb (m_current_slo m) (m_target m)
  then [AlertRow (m_slo_id m) now "high"
          (SLO_below_target (m_current_slo m) (m_target m)) 0]
  else [].

Definition budget_low (now : Z) (m : measurement) : list alert_row :=
  if Qltb (m_error_budget m) 20
  then [AlertRow (m_slo_id m) now
          (if Qltb (m_error_budget m) 10 then "critical" else "high")
          (Error_budget_low (m_error_budget m)) 0]
  else [].

Definition burn_rate_high (now : Z) (m : measurement) (rate : Q)
    : list alert_row :=
  if Qltb 5 rate
  then [AlertRow (m_slo_id m) now "critical" (High_burn_rate rate) rate]
  else [].

(** The table after [INSERT ... ON CONFLICT (slo_id) DO NOTHING]. *)
Definition on_conflict_do_nothing (d : slo) (defs : gmap string slo)
    : gmap string slo :=
  match defs !! slo_id d with
  | Some _ => defs
  | None => <[slo_id d := d]> defs
  end.

(** One turn of the loop of [define_slos]. *)
Definition register (d : slo) (st : monitor) : monitor :=
  Monitor (<[slo_id d := d]> (slos st))
          (on_conflict_do_nothing d (slo_definitions st))
          (slo_measurements st) (slo_alerts st).

(** The success count of line 123 in the exact reading. *)
Definition successes_of (success_rate : Q) : Z :=
  py_int (inject_Z 1000 * (success_rate / 100)).

(** ** Dashboard, report and monitoring loop *)

From Stdlib Require Import Sorted Permutation.

(** The order of [ORDER BY timestamp]. *)
Definition by_timestamp (r1 r2 : measurement_row) : Prop :=
  (row_timestamp r1 <= row_timestamp r2)%Z.

(** The order of [ORDER BY triggered_at DESC]. *)
Definition newest_first (a1 a2 : alert_row) : Prop :=
  (triggered_at a2 <= triggered_at a1)%Z.

(** [x >= y] on numbers, as a boolean. *)
Definition Qgeb (x y : Q) : bool := Qle_bool y x.

(** Lines 258-267 of [print_slo_dashboard]: the status and its symbol. *)
Definition status_indicator (current_slo target error_budget : Q)
    : string * string :=
  if Qgeb current_slo target && Qltb 50 error_budget
  then ("HEALTHY", "✓")
  else if Qgeb current_slo target && Qltb 20 error_budget
  then ("WARNING", "⚠")
  else ("CRITICAL", "✗").

(** [SELECT ... FROM slo_measurements WHERE slo_id = %s ORDER BY timestamp
    DESC LIMIT 1], then [cursor.fetchone()]: the newest row of the SLO (the
    one inserted last among rows of equal timestamp), if there is one. *)
Definition latest_measurement (id : string) (rows : list measurement_row)
    : option measurement_row :=
  last (order_by_timestamp
          (List.filter (fun r => String.eqb (row_slo_id r) id) rows)).

(** What one turn of the loop of [print_slo_dashboard] prints for an SLO,
    before formatting. *)
Record dashboard_entry : Type := DashboardEntry {
  de_symbol : string;
  de_service_name : string;
  de_slo_type : string;
  de_description : string;
  de_status : string;
  de_current_slo : Q;
  de_target : Q;
  de_error_budget : Q;
  de_success : Z;
  de_total : Z;
  de_success_rate : Q;
  de_last_updated : Z
}.

(** One turn of the loop over [self.slos.keys()] (lines 238-275): [None] when
    the id is no key of [self.slos] or the turn ends in [continue]; the
    division of line 274 raises on a row without requests. *)
Definition dashboard_turn (st : monitor) (id : string)
    : option (result dashboard_entry) :=
  slo_def ← slos st !! id;
  row ← latest_measurement id (slo_measurements st);
  let current_slo := row_current_slo row in
  let error_budget := row_error_budget_remaining row in
  let target := target slo_def in
  let '(status, symbol) := status_indicator current_slo target error_budget in
  Some (ratio ← py_div (inject_Z (row_success_count row))
                       (inject_Z (row_total_count row));
        mret (DashboardEntry symbol (service_name slo_def) (slo_type slo_def)
                (description slo_def) status current_slo target error_budget
                (row_success_count row) (row_total_count row) (ratio * 100)
                (row_timestamp row))).

(** [ORDER BY triggered_at DESC]: newest first, alerts of equal time in their
    order of insertion. *)
Fixpoint insert_by_triggered_at (a : alert_row) (l : list alert_row)
    : list alert_row :=
  match l with
  | [] => [a]
  | a' :: l' =>
      if (triggered_at a' <? triggered_at a)%Z then a :: l
      else a' :: insert_by_triggered_at a l'
  end.

Definition order_by_triggered_at_desc (l : list alert_row) : list alert_row :=
  fold_left (fun acc a => insert_by_triggered_at a acc) l [].

(** [SELECT ... FROM slo_alerts WHERE triggered_at > NOW() - INTERVAL '1 hour'
    ORDER BY triggered_at DESC LIMIT 5] (lines 278-286). *)
Definition recent_alerts (now : Z) (alerts : list alert_row)
    : list alert_row :=
  take 5 (order_by_triggered_at_desc
            (List.filter (fun a => (now - 3600 <? triggered_at a)%Z) alerts)).

(** [AVG(column)] over a group of rows that is not empty. *)
Definition avg (values : list Q) : Q :=
  fold_right Qplus 0 values / inject_Z (Z.of_nat (length values)).

(** A row of the query of [print_summary_report] with the compliance verdict
    of line 327. *)
Record summary_row : Type := SummaryRow {
  sr_slo_id : string;
  sr_service : string;
  sr_target : Q;
  sr_avg_slo : Q;
  sr_avg_budget : Q;
  sr_count : nat;
  sr_compliance : string
}.

(** The group of one definition in the join of lines 311-322: no row for a
    definition without measurements. *)
Definition summary_of (st : monitor) (d : slo) : option summary_row :=
  let rows :=
    List.filter (fun m => String.eqb (slo_id d) (row_slo_id m))
      (slo_measurements st) in
  match rows with
  | [] => None
  | _ :: _ =>
      let avg_slo := avg (row_current_slo <$> rows) in
      let avg_budget := avg (row_error_budget_remaining <$> rows) in
      let compliance :=
        if Qgeb avg_slo (target d) then "COMPLIANT" else "NON-COMPLIANT" in
      Some (SummaryRow (slo_id d) (service_name d) (target d) avg_slo
              avg_budget (length rows) compliance)
  end.

(** [SELECT COUNT( * ) FROM slo_alerts] *)
Definition total_alerts (st : monitor) : nat := length (slo_alerts st).

(** The count of one group of [SELECT severity, COUNT( * ) FROM slo_alerts
    GROUP BY severity]; a severity without alerts has no group. *)
Definition alerts_of_severity (sev : string) (st : monitor) : nat :=
  length (List.filter (fun a => String.eqb (severity a) sev) (slo_alerts st)).

(** The three rates that one pass of the loop of [run_monitoring] draws with
    [random.uniform]. *)
Record draws : Type := Draws {
  db_rate : Q;
  latency_rate : Q;
  api_rate : Q
}.

(** [random.uniform(a, b)] returns a number between [a] and [b]; the range of
    the latency rate depends on the iteration count (line 384). *)
Definition drawn_at (iteration : Z) (d : draws) : Prop :=
  99.85 <= db_rate d <= 99.95 /\
  (if (iteration mod 5 =? 0)%Z
   then 88 <= latency_rate d <= 92
   else 93 <= latency_rate d <= 97) /\
  99.3 <= api_rate d <= 99.7.

(** [print_slo_dashboard]: one turn per key of [self.slos], then the recent
    alerts ([recent_alerts]).  It writes nothing, and the division of line
    274 is the only step that can raise.  The keys come in the order of
    [map_to_list]; no turn writes and every turn that raises raises the same
    exception, so the order does not show in the outcome. *)
Definition print_slo_dashboard : M unit :=
  st ← get;
  for_each (map_to_list (slos st)).*1 (fun slo_id =>
    match dashboard_turn st slo_id with
    | Some (Raise e) => lift (Raise e)
    | _ => mret tt
    end).

(** [print_summary_report] prints the rows of [summary_of], [total_alerts]
    and the groups of [alerts_of_severity].  It writes nothing, and no step
    of it raises: line 327 compares two [Decimal]s, the format specs of lines
    329-335 apply to [Decimal]s and [int]s, and [severity.upper()] to a
    [str].  What it prints is not part of the monitor, so as a step of
    [run_monitoring] it is the computation that returns at once. *)
Definition print_summary_report : M unit := mret tt.

(** The values that a [DECIMAL(5,2)] column holds. *)
Definition decimal_5_2 (x : Q) : Prop :=
  exists k : Z, (-100000 < k < 100000)%Z /\ x == inject_Z k / 100.

(** The severities that [check_slo_alerts] writes. *)
Definition high_or_critical (a : alert_row) : Prop :=
  severity a = "high" \/ severity a = "critical".

(** ** The measurement routine as the machine runs it

    [success_rate] is a Python [float], so lines 123 and 137 of
    [simulate_measurements] run on binary64 with round-to-nearest-even, and
    the [INSERT] of line 145 coerces the values to the types of their
    columns.  This module embeds the float-typed lines on the kernel's
    primitive floats and the routine and the loop of [run_monitoring] on top
    of them; the [Decimal] arithmetic of lines 140-142 stays exact. *)

Module Binary64.

(** [int(x)] for a float: truncation towards zero; [inf] and [nan] raise. *)
Definition py_int (x : float) : result Z :=
  match Prim2SF x with
  | S754_zero _ => Ok 0%Z
  | S754_finite s m e =>
      let a := match e with
               | Z0 => Zpos m
               | Zpos p => Z.shiftl (Zpos m) (Zpos p)
               | Zneg p => Z.shiftr (Zpos m) (Zpos p)
               end in
      Ok (if s then (- a)%Z else a)
  | S754_infinity _ => Raise OverflowError
  | S754_nan => Raise ValueError
  end.

Definition of_int (z : Z) : spec_float :=
  match z with
  | Z0 => S754_zero false
  | Zpos p => S754_finite false p 0
  | Zneg p => S754_finite true p 0
  end.

(** [a / b] on two [int]s: the quotient rounded once to binary64. *)
Definition truediv (a b : Z) : result float :=
  if (b =? 0)%Z then Raise ZeroDivisionError
  else
    let q := SF2Prim (SFdiv prec emax (of_int a) (of_int b)) in
    if is_infinity q then Raise OverflowError else Ok q.

(** Lines 122, 123 and 137: [total], [successes] and [current_slo]. *)
Definition counts_and_slo (success_rate : float) : result (Z * Z * float) :=
  let total := 1000%Z in
  successes ← py_int (1000 * (success_rate / 100))%float;
  ratio ← truediv successes total;
  let current_slo := (ratio * 100)%float in
  mret (successes, total, current_slo).

(** The rational a finite float stands for. *)
Definition to_Q (x : float) : Q :=
  match Prim2SF x with
  | S754_finite s m e =>
      let a := match e with
               | Z0 => inject_Z (Zpos m)
               | Zpos p => inject_Z (Z.shiftl (Zpos m) (Zpos p))
               | Zneg p => Zpos m # Pos.shiftl 1 (Npos p)
               end in
      if s then - a else a
  | _ => 0
  end.

(** *** The columns of [slo_measurements] *)

(** A number rounded to two decimals as PostgreSQL rounds a [numeric]: to the
    nearest, ties away from zero. *)
Definition round_2 (x : Q) : Q :=
  if Qle_bool 0 x then Qfloor (x * 100 + (1 # 2)) # 100
  else - (Qfloor (- x * 100 + (1 # 2)) # 100).

(** A value assigned to a [DECIMAL(precision, 2)] column: rounded to two
    decimals, and refused when the rounded value needs more than
    [precision - 2] digits before the point. *)
Definition numeric (precision : Z) (x : Q) : result Q :=
  let stored := round_2 x in
  let bound := inject_Z (10 ^ (precision - 2)) in
  if Qltb (- bound) stored && Qltb stored bound then Ok stored
  else Raise NumericValueOutOfRange.

(** A value assigned to an [INT] column. *)
Definition int4 (z : Z) : result Z :=
  if ((-2147483648 <=? z) && (z <=? 2147483647))%Z then Ok z
  else Raise NumericValueOutOfRange.

(** [INSERT INTO slo_measurements ...] with the coercions of the columns
    [success_count INT], [total_count INT], [current_slo DECIMAL(5,2)] and
    [error_budget_remaining DECIMAL(10,2)].  psycopg2 sends the float as its
    [repr], the shortest decimal that reads back as the float; the model
    rounds the exact value of the float instead, which gives the same two
    decimals unless a tie of the column lies between the two, and the
    products of line 137 lie next to multiples of 0.1.  Line 137 yields a
    finite float; the guard refuses any other. *)
Definition insert_measurement (now : Z) (id : string) (successes total : Z)
    (current_slo : float) (error_budget_remaining : Q) : M unit :=
  success_count ← lift (int4 successes);
  total_count ← lift (int4 total);
  stored_slo ← lift (if is_finite current_slo
                     then numeric 5 (to_Q current_slo)
                     else Raise NumericValueOutOfRange);
  stored_budget ← lift (numeric 10 error_budget_remaining);
  st ← get;
  put (Monitor (slos st) (slo_definitions st)
         (slo_measurements st ++
            [MeasurementRow id now success_count total_count stored_slo
               stored_budget])
         (slo_alerts st)).

(** [simulate_measurements] (lines 119-160).  The returned dict holds the
    float [current_slo], here as the rational it stands for, and the
    [Decimal] budget; the row holds what the columns make of them. *)
Definition simulate_measurements (now : Z) (id : string)
    (success_rate : float) : M measurement :=
  let total := 1000%Z in
  successes ← lift (py_int (1000 * (success_rate / 100))%float);
  row ← fetchone_target id;
  (* [target, window = cursor.fetchone()] cannot unpack [None] *)
  '(target, window) ← lift (match row with
                             | Some tw => Ok tw
                             | None => Raise TypeError
                             end);
  ratio ← lift (truediv successes total);
  let current_slo := (ratio * 100)%float in
  let allowed_errors := allowed_errors_of target total in
  let actual_errors := (total - successes)%Z in
  spent ← lift (decimal_div (allowed_errors - inject_Z actual_errors)
                  allowed_errors);
  let error_budget_remaining := spent * 100 in
  _ ← insert_measurement now id successes total current_slo
        error_budget_remaining;
  mret (Measurement id (to_Q current_slo) target error_budget_remaining
          successes total).

(** *** The loop of [run_monitoring] *)

(** The three rates that one pass of the loop draws with [random.uniform]. *)
Record draws : Type := Draws {
  db_rate : float;
  latency_rate : float;
  api_rate : float
}.

(** One pass of the loop (lines 378-391), at time [now]. *)
Definition monitoring_pass (now : Z) (d : draws) : M unit :=
  measurement ← simulate_measurements now "db-availability" (db_rate d);
  _ ← check_slo_alerts now measurement;
  measurement ← simulate_measurements now "query-latency" (latency_rate d);
  _ ← check_slo_alerts now measurement;
  measurement ← simulate_measurements now "api-success-rate" (api_rate d);
  check_slo_alerts now measurement.

(** The [while] loop (lines 375-397), one turn per tick with its time and
    its draws; [iteration] counts the turns made before. *)
Fixpoint monitoring_loop (iteration : Z) (ticks : list (Z * draws))
    : M unit :=
  match ticks with
  | [] => mret tt
  | tick :: ticks' =>
      let iteration := (iteration + 1)%Z in
      _ ← monitoring_pass (fst tick) (snd tick);
      _ ← (if (iteration mod 2 =? 0)%Z then print_slo_dashboard
           else mret tt);
      monitoring_loop iteration ticks'
  end.

(** [run_monitoring] after a successful [connect] and [setup]. *)
Definition run_monitoring (ticks : list (Z * draws)) : M unit :=
  _ ← define_slos;
  _ ← monitoring_loop 0 ticks;
  print_summary_report.

(** A float between 0 and 100. *)
Definition percentage (x : float) : Prop :=
  (0 <=? x)%float = true /\ (x <=? 100)%float = true.

(** Three rates between 0 and 100, as the loop draws them: its ranges lie
    between 88 and 99.95. *)
Definition percentages (d : draws) : Prop :=
  percentage (db_rate d) /\ percentage (latency_rate d) /\
  percentage (api_rate d).

(** Every SLO of the bootstrap list is stored, under a target that the
    column holds and that is not 100. *)
Definition measurable (st : monitor) : Prop :=
  forall d, In d bootstrap_slos ->
    exists d0, slo_definitions st !! slo_id d = Some d0 /\
               decimal_5_2 (target d0) /\ ~ target d0 == 100.

End Binary64.

(** * Properties *)

(** ** Numbers *)

Lemma Qltb_lt (x y : Q) : Qltb x y = true <-> x < y.
Proof.
  unfold Qltb. rewrite negb_true_iff. split.
  - intros H. apply Qnot_le_lt. intros Hle.
    apply Qle_bool_iff in Hle. congruence.
  - intros H. destruct (Qle_bool y x) eqn:E; [|reflexivity].
    apply Qle_bool_iff in E. lra.
Qed.

Lemma Qltb_ge (x y : Q) : Qltb x y = false <-> y <= x.
Proof.
  unfold Qltb. rewrite negb_false_iff. apply Qle_bool_iff.
Qed.

Lemma py_div_nonzero (x y : Q) : ~ y == 0 -> py_div x y = Ok (x / y).
Proof.
  intros H. unfold py_div.
  destruct (Qeq_bool y 0) eqn:E; [|reflexivity].
  apply Qeq_bool_iff in E. contradiction.
Qed.

Lemma decimal_div_nonzero (x y : Q) :
  ~ y == 0 -> decimal_div x y = Ok (x / y).
Proof.
  intros H. unfold decimal_div.
  destruct (Qeq_bool y 0) eqn:E; [|reflexivity].
  apply Qeq_bool_iff in E. contradiction.
Qed.

Lemma decimal_div_zero (x y : Q) :
  y == 0 ->
  decimal_div x y
  = Raise (if Qeq_bool x 0 then InvalidOperation else ZeroDivisionError).
Proof.
  intros H. unfold decimal_div.
  apply Qeq_bool_iff in H. rewrite H. now destruct (Qeq_bool x 0).
Qed.

Lemma py_div_zero (x y : Q) : y == 0 -> py_div x y = Raise ZeroDivisionError.
Proof.
  intros H. unfold py_div. apply Qeq_bool_iff in H. now rewrite H.
Qed.

Lemma inject_Z_nonzero (z : Z) : z <> 0%Z -> ~ inject_Z z == 0.
Proof.
  intros H E. apply H. unfold Qeq in E. simpl in E. lia.
Qed.

(** ** Indexing *)

Lemma getitem_first {A} (x : A) (l : list A) : getitem (x :: l) 0 = Ok x.
Proof. reflexivity. Qed.

Lemma getitem_last {A} (l : list A) (x : A) :
  last l = Some x -> getitem l (-1) = Ok x.
Proof.
  intros H. unfold getitem.
  assert (Hlen : (0 < length l)%nat).
  { destruct l; [discriminate | simpl; lia]. }
  replace (-1 <? 0)%Z with true by reflexivity.
  destruct (Z.ltb_spec (Z.of_nat (length l) + -1) 0); [lia|].
  replace (Z.to_nat (Z.of_nat (length l) + -1)) with (Init.Nat.pred (length l))
    by lia.
  rewrite last_lookup in H. now rewrite H.
Qed.

Lemma last_is_Some {A} (l : list A) : (0 < length l)%nat -> is_Some (last l).
Proof.
  intros H. rewrite last_is_Some. intros ->. simpl in H. lia.
Qed.

(** ** Burn rate *)

(** With two samples or more the estimator divides the drop from the first to
    the last sample by the number of samples. *)
Lemma burn_rate_eq (measurements : list Q) (oldest newest : Q) :
  (2 <= length measurements)%nat ->
  head measurements = Some oldest ->
  last measurements = Some newest ->
  burn_rate measurements
  = Ok ((oldest - newest) / inject_Z (Z.of_nat (length measurements))).
Proof.
  intros Hlen Hhd Hlast. unfold burn_rate.
  destruct (Nat.ltb_spec (length measurements) 2); [lia|].
  destruct measurements as [|x l]; [discriminate|].
  injection Hhd as ->.
  rewrite getitem_first. cbn [mbind result_bind].
  rewrite (getitem_last _ _ Hlast). cbn [mbind result_bind].
  apply py_div_nonzero, inject_Z_nonzero. lia.
Qed.

(** The estimator never raises. *)
Lemma burn_rate_total (measurements : list Q) :
  exists rate, burn_rate measurements = Ok rate.
Proof.
  destruct (Nat.ltb_spec (length measurements) 2) as [Hlt|Hge].
  - exists 0. unfold burn_rate.
    destruct (Nat.ltb_spec (length measurements) 2); [reflexivity|lia].
  - destruct measurements as [|x l]; [simpl in Hge; lia|].
    destruct (last_is_Some (x :: l)) as [y Hy]; [simpl; lia|].
    eexists. now apply (burn_rate_eq (x :: l) x y).
Qed.

(** C1, as the code has it: for every sequence of at least two samples the
    burn-rate estimator returns [(oldest - newest) / sample_count]: the
    divisor is the number of samples, not the number of steps between them. *)
Theorem burn_rate_divides_by_sample_count (measurements : list Q) :
  (2 <= length measurements)%nat ->
  exists oldest newest,
    head measurements = Some oldest /\
    last measurements = Some newest /\
    returns (burn_rate measurements)
      ((oldest - newest) / inject_Z (Z.of_nat (length measurements))).
Proof.
  intros Hlen.
  destruct measurements as [|x l]; [simpl in Hlen; lia|].
  destruct (last_is_Some (x :: l)) as [y Hy]; [simpl; lia|].
  exists x, y. repeat split; [exact Hy|].
  rewrite (burn_rate_eq (x :: l) x y Hlen eq_refl Hy). simpl. reflexivity.
Qed.

(** For the samples [[80, 60, 40]] the theorem gives [(80 - 40) / 3]. *)
Lemma burn_rate_divides_by_sample_count_witness :
  (2 <= length [80; 60; 40])%nat /\
  exists oldest newest,
    head [80; 60; 40] = Some oldest /\
    last [80; 60; 40] = Some newest /\
    returns (burn_rate [80; 60; 40])
      ((oldest - newest) / inject_Z (Z.of_nat (length [80; 60; 40]))).
Proof.
  split; [simpl; lia|].
  apply (burn_rate_divides_by_sample_count [80; 60; 40]). simpl. lia.
Defined.

(** C1 as stated fails: on [[80, 60, 40]] the estimator returns [40/3], not
    [(80 - 40) / (3 - 1) = 20]. *)
Lemma burn_rate_80_60_40_is_not_20 :
  returns (burn_rate [80; 60; 40]) (40 # 3) /\
  ~ returns (burn_rate [80; 60; 40]) ((80 - 40) / (3 - 1)) /\
  ~ returns (burn_rate [80; 60; 40]) 20.
Proof.
  repeat split.
  - intros H. vm_compute in H. discriminate.
  - intros H. vm_compute in H. discriminate.
Qed.

(** The same through [calculate_burn_rate]: three measurements of one SLO in
    the last hour with budgets 80, 60 and 40; an older one and one of another
    SLO are not selected. *)
Example calculate_burn_rate_80_60_40 :
  let st :=
    Monitor ∅ ∅
      [MeasurementRow "query-latency" 100 990 1000 99 95;
       MeasurementRow "query-latency" 4000 990 1000 99 80;
       MeasurementRow "db-availability" 4005 999 1000 99.9 0;
       MeasurementRow "query-latency" 4010 980 1000 98 60;
       MeasurementRow "query-latency" 4020 970 1000 97 40]
      [] in
  calculate_burn_rate 4030 "query-latency" st = Done (40 # 3) st.
Proof.
  vm_compute. reflexivity.
Qed.

(** C6: with fewer than two samples the estimator returns exactly 0 and does
    not raise. *)
Theorem burn_rate_insufficient_data (measurements : list Q) :
  (length measurements < 2)%nat -> burn_rate measurements = Ok 0.
Proof.
  intros H. unfold burn_rate.
  destruct (Nat.ltb_spec (length measurements) 2); [reflexivity|lia].
Qed.

Lemma burn_rate_insufficient_data_witness :
  burn_rate [] = Ok 0 /\ burn_rate [42] = Ok 0.
Proof.
  split.
  - apply (burn_rate_insufficient_data []). simpl. lia.
  - apply (burn_rate_insufficient_data [42]). simpl. lia.
Defined.

(** ** Error budget *)

Section ErrorBudget.

Variables (target : Q) (total : Z).

Let allowed_errors := allowed_errors_of target total.

(** What lines 137-142 compute when both divisors are non-zero. *)
Lemma error_budget_eq (successes : Z) :
  total <> 0%Z ->
  ~ allowed_errors == 0 ->
  error_budget target total successes
  = Ok (inject_Z successes / inject_Z total * 100,
        (allowed_errors - inject_Z (total - successes)) / allowed_errors
        * 100).
Proof.
  intros Htotal Hallowed. unfold error_budget.
  rewrite (py_div_nonzero (inject_Z successes) (inject_Z total))
    by now apply inject_Z_nonzero.
  cbn [mbind result_bind].
  fold allowed_errors. now rewrite decimal_div_nonzero.
Qed.


(** A zero allowance: the exception depends on the dividend
    [allowed_errors - actual_errors], which is zero exactly when there are no
    errors. *)
Lemma error_budget_allowed_zero (successes : Z) :
  total <> 0%Z ->
  allowed_errors == 0 ->
  error_budget target total successes
  = Raise (if (total - successes =? 0)%Z
           then InvalidOperation else ZeroDivisionError).
Proof.
  intros Htotal Hallowed. unfold error_budget.
  rewrite (py_div_nonzero (inject_Z successes) (inject_Z total))
    by now apply inject_Z_nonzero.
  cbn [mbind result_bind].
  fold allowed_errors. rewrite decimal_div_zero by assumption.
  cbn [mbind result_bind]. f_equal.
  destruct (Z.eqb_spec (total - successes) 0) as [E|E].
  - rewrite E. replace (Qeq_bool (allowed_errors - inject_Z 0) 0) with true;
      [reflexivity|].
    symmetry. apply Qeq_bool_iff. rewrite Hallowed. reflexivity.
  - replace (Qeq_bool (allowed_errors - inject_Z (total - successes)) 0)
      with false; [reflexivity|].
    symmetry. apply not_true_is_false. intros H. apply Qeq_bool_iff in H.
    rewrite Hallowed in H.
    apply (inject_Z_nonzero _ E). lra.
Qed.

Lemma allowed_errors_zero_iff :
  total <> 0%Z -> (allowed_errors == 0 <-> target == 100).
Proof.
  intros Htotal. subst allowed_errors. unfold allowed_errors_of.
  pose proof (inject_Z_nonzero total Htotal) as Hnz.
  split; intros H.
  - assert (E : 1 - target / 100 == 0).
    { destruct (Qmult_integral _ _ H); [contradiction|assumption]. }
    assert (E2 : target / 100 == 1) by lra.
    assert (E3 : target == target / 100 * 100) by (field).
    rewrite E3, E2. reflexivity.
  - rewrite H. field.
Qed.

End ErrorBudget.

(** The allowance is positive exactly for targets below 100 (with a positive
    number of requests). *)
Lemma allowed_errors_pos (target : Q) (total : Z) :
  (0 < total)%Z -> target < 100 -> 0 < allowed_errors_of target total.
Proof.
  intros Htotal Htarget. unfold allowed_errors_of.
  apply Qmult_lt_0_compat.
  - change 0 with (inject_Z 0). now rewrite <- Zlt_Qlt.
  - assert (target / 100 < 1); [|lra].
    apply Qlt_shift_div_r; lra.
Qed.

Lemma Qdiv_lt_mono_r (a b c : Q) : 0 < c -> a < b -> a / c < b / c.
Proof.
  intros Hc Hab. unfold Qdiv.
  apply Qmult_lt_r; [now apply Qinv_lt_0_compat|assumption].
Qed.

(** [current_slo] of a measurement with [0 <= success_count <= total_count]. *)
Lemma current_slo_range (total successes : Z) :
  (0 < total)%Z -> (0 <= successes <= total)%Z ->
  0 <= inject_Z successes / inject_Z total * 100 <= 100.
Proof.
  intros Htotal [Hlo Hhi].
  assert (Ht : 0 < inject_Z total).
  { change 0 with (inject_Z 0). now rewrite <- Zlt_Qlt. }
  assert (Hs : 0 <= inject_Z successes).
  { change 0 with (inject_Z 0). now rewrite <- Zle_Qle. }
  assert (Hst : inject_Z successes <= inject_Z total) by now rewrite <- Zle_Qle.
  assert (H0 : 0 <= inject_Z successes / inject_Z total).
  { apply Qle_shift_div_l; lra. }
  assert (H1 : inject_Z successes / inject_Z total <= 1).
  { apply Qle_shift_div_r; lra. }
  lra.
Qed.

(** The budget of a measurement without negative errors is at most 100. *)
Lemma error_budget_remaining_le_100 (allowed_errors : Q) (actual_errors : Z) :
  0 < allowed_errors -> (0 <= actual_errors)%Z ->
  (allowed_errors - inject_Z actual_errors) / allowed_errors * 100 <= 100.
Proof.
  intros Hallowed Hactual.
  assert (Ha : 0 <= inject_Z actual_errors).
  { change 0 with (inject_Z 0). now rewrite <- Zle_Qle. }
  assert (H1 : (allowed_errors - inject_Z actual_errors) / allowed_errors <= 1).
  { apply Qle_shift_div_r; lra. }
  lra.
Qed.

(** The budget under a target of two decimals below 100: the allowance is at
    least one ten-thousandth of the requests, which bounds the budget from
    below. *)
Lemma error_budget_remaining_ge (target : Q) (total successes k : Z) :
  target == inject_Z k / 100 -> target < 100 ->
  (0 < total)%Z -> (0 <= successes <= total)%Z ->
  -999900 <= (allowed_errors_of target total - inject_Z (total - successes))
             / allowed_errors_of target total * 100.
Proof.
  intros Hk Htarget Htotal [Hlo Hhi].
  pose proof (allowed_errors_pos target total Htotal Htarget) as Ha.
  assert (Hk' : inject_Z k <= 9999).
  { assert (H : inject_Z k < inject_Z 10000).
    { change (inject_Z 10000) with 10000.
      assert (E : inject_Z k == inject_Z k / 100 * 100) by field.
      rewrite E, <- Hk. lra. }
    rewrite <- Zlt_Qlt in H. change 9999 with (inject_Z 9999).
    rewrite <- Zle_Qle. lia. }
  assert (Ht : 0 < inject_Z total).
  { change 0 with (inject_Z 0). now rewrite <- Zlt_Qlt. }
  assert (Hactual : inject_Z (total - successes) <= inject_Z total).
  { rewrite <- Zle_Qle. lia. }
  assert (Hallowed : inject_Z total <= 10000 * allowed_errors_of target total).
  { unfold allowed_errors_of. rewrite Hk.
    assert (E : 10000 * (inject_Z total * (1 - inject_Z k / 100 / 100))
                == inject_Z total * (10000 - inject_Z k)) by field.
    rewrite E. nra. }
  assert (H : -9999 <= (allowed_errors_of target total
                        - inject_Z (total - successes))
                       / allowed_errors_of target total).
  { apply Qle_shift_div_l; [assumption|]. lra. }
  lra.
Qed.




(** C3, as the code has it: the division by [allowed_errors] is not guarded.
    With [target_percentage = 100] the allowance is zero and the calculator
    raises for every measurement: [decimal.DivisionByZero], a
    [ZeroDivisionError], when there are errors, and
    [decimal.InvalidOperation] when there are none; it returns no
    [error_budget_remaining]. *)
Theorem error_budget_target_100_raises (target : Q) (total successes : Z) :
  total <> 0%Z ->
  target == 100 ->
  allowed_errors_of target total == 0 /\
  error_budget target total successes
  = Raise (if (total - successes =? 0)%Z
           then InvalidOperation else ZeroDivisionError).
Proof.
  intros Htotal Htarget.
  assert (Ha : allowed_errors_of target total == 0)
    by now apply allowed_errors_zero_iff.
  split; [assumption|]. now apply error_budget_allowed_zero.
Qed.

Lemma error_budget_target_100_raises_witness :
  allowed_errors_of 100 1000 == 0 /\
  error_budget 100 1000 995
  = Raise (if (1000 - 995 =? 0)%Z
           then InvalidOperation else ZeroDivisionError).
Proof.
  apply (error_budget_target_100_raises 100 1000 995).
  - lia.
  - reflexivity.
Defined.

(** C3 as stated fails: with a target of 100 the calculator returns neither
    100 for a measurement without errors, where it raises
    [decimal.InvalidOperation], nor 0 for one with errors, where it raises
    the division error; [simulate_measurements] on a registry that stores
    such a target ends in these exceptions without recording anything. *)
Lemma target_100_is_a_division_error :
  error_budget 100 1000 1000 = Raise InvalidOperation /\
  error_budget 100 1000 999 = Raise ZeroDivisionError /\
  (forall current_slo, error_budget 100 1000 1000 <> Ok (current_slo, 100)) /\
  (forall current_slo, error_budget 100 1000 999 <> Ok (current_slo, 0)) /\
  (let always_up :=
     Slo "always-up" "database" "availability" 100 720 "No downtime" in
   let st := Monitor ∅ {["always-up" := always_up]} [] [] in
   simulate_measurements 0 "always-up" 100 st = Failed InvalidOperation st /\
   simulate_measurements 0 "always-up" 99.9 st = Failed ZeroDivisionError st).
Proof.
  repeat split; try reflexivity;
    try (intros c H; vm_compute in H; discriminate);
    vm_compute; reflexivity.
Qed.

(** C5, as the code has it: for every measurement with
    [0 <= success_count <= total_count], [total_count > 0] and a target
    strictly between 0 and 100 the calculator returns [current_slo] in
    [[0, 100]] and [error_budget_remaining <= 100].  The budget is not
    clamped at zero: for target 99.9, total 1000 and 995 successes it is
    -400.  It is bounded below all the same: a target read from the
    [DECIMAL(5,2)] column has two decimals, and under such a target the
    budget is at least -999900, the value it takes for target 99.99 and no
    success. *)
Theorem error_budget_bounds :
  (forall (target : Q) (total successes : Z),
     0 < target < 100 -> (0 < total)%Z -> (0 <= successes <= total)%Z ->
     exists current_slo error_budget_remaining,
       error_budget target total successes
       = Ok (current_slo, error_budget_remaining) /\
       0 <= current_slo <= 100 /\
       error_budget_remaining <= 100) /\
  (forall (target : Q) (total successes : Z),
     decimal_5_2 target ->
     0 < target < 100 -> (0 < total)%Z -> (0 <= successes <= total)%Z ->
     exists current_slo error_budget_remaining,
       error_budget target total successes
       = Ok (current_slo, error_budget_remaining) /\
       -999900 <= error_budget_remaining) /\
  (exists current_slo error_budget_remaining,
     decimal_5_2 99.99 /\
     error_budget 99.99 1000 0 = Ok (current_slo, error_budget_remaining) /\
     error_budget_remaining == -999900) /\
  (exists current_slo error_budget_remaining,
     error_budget 99.9 1000 995 = Ok (current_slo, error_budget_remaining) /\
     current_slo == 99.5 /\
     error_budget_remaining == -400).
Proof.
  split; [|split; [|split]].
  - intros target total successes [Ht0 Ht100] Htotal Hs.
    pose proof (allowed_errors_pos target total Htotal Ht100) as Ha.
    do 2 eexists. split.
    + apply error_budget_eq; [lia|lra].
    + split.
      * now apply current_slo_range.
      * apply error_budget_remaining_le_100; [assumption|lia].
  - intros target total successes (k & _ & Hk) [Ht0 Ht100] Htotal Hs.
    pose proof (allowed_errors_pos target total Htotal Ht100) as Ha.
    do 2 eexists. split.
    + apply error_budget_eq; [lia|lra].
    + now apply (error_budget_remaining_ge target total successes k).
  - do 2 eexists. split; [|split; [vm_compute; reflexivity|reflexivity]].
    exists 9999%Z. split; [lia|reflexivity].
  - do 2 eexists. split; [vm_compute; reflexivity|]. split; reflexivity.
Qed.

Lemma error_budget_bounds_witness :
  exists current_slo error_budget_remaining,
    error_budget 99.9 1000 995 = Ok (current_slo, error_budget_remaining) /\
    0 <= current_slo <= 100 /\
    error_budget_remaining <= 100.
Proof.
  apply (proj1 error_budget_bounds 99.9 1000%Z 995%Z).
  - split; reflexivity.
  - reflexivity.
  - split; discriminate.
Defined.

(** C5 as stated fails: for target 99.9, total 1000 and 995 successes the
    calculator returns -400, not -300. *)
Lemma error_budget_995_is_not_minus_300 :
  exists current_slo error_budget_remaining,
    error_budget 99.9 1000 995 = Ok (current_slo, error_budget_remaining) /\
    error_budget_remaining == -400 /\
    ~ error_budget_remaining == -300.
Proof.
  do 2 eexists. split; [vm_compute; reflexivity|].
  split; [reflexivity|]. intros H. vm_compute in H. discriminate.
Qed.

(** C7: for a fixed [total_count] and target with [allowed_errors > 0], the
    measurement with more actual errors has the strictly smaller
    [error_budget_remaining]. *)
Theorem error_budget_strictly_decreasing
    (target : Q) (total successes1 successes2 : Z) :
  0 < allowed_errors_of target total ->
  (total - successes1 < total - successes2)%Z ->
  exists current_slo1 budget1 current_slo2 budget2,
    error_budget target total successes1 = Ok (current_slo1, budget1) /\
    error_budget target total successes2 = Ok (current_slo2, budget2) /\
    budget2 < budget1.
Proof.
  intros Ha Herr.
  assert (Htotal : total <> 0%Z).
  { intros ->. unfold allowed_errors_of in Ha.
    change (inject_Z 0) with 0 in Ha. lra. }
  do 4 eexists. split; [|split].
  - apply error_budget_eq; [assumption|lra].
  - apply error_budget_eq; [assumption|lra].
  - assert (H : inject_Z (total - successes1) < inject_Z (total - successes2))
      by now rewrite <- Zlt_Qlt.
    assert ((allowed_errors_of target total - inject_Z (total - successes2))
            / allowed_errors_of target total
            < (allowed_errors_of target total - inject_Z (total - successes1))
              / allowed_errors_of target total).
    { apply Qdiv_lt_mono_r; lra. }
    lra.
Qed.

Lemma error_budget_strictly_decreasing_witness :
  exists current_slo1 budget1 current_slo2 budget2,
    error_budget 99.9 1000 999 = Ok (current_slo1, budget1) /\
    error_budget 99.9 1000 995 = Ok (current_slo2, budget2) /\
    budget2 < budget1.
Proof.
  apply (error_budget_strictly_decreasing 99.9 1000 999 995).
  - reflexivity.
  - reflexivity.
Defined.

(** ** Alerts *)

Lemma with_alerts_same (st : monitor) : with_alerts st (slo_alerts st) = st.
Proof. now destruct st. Qed.

(** [calculate_burn_rate] only reads [slo_measurements], returns what the
    estimator computes on the samples of the last hour, and never raises. *)
Lemma calculate_burn_rate_eq (now : Z) (id : string) (st : monitor) :
  exists rate,
    burn_rate (last_hour now id (slo_measurements st)) = Ok rate /\
    forall alerts,
      calculate_burn_rate now id (with_alerts st alerts)
      = Done rate (with_alerts st alerts).
Proof.
  destruct (burn_rate_total (last_hour now id (slo_measurements st)))
    as [rate Hrate].
  exists rate. split; [assumption|]. intros alerts.
  unfold calculate_burn_rate, select_last_hour, with_alerts.
  unfold mbind, M_bind, get, mret, M_ret, lift.
  cbn [slo_measurements]. now rewrite Hrate.
Qed.

Lemma insert_alert_eq (now : Z) (id sev : string) (msg : message) (rate : Q)
    (st : monitor) (alerts : list alert_row) :
  insert_alert now id sev msg rate (with_alerts st alerts)
  = Done tt (with_alerts st (alerts ++ [AlertRow id now sev msg rate])).
Proof. reflexivity. Qed.

Lemma check_slo_alerts_eq (now : Z) (m : measurement) (st : monitor) :
  exists rate,
    calculate_burn_rate now (m_slo_id m) st = Done rate st /\
    check_slo_alerts now m st
    = Done tt (with_alerts st
                 (slo_alerts st ++ target_violation now m
                    ++ budget_low now m ++ burn_rate_high now m rate)).
Proof.
  destruct (calculate_burn_rate_eq now (m_slo_id m) st) as (rate & _ & Hrate).
  exists rate. split.
  { specialize (Hrate (slo_alerts st)). now rewrite with_alerts_same in Hrate. }
  unfold check_slo_alerts, target_violation, budget_low, burn_rate_high.
  rewrite <- (with_alerts_same st) at 1.
  generalize (slo_alerts st) at 1 2 as alerts. intros alerts.
  destruct (Qltb (m_current_slo m) (m_target m));
    destruct (Qltb (m_error_budget m) 20);
    destruct (Qltb 5 rate) eqn:Hhigh;
    repeat first
      [ rewrite insert_alert_eq
      | rewrite Hrate
      | rewrite Hhigh
      | progress cbn [mret M_ret]
      | progress (unfold mbind at 1; unfold M_bind at 1) ];
    do 2 f_equal; simpl; rewrite ?app_nil_r, <- ?app_assoc; reflexivity.
Qed.

(** C4: one evaluation runs three independent checks in a fixed order and
    appends their alerts in that order: (1) [current_slo < target]: severity
    high, burn-rate field 0; (2) [error_budget_remaining < 20]: severity
    critical below 10 and high otherwise; (3) [burn_rate > 5]: severity
    critical, carrying the computed burn rate.  Each check fires on its own
    condition only, so any subset of them can fire together. *)
Theorem check_slo_alerts_three_checks_in_order
    (now : Z) (m : measurement) (st : monitor) :
  exists (rate : Q) (first second third : list alert_row),
    calculate_burn_rate now (m_slo_id m) st = Done rate st /\
    check_slo_alerts now m st
    = Done tt (with_alerts st (slo_alerts st ++ first ++ second ++ third)) /\
    (m_current_slo m < m_target m ->
     first = [AlertRow (m_slo_id m) now "high"
                (SLO_below_target (m_current_slo m) (m_target m)) 0]) /\
    (m_target m <= m_current_slo m -> first = []) /\
    (m_error_budget m < 10 ->
     second = [AlertRow (m_slo_id m) now "critical"
                 (Error_budget_low (m_error_budget m)) 0]) /\
    (10 <= m_error_budget m < 20 ->
     second = [AlertRow (m_slo_id m) now "high"
                 (Error_budget_low (m_error_budget m)) 0]) /\
    (20 <= m_error_budget m -> second = []) /\
    (5 < rate ->
     third = [AlertRow (m_slo_id m) now "critical" (High_burn_rate rate)
                rate]) /\
    (rate <= 5 -> third = []).
Proof.
  destruct (check_slo_alerts_eq now m st) as (rate & Hrate & Hcheck).
  exists rate, (target_violation now m), (budget_low now m),
    (burn_rate_high now m rate).
  split; [assumption|]. split; [assumption|].
  unfold target_violation, budget_low, burn_rate_high.
  repeat split.
  - intros H. apply Qltb_lt in H. now rewrite H.
  - intros H. apply Qltb_ge in H. now rewrite H.
  - intros H.
    assert (H20 : m_error_budget m < 20) by lra.
    apply Qltb_lt in H, H20. now rewrite H, H20.
  - intros [H10 H20]. apply Qltb_ge in H10. apply Qltb_lt in H20.
    now rewrite H10, H20.
  - intros H. apply Qltb_ge in H. now rewrite H.
  - intros H. apply Qltb_lt in H. now rewrite H.
  - intros H. apply Qltb_ge in H. now rewrite H.
Qed.

(** The three rules firing together: current SLO 98 against a target of 99.9,
    a budget of -300 and a history [[100, 0, -300]] in the last hour. *)
Example all_three_alerts_fire :
  let history :=
    [MeasurementRow "db-availability" 10 1000 1000 100 100;
     MeasurementRow "db-availability" 20 999 1000 99.9 0;
     MeasurementRow "db-availability" 30 980 1000 98 (-300)] in
  let st := Monitor ∅ ∅ history [] in
  let m := Measurement "db-availability" 98 99.9 (-300) 980 1000 in
  severity <$> slo_alerts (final (check_slo_alerts 40 m st))
  = ["high"; "critical"; "critical"] /\
  alert_message <$> slo_alerts (final (check_slo_alerts 40 m st))
  = [SLO_below_target 98 99.9; Error_budget_low (-300);
     High_burn_rate (400 # 3)].
Proof.
  split; vm_compute; reflexivity.
Qed.

(** C9: every alert row created by [check_slo_alerts] has severity high or
    critical; the severity warning is never produced. *)
Theorem alert_severity_is_high_or_critical
    (now : Z) (m : measurement) (st : monitor) :
  exists (st' : monitor) (added : list alert_row),
    check_slo_alerts now m st = Done tt st' /\
    slo_alerts st' = slo_alerts st ++ added /\
    Forall (fun a =>
              (severity a = "high" \/ severity a = "critical") /\
              severity a <> "warning") added.
Proof.
  destruct (check_slo_alerts_eq now m st) as (rate & _ & Hcheck).
  eexists. eexists. split; [exact Hcheck|]. split; [reflexivity|].
  unfold target_violation, budget_low, burn_rate_high.
  repeat apply Forall_app_2;
    repeat match goal with
           | |- context [if ?b then _ else _] => destruct b
           end;
    repeat constructor; cbn [severity]; auto; discriminate.
Qed.

(** ** Registry *)

Lemma on_conflict_do_nothing_lookup (d : slo) (defs : gmap string slo)
    (id : string) (d0 : slo) :
  defs !! id = Some d0 -> on_conflict_do_nothing d defs !! id = Some d0.
Proof.
  intros H. unfold on_conflict_do_nothing.
  destruct (defs !! slo_id d) eqn:E; [assumption|].
  rewrite lookup_insert_ne; [assumption|]. intros <-. congruence.
Qed.

Lemma on_conflict_do_nothing_registered (d : slo) (defs : gmap string slo) :
  is_Some (on_conflict_do_nothing d defs !! slo_id d).
Proof.
  unfold on_conflict_do_nothing.
  destruct (defs !! slo_id d) eqn:E; [now rewrite E|].
  rewrite lookup_insert_eq. eauto.
Qed.

Lemma on_conflict_do_nothing_existing (d : slo) (defs : gmap string slo) :
  is_Some (defs !! slo_id d) -> on_conflict_do_nothing d defs = defs.
Proof.
  intros [d0 H]. unfold on_conflict_do_nothing. now rewrite H.
Qed.

Lemma insert_definition_eq (d : slo) (st : monitor) :
  insert_definition d st
  = Done tt (Monitor (slos st) (on_conflict_do_nothing d (slo_definitions st))
               (slo_measurements st) (slo_alerts st)).
Proof.
  unfold insert_definition, on_conflict_do_nothing.
  unfold mbind, M_bind, get.
  destruct (slo_definitions st !! slo_id d); [now destruct st|reflexivity].
Qed.

Lemma bind_done {A B} (m : M A) (k : A -> M B) (st st' : monitor) (a : A) :
  m st = Done a st' -> (m ≫= k) st = k a st'.
Proof.
  intros H. unfold mbind, M_bind. now rewrite H.
Qed.

Lemma register_eq (d : slo) (st : monitor) :
  (_ ← insert_definition d; remember_slo d) st = Done tt (register d st).
Proof.
  erewrite bind_done by apply insert_definition_eq. reflexivity.
Qed.

Lemma define_slos_eq (st : monitor) :
  define_slos st
  = Done tt (register api_success_rate
               (register query_latency (register db_availability st))).
Proof.
  unfold define_slos, bootstrap_slos. cbn [for_each].
  do 3 (erewrite bind_done by apply register_eq). reflexivity.
Qed.

Lemma register_lookup (d : slo) (st : monitor) (id : string) (d0 : slo) :
  slo_definitions st !! id = Some d0 ->
  slo_definitions (register d st) !! id = Some d0.
Proof. apply on_conflict_do_nothing_lookup. Qed.

Lemma register_again (d : slo) (st : monitor) :
  is_Some (slo_definitions st !! slo_id d) ->
  slos st !! slo_id d = Some d ->
  register d st = st.
Proof.
  intros Hdef Hslo. unfold register.
  rewrite on_conflict_do_nothing_existing by assumption.
  rewrite insert_id by assumption. now destruct st.
Qed.

(** C8: an [INSERT] into [slo_definitions] under an id that is already there
    changes nothing, every definition stored before the bootstrap is still
    stored after it, and a second run of [define_slos] leaves the monitor as
    the first run left it. *)
Theorem define_slos_first_writer_wins :
  (forall (d : slo) (st : monitor),
     is_Some (slo_definitions st !! slo_id d) ->
     insert_definition d st = Done tt st) /\
  (forall (st : monitor) (id : string) (d : slo),
     slo_definitions st !! id = Some d ->
     slo_definitions (final (define_slos st)) !! id = Some d) /\
  (forall st : monitor,
     exists st1,
       define_slos st = Done tt st1 /\ define_slos st1 = Done tt st1).
Proof.
  split; [|split].
  - intros d st H. rewrite insert_definition_eq.
    rewrite on_conflict_do_nothing_existing by assumption. now destruct st.
  - intros st id d H. rewrite define_slos_eq. cbn [final].
    now do 3 apply register_lookup.
  - intros st. eexists. split; [apply define_slos_eq|].
    rewrite define_slos_eq. f_equal.
    set (st1 := register db_availability st).
    set (st2 := register query_latency st1).
    set (st3 := register api_success_rate st2).
    assert (H1 : is_Some (slo_definitions st3 !! slo_id db_availability)).
    { destruct (on_conflict_do_nothing_registered db_availability
                  (slo_definitions st)) as [d0 Hd0].
      exists d0. now do 2 apply register_lookup. }
    assert (H2 : is_Some (slo_definitions st3 !! slo_id query_latency)).
    { destruct (on_conflict_do_nothing_registered query_latency
                  (slo_definitions st1)) as [d0 Hd0].
      exists d0. now apply register_lookup. }
    assert (H3 : is_Some (slo_definitions st3 !! slo_id api_success_rate)).
    { apply on_conflict_do_nothing_registered. }
    assert (S1 : slos st3 !! slo_id db_availability = Some db_availability).
    { subst st3 st2 st1. cbn [slos register].
      rewrite !lookup_insert_ne by discriminate. apply lookup_insert_eq. }
    assert (S2 : slos st3 !! slo_id query_latency = Some query_latency).
    { subst st3 st2 st1. cbn [slos register].
      rewrite lookup_insert_ne by discriminate. apply lookup_insert_eq. }
    assert (S3 : slos st3 !! slo_id api_success_rate = Some api_success_rate).
    { subst st3 st2 st1. cbn [slos register]. apply lookup_insert_eq. }
    rewrite (register_again db_availability st3 H1 S1).
    rewrite (register_again query_latency st3 H2 S2).
    now rewrite (register_again api_success_rate st3 H3 S3).
Qed.

Lemma define_slos_first_writer_wins_witness :
  insert_definition db_availability (final (define_slos fresh))
  = Done tt (final (define_slos fresh)).
Proof.
  apply (proj1 define_slos_first_writer_wins).
  vm_compute. eauto.
Defined.

(** A definition stored before the bootstrap survives it, whereas [self.slos]
    takes the literal of the code. *)
Example stored_definition_is_kept :
  let older :=
    Slo "db-availability" "database" "availability" 99 720 "Two nines" in
  let st := Monitor ∅ {["db-availability" := older]} [] [] in
  target <$> slo_definitions (final (define_slos st)) !! "db-availability"
  = Some 99 /\
  target <$> slos (final (define_slos st)) !! "db-availability"
  = Some 99.9.
Proof.
  split; vm_compute; reflexivity.
Qed.

(** ** Measurements, in the exact reading *)

Lemma simulate_measurements_eq (now : Z) (id : string) (success_rate : Q)
    (st : monitor) (d : slo) (current_slo error_budget_remaining : Q) :
  slo_definitions st !! id = Some d ->
  error_budget (target d) 1000 (successes_of success_rate)
  = Ok (current_slo, error_budget_remaining) ->
  simulate_measurements now id success_rate st
  = Done (Measurement id current_slo (target d) error_budget_remaining
            (successes_of success_rate) 1000)
         (Monitor (slos st) (slo_definitions st)
            (slo_measurements st ++
               [MeasurementRow id now (successes_of success_rate) 1000
                  current_slo error_budget_remaining])
            (slo_alerts st)).
Proof.
  intros Hdef Hbudget. unfold simulate_measurements, fetchone_target.
  fold (successes_of success_rate).
  unfold mbind, M_bind, get, mret, M_ret, lift.
  rewrite Hdef. cbn [fmap option_fmap option_map]. now rewrite Hbudget.
Qed.

(** When the calculator raises, so does the method, and nothing is recorded. *)
Lemma simulate_measurements_raises (now : Z) (id : string) (success_rate : Q)
    (st : monitor) (d : slo) (e : exn) :
  slo_definitions st !! id = Some d ->
  error_budget (target d) 1000 (successes_of success_rate) = Raise e ->
  simulate_measurements now id success_rate st = Failed e st.
Proof.
  intros Hdef Hbudget. unfold simulate_measurements, fetchone_target.
  fold (successes_of success_rate).
  unfold mbind, M_bind, get, mret, M_ret, lift.
  rewrite Hdef. cbn [fmap option_fmap option_map]. now rewrite Hbudget.
Qed.

(** An id that is not registered: [fetchone()] is [None]. *)
Lemma simulate_measurements_unknown (now : Z) (id : string) (success_rate : Q)
    (st : monitor) :
  slo_definitions st !! id = None ->
  simulate_measurements now id success_rate st = Failed TypeError st.
Proof.
  intros Hdef. unfold simulate_measurements, fetchone_target.
  unfold mbind, M_bind, get, mret, M_ret, lift.
  now rewrite Hdef.
Qed.

(** With a stored target of 100 every measurement ends in an exception of
    the division by the allowance. *)
Lemma simulate_measurements_target_100 (now : Z) (id : string)
    (success_rate : Q) (st : monitor) (d : slo) :
  slo_definitions st !! id = Some d ->
  target d == 100 ->
  simulate_measurements now id success_rate st
  = Failed (if (1000 - successes_of success_rate =? 0)%Z
            then InvalidOperation else ZeroDivisionError) st.
Proof.
  intros Hdef Htarget. apply (simulate_measurements_raises _ _ _ _ d).
  - assumption.
  - apply error_budget_allowed_zero; [discriminate|].
    now apply allowed_errors_zero_iff.
Qed.

(** [int(x)] is the floor of a number that is not negative. *)
Lemma py_int_floor (x : Q) : 0 <= x -> py_int x = Qfloor x.
Proof.
  intros H. destruct x as [n d]. unfold py_int, Qfloor. cbn [Qnum Qden].
  apply Z.quot_div_nonneg; [|lia].
  unfold Qle in H. simpl in H. lia.
Qed.

Lemma successes_of_floor (success_rate : Q) :
  0 <= success_rate ->
  successes_of success_rate = Qfloor (1000 * success_rate / 100).
Proof.
  intros H. unfold successes_of.
  assert (E : inject_Z 1000 * (success_rate / 100)
              == 1000 * success_rate / 100).
  { change (inject_Z 1000) with 1000. field. }
  rewrite py_int_floor.
  - now rewrite E.
  - rewrite E. assert (success_rate == success_rate / 100 * 100) by field.
    assert (1000 * success_rate / 100 == 10 * success_rate) by field.
    lra.
Qed.

(** ** Binary64 *)

(** For every count that line 123 can produce from a rate in [[0, 100]], the
    quotient of the two counts is the machine quotient of their floats, and
    the rounded [current_slo] stays in [[0, 100]]. *)
Lemma binary64_current_slo_range (successes : Z) :
  (0 <= successes <= 1000)%Z ->
  exists ratio,
    Binary64.truediv successes 1000 = Ok ratio /\
    (ratio =? of_uint63 (Uint63.of_Z successes) / 1000)%float = true /\
    (0 <=? ratio * 100)%float = true /\
    (ratio * 100 <=? 100)%float = true.
Proof.
  intros H.
  assert (Hall :
    forallb (fun k =>
               match Binary64.truediv k 1000 with
               | Ok ratio =>
                   (ratio =? of_uint63 (Uint63.of_Z k) / 1000)%float
                   && (0 <=? ratio * 100)%float
                   && (ratio * 100 <=? 100)%float
               | Raise _ => false
               end)
            (List.map Z.of_nat (List.seq 0 1001)) = true)
    by (vm_compute; reflexivity).
  rewrite forallb_forall in Hall.
  assert (Hin : In successes (List.map Z.of_nat (List.seq 0 1001))).
  { apply in_map_iff. exists (Z.to_nat successes).
    split; [lia|]. apply in_seq. lia. }
  specialize (Hall successes Hin).
  destruct (Binary64.truediv successes 1000) as [ratio|e]; [|discriminate].
  exists ratio. split; [reflexivity|].
  apply andb_prop in Hall as [Hall H100].
  apply andb_prop in Hall as [Heq H0].
  repeat split; assumption.
Qed.

(** *** Rounding

    The operations of binary64 are those of [SpecFloat]: the exact result,
    cut at the last place of the format and rounded to the nearest float.
    What is used of the rounding below is that it never steps over a
    multiple of the last place. *)

Section Rounding64.

Local Open Scope Z_scope.

Lemma digits2_pos_size (p : positive) : digits2_pos p = Pos.size p.
Proof. induction p; cbn; congruence. Qed.

Lemma Zdigits2_le (m k : Z) : 0 <= k -> 0 <= m < 2 ^ k -> Zdigits2 m <= k.
Proof.
  intros Hk [Hm Hlt]. destruct m as [|p|p]; cbn; [lia| |lia].
  rewrite digits2_pos_size.
  pose proof (Pos.size_le p) as Hle.
  apply Pos2Z.pos_le_pos in Hle. rewrite Pos2Z.inj_pow in Hle.
  change (Z.pos p~0) with (2 * Z.pos p) in Hle.
  assert (H : 2 ^ Z.pos (Pos.size p) < 2 ^ (k + 1)).
  { rewrite Z.pow_add_r by lia. lia. }
  apply Z.pow_lt_mono_r_iff in H; lia.
Qed.

Lemma Zdigits2_pow2 (p : positive) (k : Z) :
  0 <= k -> Z.pos p = 2 ^ k -> Z.pos (digits2_pos p) = k + 1.
Proof.
  intros Hk E. rewrite digits2_pos_size.
  pose proof (Pos.size_le p) as Hle.
  apply Pos2Z.pos_le_pos in Hle. rewrite Pos2Z.inj_pow in Hle.
  change (Z.pos p~0) with (2 * Z.pos p) in Hle.
  pose proof (Pos.size_gt p) as Hgt.
  apply Pos2Z.pos_lt_pos in Hgt. rewrite Pos2Z.inj_pow in Hgt.
  rewrite E in Hle, Hgt.
  apply Z.pow_lt_mono_r_iff in Hgt; [|lia|lia].
  replace (2 * 2 ^ k) with (2 ^ (k + 1)) in Hle
    by (rewrite Z.pow_add_r by lia; lia).
  apply Z.pow_le_mono_r_iff in Hle; lia.
Qed.

Lemma shr_1_m (mrs : shr_record) :
  0 <= shr_m mrs -> shr_m (shr_1 mrs) = shr_m mrs / 2.
Proof.
  destruct mrs as [m r s]. cbn [shr_m]. intros Hm.
  rewrite <- Z.div2_div.
  destruct m as [|[p|p|]|p]; cbn; try reflexivity; lia.
Qed.

Lemma iter_shr_1_m (p : positive) :
  forall mrs, 0 <= shr_m mrs ->
    shr_m (SpecFloat.iter_pos shr_1 p mrs) = shr_m mrs / 2 ^ Z.pos p.
Proof.
  induction p as [p IH|p IH|]; intros mrs Hm; cbn [SpecFloat.iter_pos].
  - assert (H1 : 0 <= shr_m (shr_1 mrs)).
    { rewrite shr_1_m by assumption. apply Z.div_pos; lia. }
    assert (H2 : 0 <= shr_m (SpecFloat.iter_pos shr_1 p (shr_1 mrs))).
    { rewrite IH by assumption. apply Z.div_pos; [lia|]. apply Z.pow_pos_nonneg; lia. }
    rewrite IH by assumption. rewrite IH by assumption.
    rewrite shr_1_m by assumption.
    rewrite !Z.div_div by (try apply Z.pow_pos_nonneg; lia).
    f_equal. rewrite Pos2Z.inj_xI.
    rewrite Z.pow_add_r, Z.pow_mul_r by lia.
    change (2 ^ 2) with 4. rewrite Z.pow_1_r.
    rewrite <- Z.pow_add_r by lia.
    replace (Z.pos p + Z.pos p) with (2 * Z.pos p) by lia.
    rewrite Z.pow_mul_r by lia. change (2 ^ 2) with 4. lia.
  - assert (H2 : 0 <= shr_m (SpecFloat.iter_pos shr_1 p mrs)).
    { rewrite IH by assumption. apply Z.div_pos; [lia|]. apply Z.pow_pos_nonneg; lia. }
    rewrite IH by assumption. rewrite IH by assumption.
    rewrite !Z.div_div by (try apply Z.pow_pos_nonneg; lia).
    f_equal. rewrite Pos2Z.inj_xO.
    rewrite <- Z.pow_add_r by lia. f_equal. lia.
  - rewrite shr_1_m by assumption. reflexivity.
Qed.

Lemma shr_record_of_loc_m (m : Z) (l : location) :
  shr_m (shr_record_of_loc m l) = m.
Proof. destruct l as [|[]]; reflexivity. Qed.

(** [shr_fexp] drops the low bits of the mantissa down to the exponent of the
    format. *)
Lemma shr_fexp_m (m e : Z) (l : location) :
  0 <= m ->
  let e' := Z.max e (fexp prec emax (Zdigits2 m + e)) in
  snd (shr_fexp prec emax m e l) = e' /\
  shr_m (fst (shr_fexp prec emax m e l)) = m / 2 ^ (e' - e).
Proof.
  intros Hm e'. unfold shr_fexp, shr. subst e'.
  destruct (fexp prec emax (Zdigits2 m + e) - e) as [|p|p] eqn:E;
    cbn [fst snd].
  - rewrite shr_record_of_loc_m.
    replace (Z.max e (fexp prec emax (Zdigits2 m + e)) - e) with 0 by lia.
    rewrite Z.div_1_r. split; lia.
  - rewrite iter_shr_1_m by (rewrite shr_record_of_loc_m; assumption).
    rewrite shr_record_of_loc_m.
    replace (Z.max e (fexp prec emax (Zdigits2 m + e)) - e) with (Z.pos p) by lia.
    split; [lia|reflexivity].
  - rewrite shr_record_of_loc_m.
    replace (Z.max e (fexp prec emax (Zdigits2 m + e)) - e) with 0 by lia.
    rewrite Z.div_1_r. split; lia.
Qed.

Lemma round_nearest_even_bounds (m : Z) (l : location) :
  m <= round_nearest_even m l <= m + 1.
Proof. destruct l as [|[]]; cbn; try destruct (Z.even m); lia. Qed.

Lemma fexp_le (d g : Z) : d - 53 <= g -> -1074 <= g -> fexp prec emax d <= g.
Proof. unfold fexp, emin. change prec with 53. change emax with 1024. lia. Qed.

(** A value below the multiple [K * 2 ^ g] of the last place is rounded to a
    float that is at most [K * 2 ^ g]. *)
Lemma binary_round_aux_le (s : bool) (m e : Z) (l : location) (K g : Z) :
  0 <= m -> e <= g -> -1074 <= g <= 971 -> 0 < K <= 2 ^ 52 ->
  m < K * 2 ^ (g - e) ->
  exists m' e',
    0 <= m' <= K * 2 ^ (g - e') /\ e' <= g /\
    binary_round_aux prec emax s m e l
    = match m' with
      | Z0 => S754_zero s
      | Zpos p => S754_finite s p e'
      | Zneg _ => S754_nan
      end.
Proof.
  intros Hm Heg Hg HK Hlt.
  unfold binary_round_aux.
  destruct (shr_fexp_m m e l Hm) as [He1 Hm1].
  destruct (shr_fexp prec emax m e l) as [mrs1 e1]. cbn [fst snd] in He1, Hm1. rewrite <- He1 in Hm1.
  assert (Hpow : forall a b, 0 <= a -> 0 <= b -> 2 ^ (a + b) = 2 ^ a * 2 ^ b).
  { intros. apply Z.pow_add_r; assumption. }
  assert (Hpos : forall a, 0 <= a -> 0 < 2 ^ a).
  { intros. apply Z.pow_pos_nonneg; lia. }
  assert (Hd : Zdigits2 m <= 52 + (g - e)).
  { apply Zdigits2_le; [lia|]. split; [assumption|].
    rewrite Hpow by lia. pose proof (Hpos (g - e)). nia. }
  assert (He1g : e1 <= g).
  { rewrite He1. apply Z.max_lub; [assumption|]. apply fexp_le; lia. }
  assert (He1e : e <= e1) by lia.
  assert (Hm1lt : shr_m mrs1 < K * 2 ^ (g - e1)).
  { rewrite Hm1. apply Z.div_lt_upper_bound; [apply Hpos; lia|].
    replace (g - e) with ((e1 - e) + (g - e1)) in Hlt by lia.
    rewrite Hpow in Hlt by lia. lia. }
  assert (Hm1pos : 0 <= shr_m mrs1).
  { rewrite Hm1. apply Z.div_pos; [assumption|apply Hpos; lia]. }
  pose proof (round_nearest_even_bounds (shr_m mrs1) (loc_of_shr_record mrs1)) as Hr.
  set (m2 := round_nearest_even (shr_m mrs1) (loc_of_shr_record mrs1)) in *.
  assert (Hm2 : 0 <= m2) by lia.
  destruct (shr_fexp_m m2 e1 loc_Exact Hm2) as [He3 Hm3].
  destruct (shr_fexp prec emax m2 e1 loc_Exact) as [mrs3 e3].
  cbn [fst snd] in He3, Hm3. rewrite <- He3 in Hm3.
  assert (Hd2 : Zdigits2 m2 <= 53 + (g - e1)).
  { apply Zdigits2_le; [lia|]. split; [assumption|].
    rewrite Hpow by lia. pose proof (Hpos (g - e1)).
    change (2 ^ 53) with (2 * 2 ^ 52). nia. }
  assert (He3g : e3 <= g).
  { rewrite He3. apply Z.max_lub; [assumption|]. apply fexp_le; lia. }
  assert (Hm3le : shr_m mrs3 <= K * 2 ^ (g - e3)).
  { rewrite Hm3. apply Z.div_le_upper_bound; [apply Hpos; lia|].
    replace (g - e1) with ((e3 - e1) + (g - e3)) in Hm1lt by lia.
    rewrite Hpow in Hm1lt by lia. lia. }
  assert (Hm3pos : 0 <= shr_m mrs3).
  { rewrite Hm3. apply Z.div_pos; [assumption|apply Hpos; lia]. }
  exists (shr_m mrs3), e3. split; [lia|]. split; [assumption|].
  destruct (shr_m mrs3) as [|p|p]; [reflexivity| |reflexivity].
  change (emax - prec) with 971.
  destruct (Z.leb_spec e3 971); [reflexivity|lia].
Qed.


Lemma Prim2SF_100 : Prim2SF 100 = S754_finite false 7036874417766400 (-46).
Proof. vm_compute. reflexivity. Qed.

Lemma Prim2SF_1000 : Prim2SF 1000 = S754_finite false 8796093022208000 (-43).
Proof. vm_compute. reflexivity. Qed.

Lemma bounded_mantissa (m : positive) (e : Z) :
  bounded prec emax m e = true -> Z.pos m < 2 ^ 53.
Proof.
  unfold bounded, canonical_mantissa. intros H.
  apply andb_prop in H as [H _]. apply Z.eqb_eq in H.
  unfold fexp, emin in H. change prec with 53 in H. change emax with 1024 in H.
  rewrite digits2_pos_size in H.
  pose proof (Pos.size_gt m) as Hgt.
  apply Pos2Z.pos_lt_pos in Hgt. rewrite Pos2Z.inj_pow in Hgt.
  eapply Z.lt_le_trans; [exact Hgt|].
  apply Z.pow_le_mono_r; lia.
Qed.

(** The floats between 0 and 100. *)
Lemma rate_cases (x : float) :
  (0 <=? x)%float = true -> (x <=? 100)%float = true ->
  (exists s, Prim2SF x = S754_zero s) \/
  x = 100%float \/
  exists m e,
    Prim2SF x = S754_finite false m e /\
    e <= -46 /\ Z.pos m < 7036874417766400 * 2 ^ (- e - 46).
Proof.
  rewrite !FloatAxioms.leb_spec, Prim2SF_100.
  change (Prim2SF 0) with (S754_zero false).
  pose proof (Prim2SF_valid x) as Hv.
  destruct (Prim2SF x) as [s|s| |s m e] eqn:E; intros H0 H100.
  - left. eauto.
  - destruct s; discriminate.
  - discriminate.
  - destruct s; [discriminate|].
    cbn [valid_binary] in Hv. apply bounded_mantissa in Hv.
    unfold SFleb, SFcompare in H100.
    destruct (Z.compare_spec e (-46)) as [He|He|He]; [| |discriminate].
    + rewrite Pos.compare_cont_spec in H100.
      destruct (Pos.compare_spec m 7036874417766400) as [Hm|Hm|Hm].
      * right. left. apply Prim2SF_inj. rewrite E, Prim2SF_100. congruence.
      * right. right. exists m, e. split; [reflexivity|].
        clear H0 H100 Hv E. subst e. split; [apply Z.le_refl|].
        change (- -46 - 46) with 0. rewrite Z.pow_0_r, Z.mul_1_r.
        apply Pos2Z.pos_lt_pos. exact Hm.
      * discriminate.
    + right. right. exists m, e. split; [reflexivity|].
      clear H0 H100 E. split; [lia|].
      assert (H2 : 2 ^ 1 <= 2 ^ (- e - 46)) by (apply Z.pow_le_mono_r; lia).
      rewrite Z.pow_1_r in H2.
      change (2 ^ 53) with 9007199254740992 in Hv.
      eapply Z.lt_le_trans; [exact Hv|].
      change 9007199254740992 with (4503599627370496 * 2).
      apply Z.mul_le_mono_nonneg; lia.
Qed.

(** A float below 100 divided by 100 is at most 1. *)
Lemma div_100_le (m : positive) (e : Z) :
  e <= -46 -> Z.pos m < 7036874417766400 * 2 ^ (- e - 46) ->
  exists m' e',
    0 <= m' <= 1 * 2 ^ (0 - e') /\ e' <= 0 /\
    SFdiv prec emax (S754_finite false m e)
      (S754_finite false 7036874417766400 (-46))
    = match m' with
      | Z0 => S754_zero false
      | Zpos p => S754_finite false p e'
      | Zneg _ => S754_nan
      end.
Proof.
  intros He Hlt. unfold SFdiv, SFdiv_core_binary.
  set (e1 := Z.min _ (e - -46)).
  set (s := e - -46 - e1).
  set (m1 := match s with Z0 => Z.pos m | Zpos _ => Z.shiftl (Z.pos m) s | Zneg _ => 0 end).
  assert (Hs : 0 <= s) by (subst s e1; lia).
  assert (Hm1 : m1 = Z.pos m * 2 ^ s).
  { subst m1. destruct s as [|p|p] eqn:Es; [lia| |lia].
    apply Z.shiftl_mul_pow2. lia. }
  destruct (Z.div_eucl m1 (Z.pos 7036874417766400)) as [q r] eqn:Ediv.
  assert (Hq : q = m1 / Z.pos 7036874417766400).
  { unfold Z.div. rewrite Ediv. reflexivity. }
  cbn [xorb].
  apply binary_round_aux_le.
  - rewrite Hq. apply Z.div_pos; [|lia]. rewrite Hm1.
    apply Z.mul_nonneg_nonneg; [lia|]. apply Z.pow_nonneg. lia.
  - subst e1. lia.
  - lia.
  - split; [lia|]. vm_compute. discriminate.
  - rewrite Hq. apply Z.div_lt_upper_bound; [lia|].
    rewrite Hm1.
    replace (0 - e1) with ((- e - 46) + s) by (subst s; lia).
    rewrite Z.pow_add_r by lia.
    assert (0 < 2 ^ s) by (apply Z.pow_pos_nonneg; lia).
    nia.
Qed.

(** The only float with the value 1. *)
Lemma bounded_one (m : positive) (e : Z) :
  bounded prec emax m e = true -> e <= 0 -> Z.pos m = 2 ^ (- e) ->
  e = -52 /\ m = 4503599627370496%positive.
Proof.
  intros Hb He Hm. unfold bounded, canonical_mantissa in Hb.
  apply andb_prop in Hb as [Hb _]. apply Z.eqb_eq in Hb.
  rewrite (Zdigits2_pow2 m (- e)) in Hb by (lia || assumption).
  unfold fexp, emin in Hb. change prec with 53 in Hb. change emax with 1024 in Hb.
  assert (E : e = -52) by lia. subst e. split; [reflexivity|].
  change (2 ^ (- -52)) with (Z.pos 4503599627370496) in Hm. congruence.
Qed.

(** 1000 times a float that is at most 1 is at most 1000. *)
Lemma mul_1000_le (m : positive) (e : Z) :
  bounded prec emax m e = true -> e <= 0 -> Z.pos m <= 1 * 2 ^ (0 - e) ->
  exists m' e',
    0 <= m' <= 1000 * 2 ^ (0 - e') /\ e' <= 0 /\
    SFmul prec emax (S754_finite false 8796093022208000 (-43))
      (S754_finite false m e)
    = match m' with
      | Z0 => S754_zero false
      | Zpos p => S754_finite false p e'
      | Zneg _ => S754_nan
      end.
Proof.
  intros Hb He Hle. rewrite Z.mul_1_l, Z.sub_0_l in Hle.
  destruct (Z.eq_dec (Z.pos m) (2 ^ (- e))) as [E|NE].
  - destruct (bounded_one m e Hb He E) as [-> ->].
    exists 8796093022208000, (-43). split; [|split].
    + vm_compute. split; discriminate.
    + lia.
    + vm_compute. reflexivity.
  - unfold SFmul. cbn [xorb].
    apply binary_round_aux_le.
    + lia.
    + lia.
    + lia.
    + split; [lia|]. vm_compute. discriminate.
    + rewrite Pos2Z.inj_mul.
      replace (0 - (-43 + e)) with (43 + - e) by lia.
      rewrite Z.pow_add_r by lia.
      change (2 ^ 43) with 8796093022208.
      assert (0 < 2 ^ (- e)) by (apply Z.pow_pos_nonneg; lia).
      nia.
Qed.


Lemma py_int_le (x : float) (m e K : Z) :
  Prim2SF x = match m with
              | Z0 => S754_zero false
              | Zpos p => S754_finite false p e
              | Zneg _ => S754_nan
              end ->
  0 <= m <= K * 2 ^ (0 - e) -> e <= 0 ->
  exists s, Binary64.py_int x = Ok s /\ 0 <= s <= K.
Proof.
  intros E [Hm HK] He. unfold Binary64.py_int. rewrite E.
  assert (Hp : 0 < 2 ^ (0 - e)) by (apply Z.pow_pos_nonneg; lia).
  destruct m as [|p|p]; [exists 0; split; [reflexivity|nia]| |lia].
  destruct e as [|q|q]; [|lia|].
  - exists (Z.pos p). split; [reflexivity|]. change (2 ^ (0 - 0)) with 1 in HK. lia.
  - exists (Z.shiftr (Z.pos p) (Z.pos q)). split; [reflexivity|].
    rewrite Z.shiftr_div_pow2 by lia.
    change (0 - Z.neg q) with (Z.pos q) in HK, Hp. split.
    + apply Z.div_pos; lia.
    + apply Z.div_le_upper_bound; lia.
Qed.

(** Line 123 on binary64: a success rate between 0 and 100 gives a count
    between 0 and 1000. *)
Lemma successes_in_range (success_rate : float) :
  (0 <=? success_rate)%float = true -> (success_rate <=? 100)%float = true ->
  exists s,
    Binary64.py_int (1000 * (success_rate / 100))%float = Ok s /\
    0 <= s <= 1000.
Proof.
  intros H0 H100.
  destruct (rate_cases success_rate H0 H100)
    as [[s E]|[->|(m & e & E & He & Hm)]].
  - exists 0. split; [|lia]. unfold Binary64.py_int.
    rewrite FloatAxioms.mul_spec, FloatAxioms.div_spec, E, Prim2SF_100,
      Prim2SF_1000.
    reflexivity.
  - exists 1000. split; [vm_compute; reflexivity|lia].
  - destruct (div_100_le m e He Hm) as (m1 & e1 & Hb1 & He1 & Hdiv).
    pose proof (Prim2SF_valid (success_rate / 100)) as Hv.
    rewrite FloatAxioms.div_spec, E, Prim2SF_100 in Hv.
    unfold SF64div in Hv. rewrite Hdiv in Hv.
    destruct m1 as [|p|p]; [| |lia].
    + exists 0. split; [|lia]. unfold Binary64.py_int.
      rewrite FloatAxioms.mul_spec, FloatAxioms.div_spec, E, Prim2SF_100,
        Prim2SF_1000.
      unfold SF64div. rewrite Hdiv. reflexivity.
    + cbn [valid_binary] in Hv.
      destruct (mul_1000_le p e1 Hv He1 (proj2 Hb1))
        as (m2 & e2 & Hb2 & He2 & Hmul).
      apply (py_int_le _ m2 e2); [|assumption|assumption].
      rewrite FloatAxioms.mul_spec, FloatAxioms.div_spec, E, Prim2SF_100,
        Prim2SF_1000.
      unfold SF64div, SF64mul. rewrite Hdiv. exact Hmul.
Qed.

End Rounding64.

(** C10, as the code has it.  For every binary64 success rate in
    [[0, 100]], lines 122-137 give [total_count = 1000], the success count
    [int(1000 * (success_rate / 100))] and [current_slo], every operation
    rounded to binary64: [0 <= success_count <= total_count] and
    [0 <= current_slo <= 100] always hold.  (The count can exceed the floor
    of the exact product by one, and [current_slo] the success rate by a
    rounding error, as shown below.) *)
Theorem binary64_counts_stay_in_range (success_rate : float) :
  (0 <=? success_rate)%float = true ->
  (success_rate <=? 100)%float = true ->
  exists (successes : Z) (current_slo : float),
    Binary64.counts_and_slo success_rate
    = Ok (successes, 1000%Z, current_slo) /\
    Binary64.py_int (1000 * (success_rate / 100))%float = Ok successes /\
    (0 <= successes <= 1000)%Z /\
    (0 <=? current_slo)%float = true /\
    (current_slo <=? 100)%float = true.
Proof.
  intros H0 H100.
  destruct (successes_in_range success_rate H0 H100) as (s & Hs & Hrange).
  destruct (binary64_current_slo_range s Hrange)
    as (ratio & Hratio & _ & Hc0 & Hc100).
  exists s, (ratio * 100)%float. split.
  - unfold Binary64.counts_and_slo. rewrite Hs. cbn [mbind result_bind].
    rewrite Hratio. reflexivity.
  - repeat split; assumption || apply Hrange.
Qed.

Lemma binary64_counts_stay_in_range_witness :
  exists (successes : Z) (current_slo : float),
    Binary64.counts_and_slo 0x1.8f7ae147ae148p+6
    = Ok (successes, 1000%Z, current_slo) /\
    Binary64.py_int (1000 * (0x1.8f7ae147ae148p+6 / 100))%float
    = Ok successes /\
    (0 <= successes <= 1000)%Z /\
    (0 <=? current_slo)%float = true /\
    (current_slo <=? 100)%float = true.
Proof.
  apply (binary64_counts_stay_in_range 0x1.8f7ae147ae148p+6);
    vm_compute; reflexivity.
Defined.

(** C10 as stated fails on the floats the code computes with.  A success rate
    of 7.0 gives 70 successes and [current_slo = (70 / 1000) * 100], which
    rounds to 7.000000000000001, above the rate.  A success rate of
    0.09999999999999999 gives one success, where the floor of
    [1000 * success_rate / 100] is 0, and [current_slo = 0.1], above the
    rate. *)
Lemma binary64_current_slo_exceeds_success_rate :
  ((0 <=? 7)%float = true /\ (7 <=? 100)%float = true /\
   Binary64.counts_and_slo 7
   = Ok (70%Z, 1000%Z, 0x1.c000000000001p+2%float) /\
   (7 <? 0x1.c000000000001p+2)%float = true) /\
  ((0 <=? 0x1.9999999999999p-4)%float = true /\
   (0x1.9999999999999p-4 <=? 100)%float = true /\
   Binary64.counts_and_slo 0x1.9999999999999p-4
   = Ok (1%Z, 1000%Z, 0x1.999999999999ap-4%float) /\
   Qfloor (1000 * Binary64.to_Q 0x1.9999999999999p-4 / 100) = 0%Z /\
   (0x1.9999999999999p-4 <? 0x1.999999999999ap-4)%float = true).
Proof.
  repeat split; vm_compute; reflexivity.
Qed.

(** * Further properties of the monitor *)

(** ** Measurements: failures and frame *)

Lemma burn_rate_few (measurements : list Q) :
  (length measurements < 2)%nat -> burn_rate measurements = Ok 0.
Proof.
  intros H. unfold burn_rate.
  destruct (Nat.ltb_spec (length measurements) 2); [reflexivity|lia].
Qed.

Lemma Qgeb_ge (x y : Q) : Qgeb x y = true <-> y <= x.
Proof. apply Qle_bool_iff. Qed.

Lemma Qgeb_lt (x y : Q) : Qgeb x y = false <-> x < y.
Proof.
  unfold Qgeb. split.
  - intros H. apply Qnot_le_lt. intros Hle.
    apply Qle_bool_iff in Hle. congruence.
  - intros H. destruct (Qle_bool y x) eqn:E; [|reflexivity].
    apply Qle_bool_iff in E. lra.
Qed.

(** *** Columns *)

Lemma Qmake_100 (n : Z) : n # 100 == inject_Z n / 100.
Proof. unfold Qeq. cbn. lia. Qed.

(** Rounding to two decimals moves a number by at most half a hundredth. *)
Lemma round_2_close (x : Q) :
  x - (1 # 200) <= Binary64.round_2 x <= x + (1 # 200).
Proof.
  unfold Binary64.round_2. destruct (Qle_bool 0 x).
  - pose proof (Qfloor_le (x * 100 + (1 # 2))) as Hlo.
    pose proof (Qlt_floor (x * 100 + (1 # 2))) as Hhi.
    rewrite inject_Z_plus in Hhi. change (inject_Z 1) with 1 in Hhi.
    rewrite Qmake_100.
    set (n := inject_Z (Qfloor (x * 100 + (1 # 2)))) in *.
    assert (E : n == n / 100 * 100) by field.
    split; lra.
  - pose proof (Qfloor_le (- x * 100 + (1 # 2))) as Hlo.
    pose proof (Qlt_floor (- x * 100 + (1 # 2))) as Hhi.
    rewrite inject_Z_plus in Hhi. change (inject_Z 1) with 1 in Hhi.
    rewrite Qmake_100.
    set (n := inject_Z (Qfloor (- x * 100 + (1 # 2)))) in *.
    assert (E : n == n / 100 * 100) by field.
    split; lra.
Qed.

(** A number that leaves room for the rounding fits its column. *)
Lemma numeric_fits (precision : Z) (x : Q) :
  - inject_Z (10 ^ (precision - 2)) + 1 <= x ->
  x <= inject_Z (10 ^ (precision - 2)) - 1 ->
  Binary64.numeric precision x = Ok (Binary64.round_2 x).
Proof.
  intros Hlo Hhi. unfold Binary64.numeric.
  pose proof (round_2_close x) as [H1 H2].
  assert (E1 : Qltb (- inject_Z (10 ^ (precision - 2))) (Binary64.round_2 x)
               = true) by (apply Qltb_lt; lra).
  assert (E2 : Qltb (Binary64.round_2 x) (inject_Z (10 ^ (precision - 2)))
               = true) by (apply Qltb_lt; lra).
  now rewrite E1, E2.
Qed.

(** What a column lets through is the rounded value, within the bound of the
    column. *)
Lemma numeric_Ok (precision : Z) (x stored : Q) :
  Binary64.numeric precision x = Ok stored ->
  stored = Binary64.round_2 x /\
  - inject_Z (10 ^ (precision - 2)) < stored < inject_Z (10 ^ (precision - 2)).
Proof.
  unfold Binary64.numeric. intros H.
  destruct (Qltb (- inject_Z (10 ^ (precision - 2))) (Binary64.round_2 x))
    eqn:E1; [|discriminate].
  destruct (Qltb (Binary64.round_2 x) (inject_Z (10 ^ (precision - 2))))
    eqn:E2; [|discriminate].
  injection H as <-. apply Qltb_lt in E1, E2. auto.
Qed.

Lemma int4_Ok (z stored : Z) :
  Binary64.int4 z = Ok stored ->
  stored = z /\ (-2147483648 <= z <= 2147483647)%Z.
Proof.
  unfold Binary64.int4. intros H.
  destruct (Z.leb_spec (-2147483648) z); [|discriminate].
  destruct (Z.leb_spec z 2147483647); [|discriminate].
  injection H as <-. lia.
Qed.

Lemma int4_fits (z : Z) :
  (-2147483648 <= z <= 2147483647)%Z -> Binary64.int4 z = Ok z.
Proof.
  intros [H1 H2]. unfold Binary64.int4.
  destruct (Z.leb_spec (-2147483648) z); [|lia].
  destruct (Z.leb_spec z 2147483647); [reflexivity|lia].
Qed.

(** *** [current_slo] and the budget of a count between 0 and 1000 *)

(** Line 137 on a count between 0 and 1000: the float [current_slo] is
    finite, lies in [[0, 100]] and within half a hundredth of a tenth of the
    count, and its column stores exactly that tenth. *)
Lemma binary64_current_slo_stored (successes : Z) :
  (0 <= successes <= 1000)%Z ->
  exists ratio stored,
    Binary64.truediv successes 1000 = Ok ratio /\
    is_finite (ratio * 100) = true /\
    0 <= Binary64.to_Q (ratio * 100) <= 100 /\
    inject_Z successes / 10 - (1 # 200) < Binary64.to_Q (ratio * 100) /\
    Binary64.to_Q (ratio * 100) < inject_Z successes / 10 + (1 # 200) /\
    Binary64.numeric 5 (Binary64.to_Q (ratio * 100)) = Ok stored /\
    stored == inject_Z successes / 10.
Proof.
  intros H.
  assert (Hall :
    forallb (fun k =>
               match Binary64.truediv k 1000 with
               | Ok ratio =>
                   let c := Binary64.to_Q (ratio * 100) in
                   is_finite (ratio * 100)
                   && Qle_bool 0 c && Qle_bool c 100
                   && Qltb (inject_Z k / 10 - (1 # 200)) c
                   && Qltb c (inject_Z k / 10 + (1 # 200))
                   && match Binary64.numeric 5 c with
                      | Ok stored => Qeq_bool stored (inject_Z k / 10)
                      | Raise _ => false
                      end
               | Raise _ => false
               end)
            (List.map Z.of_nat (List.seq 0 1001)) = true)
    by (vm_compute; reflexivity).
  rewrite forallb_forall in Hall.
  assert (Hin : In successes (List.map Z.of_nat (List.seq 0 1001))).
  { apply in_map_iff. exists (Z.to_nat successes).
    split; [lia|]. apply in_seq. lia. }
  specialize (Hall successes Hin). cbv zeta in Hall.
  destruct (Binary64.truediv successes 1000) as [ratio|e]; [|discriminate].
  destruct (Binary64.numeric 5 (Binary64.to_Q (ratio * 100)))
    as [stored|e] eqn:Hstored;
    [|rewrite andb_false_r in Hall; discriminate].
  exists ratio, stored.
  repeat (apply andb_prop in Hall as [Hall ?]).
  split; [reflexivity|]. split; [assumption|].
  split; [split; now apply Qle_bool_iff|].
  split; [now apply Qltb_lt|]. split; [now apply Qltb_lt|].
  split; [exact Hstored|]. now apply Qeq_bool_iff.
Qed.

(** The allowance under a target of two decimals other than 100 is at least
    a tenth of an error, in one direction or the other. *)
Lemma allowed_errors_two_decimals (target : Q) :
  decimal_5_2 target -> ~ target == 100 ->
  (1 # 10) <= allowed_errors_of target 1000 \/
  allowed_errors_of target 1000 <= - (1 # 10).
Proof.
  intros (k & _ & Hk) H100.
  assert (Ea : allowed_errors_of target 1000 == (10000 - inject_Z k) / 10).
  { unfold allowed_errors_of. rewrite Hk. change (inject_Z 1000) with 1000.
    field. }
  destruct (Z.lt_trichotomy k 10000) as [Hlt|[Heq|Hgt]].
  - left. rewrite Ea.
    assert (H : inject_Z k <= inject_Z 9999) by (rewrite <- Zle_Qle; lia).
    change (inject_Z 9999) with 9999 in H.
    assert (E : (10000 - inject_Z k) / 10 == (10000 - inject_Z k) * (1 # 10))
      by field.
    rewrite E. lra.
  - exfalso. apply H100. rewrite Hk, Heq. reflexivity.
  - right. rewrite Ea.
    assert (H : inject_Z 10001 <= inject_Z k) by (rewrite <- Zle_Qle; lia).
    change (inject_Z 10001) with 10001 in H.
    assert (E : (10000 - inject_Z k) / 10 == (10000 - inject_Z k) * (1 # 10))
      by field.
    rewrite E. lra.
Qed.

(** Such a budget fits its column [DECIMAL(10,2)]. *)
Lemma error_budget_magnitude (target : Q) (successes : Z) :
  decimal_5_2 target -> ~ target == 100 -> (0 <= successes <= 1000)%Z ->
  -1000100 <= (allowed_errors_of target 1000 - inject_Z (1000 - successes))
              / allowed_errors_of target 1000 * 100 <= 1000100.
Proof.
  intros Hdec H100 [Hlo Hhi].
  set (a := allowed_errors_of target 1000).
  assert (Ha0 : 0 <= inject_Z (1000 - successes)).
  { change 0 with (inject_Z 0). rewrite <- Zle_Qle. lia. }
  assert (Ha1 : inject_Z (1000 - successes) <= 1000).
  { change 1000 with (inject_Z 1000). rewrite <- Zle_Qle. lia. }
  set (e := inject_Z (1000 - successes)) in *.
  destruct (allowed_errors_two_decimals target Hdec H100) as [Ha|Ha];
    fold a in Ha.
  - assert (H1 : -10000 <= (a - e) / a) by (apply Qle_shift_div_l; lra).
    assert (H2 : (a - e) / a <= 1) by (apply Qle_shift_div_r; lra).
    lra.
  - assert (E : (a - e) / a == (e - a) / (- a)) by (field; lra).
    rewrite E.
    assert (H1 : 1 <= (e - a) / (- a)) by (apply Qle_shift_div_l; lra).
    assert (H2 : (e - a) / (- a) <= 10001) by (apply Qle_shift_div_r; lra).
    lra.
Qed.

(** *** The routine *)

(** What the routine returns and records when every step goes through. *)
Lemma binary64_simulate_measurements_eq
    (now : Z) (id : string) (success_rate : float) (st : monitor) (d : slo)
    (successes : Z) (ratio : float) (spent stored_slo stored_budget : Q) :
  Binary64.py_int (1000 * (success_rate / 100))%float = Ok successes ->
  slo_definitions st !! id = Some d ->
  Binary64.truediv successes 1000 = Ok ratio ->
  decimal_div (allowed_errors_of (target d) 1000
               - inject_Z (1000 - successes))
    (allowed_errors_of (target d) 1000) = Ok spent ->
  Binary64.int4 successes = Ok successes ->
  is_finite (ratio * 100) = true ->
  Binary64.numeric 5 (Binary64.to_Q (ratio * 100)) = Ok stored_slo ->
  Binary64.numeric 10 (spent * 100) = Ok stored_budget ->
  Binary64.simulate_measurements now id success_rate st
  = Done (Measurement id (Binary64.to_Q (ratio * 100)) (target d)
            (spent * 100) successes 1000)
         (Monitor (slos st) (slo_definitions st)
            (slo_measurements st ++
               [MeasurementRow id now successes 1000 stored_slo
                  stored_budget])
            (slo_alerts st)).
Proof.
  intros Hs Hdef Hratio Hspent Hint Hfin Hslo Hbudget.
  unfold Binary64.simulate_measurements, Binary64.insert_measurement,
    fetchone_target.
  unfold mbind, M_bind, get, put, mret, M_ret, lift.
  rewrite Hs, Hdef. cbn [fmap option_fmap option_map].
  rewrite Hratio, Hspent, Hint, Hfin, Hslo, Hbudget. reflexivity.
Qed.

(** The steps behind an outcome of the routine: a raise leaves the monitor as
    it was, a return has gone through every step. *)
Lemma binary64_simulate_measurements_inv
    (now : Z) (id : string) (success_rate : float) (st : monitor) :
  match Binary64.simulate_measurements now id success_rate st with
  | Failed e st' => st' = st
  | Done m st' =>
      exists (d : slo) (successes : Z) (ratio : float)
             (spent stored_slo stored_budget : Q),
        Binary64.py_int (1000 * (success_rate / 100))%float = Ok successes /\
        slo_definitions st !! id = Some d /\
        Binary64.truediv successes 1000 = Ok ratio /\
        decimal_div (allowed_errors_of (target d) 1000
                     - inject_Z (1000 - successes))
          (allowed_errors_of (target d) 1000) = Ok spent /\
        Binary64.int4 successes = Ok successes /\
        Binary64.numeric 5 (Binary64.to_Q (ratio * 100)) = Ok stored_slo /\
        Binary64.numeric 10 (spent * 100) = Ok stored_budget /\
        m = Measurement id (Binary64.to_Q (ratio * 100)) (target d)
              (spent * 100) successes 1000 /\
        st' = Monitor (slos st) (slo_definitions st)
                (slo_measurements st ++
                   [MeasurementRow id now successes 1000 stored_slo
                      stored_budget])
                (slo_alerts st)
  end.
Proof.
  unfold Binary64.simulate_measurements, Binary64.insert_measurement,
    fetchone_target.
  unfold mbind, M_bind, get, put, mret, M_ret, lift.
  destruct (Binary64.py_int (1000 * (success_rate / 100))%float)
    as [s|e] eqn:Hs; [|reflexivity].
  destruct (slo_definitions st !! id) as [d|] eqn:Hdef;
    cbn [fmap option_fmap option_map]; [|reflexivity].
  destruct (Binary64.truediv s 1000) as [ratio|e] eqn:Hratio; [|reflexivity].
  destruct (decimal_div _ _) as [spent|e] eqn:Hspent; [|reflexivity].
  destruct (Binary64.int4 s) as [s'|e] eqn:Hint; [|reflexivity].
  destruct (int4_Ok _ _ Hint) as [-> _].
  change (Binary64.int4 1000) with (Ok (A:=Z) 1000%Z). cbv iota beta.
  destruct (is_finite (ratio * 100)) eqn:Hfin; [|reflexivity].
  destruct (Binary64.numeric 5 _) as [stored_slo|e] eqn:Hslo; [|reflexivity].
  destruct (Binary64.numeric 10 _) as [stored_budget|e] eqn:Hbudget;
    [|reflexivity].
  exists d, s, ratio, spent, stored_slo, stored_budget.
  repeat split; assumption.
Qed.

(** The routine on a rate between 0 and 100, against a stored target of two
    decimals other than 100: it returns, with a count between 0 and 1000. *)
Lemma binary64_simulate_measurements_percentage
    (now : Z) (id : string) (success_rate : float) (st : monitor) (d : slo) :
  Binary64.percentage success_rate ->
  slo_definitions st !! id = Some d ->
  decimal_5_2 (target d) -> ~ target d == 100 ->
  exists (successes : Z) (ratio : float) (stored_slo : Q),
    Binary64.py_int (1000 * (success_rate / 100))%float = Ok successes /\
    (0 <= successes <= 1000)%Z /\
    Binary64.truediv successes 1000 = Ok ratio /\
    0 <= Binary64.to_Q (ratio * 100) <= 100 /\
    inject_Z successes / 10 - (1 # 200) < Binary64.to_Q (ratio * 100) /\
    stored_slo == inject_Z successes / 10 /\
    let budget :=
      (allowed_errors_of (target d) 1000 - inject_Z (1000 - successes))
      / allowed_errors_of (target d) 1000 * 100 in
    Binary64.simulate_measurements now id success_rate st
    = Done (Measurement id (Binary64.to_Q (ratio * 100)) (target d) budget
              successes 1000)
           (Monitor (slos st) (slo_definitions st)
              (slo_measurements st ++
                 [MeasurementRow id now successes 1000 stored_slo
                    (Binary64.round_2 budget)])
              (slo_alerts st)).
Proof.
  intros [H0 H100] Hdef Hdec Htarget.
  destruct (successes_in_range success_rate H0 H100) as (s & Hs & Hrange).
  destruct (binary64_current_slo_stored s Hrange)
    as (ratio & stored & Hratio & Hfin & Hc & Hlo & _ & Hslo & Hstored).
  exists s, ratio, stored.
  do 6 (split; [assumption|]).
  intros budget.
  assert (Ha : ~ allowed_errors_of (target d) 1000 == 0).
  { intros E. apply Htarget. now apply (allowed_errors_zero_iff _ 1000). }
  pose proof (error_budget_magnitude (target d) s Hdec Htarget Hrange)
    as [Hb1 Hb2].
  apply (binary64_simulate_measurements_eq now id success_rate st d s ratio
           ((allowed_errors_of (target d) 1000 - inject_Z (1000 - s))
            / allowed_errors_of (target d) 1000) stored
           (Binary64.round_2 budget)); try assumption.
  - now apply decimal_div_nonzero.
  - apply int4_fits. lia.
  - apply numeric_fits.
    + change (inject_Z (10 ^ (10 - 2))) with 100000000. unfold budget. lra.
    + change (inject_Z (10 ^ (10 - 2))) with 100000000. unfold budget. lra.
Qed.

(** An id that is not registered, under a rate that line 123 accepts:
    [fetchone()] is [None]. *)
Lemma binary64_simulate_measurements_unknown
    (now : Z) (id : string) (success_rate : float) (st : monitor)
    (successes : Z) :
  Binary64.py_int (1000 * (success_rate / 100))%float = Ok successes ->
  slo_definitions st !! id = None ->
  Binary64.simulate_measurements now id success_rate st = Failed TypeError st.
Proof.
  intros Hs Hdef. unfold Binary64.simulate_measurements, fetchone_target.
  unfold mbind, M_bind, get, mret, M_ret, lift.
  now rewrite Hs, Hdef.
Qed.

(** A stored target of 100 under a rate between 0 and 100: the division by
    the allowance raises, and which exception depends on the errors. *)
Lemma binary64_simulate_measurements_target_100
    (now : Z) (id : string) (success_rate : float) (st : monitor) (d : slo) :
  Binary64.percentage success_rate ->
  slo_definitions st !! id = Some d ->
  target d == 100 ->
  exists successes : Z,
    Binary64.py_int (1000 * (success_rate / 100))%float = Ok successes /\
    Binary64.simulate_measurements now id success_rate st
    = Failed (if (1000 - successes =? 0)%Z
              then InvalidOperation else ZeroDivisionError) st.
Proof.
  intros [H0 H100] Hdef Htarget.
  destruct (successes_in_range success_rate H0 H100) as (s & Hs & Hrange).
  destruct (binary64_current_slo_stored s Hrange)
    as (ratio & stored & Hratio & _).
  exists s. split; [assumption|].
  assert (Ha : allowed_errors_of (target d) 1000 == 0)
    by now apply allowed_errors_zero_iff.
  unfold Binary64.simulate_measurements, fetchone_target.
  unfold mbind, M_bind, get, mret, M_ret, lift.
  rewrite Hs, Hdef. cbn [fmap option_fmap option_map].
  rewrite Hratio, decimal_div_zero by assumption.
  f_equal.
  destruct (Z.eqb_spec (1000 - s) 0) as [E|E].
  - rewrite E.
    replace (Qeq_bool (allowed_errors_of (target d) 1000 - inject_Z 0) 0)
      with true; [reflexivity|].
    symmetry. apply Qeq_bool_iff. rewrite Ha. reflexivity.
  - replace (Qeq_bool (allowed_errors_of (target d) 1000
                       - inject_Z (1000 - s)) 0)
      with false; [reflexivity|].
    symmetry. apply not_true_is_false. intros H. apply Qeq_bool_iff in H.
    rewrite Ha in H. apply (inject_Z_nonzero _ E). lra.
Qed.

(** X1: a call of [simulate_measurements] that raises records nothing,
    whatever the rate.  Under a rate between 0 and 100 and a stored target of
    two decimals it raises for two reasons only: the id is not in
    [slo_definitions] ([TypeError], from unpacking [None]), or the stored
    target is 100 and the division by the allowance raises
    ([ZeroDivisionError] or [decimal.InvalidOperation]).  An unknown id
    always raises then. *)
Theorem simulate_measurements_failures
    (now : Z) (id : string) (success_rate : float) (st : monitor) :
  (forall (e : exn) (st' : monitor),
     Binary64.simulate_measurements now id success_rate st = Failed e st' ->
     st' = st) /\
  (Binary64.percentage success_rate ->
   (forall d, slo_definitions st !! id = Some d -> decimal_5_2 (target d)) ->
   (slo_definitions st !! id = None ->
    Binary64.simulate_measurements now id success_rate st
    = Failed TypeError st) /\
   (forall (e : exn) (st' : monitor),
      Binary64.simulate_measurements now id success_rate st = Failed e st' ->
      (e = TypeError /\ slo_definitions st !! id = None) \/
      ((e = ZeroDivisionError \/ e = InvalidOperation) /\
       exists d, slo_definitions st !! id = Some d /\ target d == 100))).
Proof.
  split.
  { intros e st' H.
    pose proof (binary64_simulate_measurements_inv now id success_rate st)
      as Hinv.
    now rewrite H in Hinv. }
  intros Hrate Hdec.
  destruct (successes_in_range success_rate (proj1 Hrate) (proj2 Hrate))
    as (s & Hs & _).
  split; [now apply (binary64_simulate_measurements_unknown _ _ _ _ s)|].
  intros e st' H.
  destruct (slo_definitions st !! id) as [d|] eqn:Hdef.
  - destruct (Qeq_dec (target d) 100) as [H100|H100].
    + destruct (binary64_simulate_measurements_target_100 now id success_rate
                  st d Hrate Hdef H100) as (s' & _ & Hfail).
      rewrite Hfail in H. injection H as <- <-. right. split; [|eauto].
      destruct (1000 - s' =? 0)%Z; auto.
    + destruct (binary64_simulate_measurements_percentage now id success_rate
                  st d Hrate Hdef (Hdec d eq_refl) H100)
        as (s' & ratio & stored & _ & _ & _ & _ & _ & _ & Hdone).
      cbv zeta in Hdone. rewrite Hdone in H. discriminate.
  - rewrite (binary64_simulate_measurements_unknown _ _ _ _ s Hs Hdef) in H.
    injection H as <- <-. auto.
Qed.

Lemma simulate_measurements_failures_witness :
  Binary64.simulate_measurements 0 "cache-hit-rate" 99
    (final (define_slos fresh))
  = Failed TypeError (final (define_slos fresh)).
Proof.
  apply (proj2 (simulate_measurements_failures 0 "cache-hit-rate" 99
                  (final (define_slos fresh)))).
  - split; vm_compute; reflexivity.
  - intros d H. vm_compute in H. discriminate.
  - vm_compute. reflexivity.
Defined.

(** X2: a call of [simulate_measurements] that returns has appended exactly
    one row to [slo_measurements].  The row holds the id, the time, the
    success count of the returned dict and [total_count = 1000]; its two
    [DECIMAL] columns hold [current_slo] and the budget of the dict rounded
    to two decimals, and every value fits its column.  The returned target
    is the one stored in [slo_definitions]; [self.slos], [slo_definitions]
    and [slo_alerts] are untouched.  This holds for every success rate, in
    [[0, 100]] or not. *)
Theorem simulate_measurements_records_one_row
    (now : Z) (id : string) (success_rate : float) (st st' : monitor)
    (m : measurement) :
  Binary64.simulate_measurements now id success_rate st = Done m st' ->
  slo_measurements st'
  = slo_measurements st ++
      [MeasurementRow id now (m_success_count m) 1000
         (Binary64.round_2 (m_current_slo m))
         (Binary64.round_2 (m_error_budget m))] /\
  (-2147483648 <= m_success_count m <= 2147483647)%Z /\
  -1000 < Binary64.round_2 (m_current_slo m) < 1000 /\
  -100000000 < Binary64.round_2 (m_error_budget m) < 100000000 /\
  m_slo_id m = id /\
  m_total_count m = 1000%Z /\
  target <$> slo_definitions st !! id = Some (m_target m) /\
  slos st' = slos st /\
  slo_definitions st' = slo_definitions st /\
  slo_alerts st' = slo_alerts st.
Proof.
  intros H.
  pose proof (binary64_simulate_measurements_inv now id success_rate st)
    as Hinv.
  rewrite H in Hinv.
  destruct Hinv as (d & s & ratio & spent & stored_slo & stored_budget
                    & Hs & Hdef & Hratio & Hspent & Hint & Hslo & Hbudget
                    & -> & ->).
  apply int4_Ok in Hint as [_ Hint].
  apply numeric_Ok in Hslo as [-> Hslo].
  apply numeric_Ok in Hbudget as [-> Hbudget].
  cbn [m_success_count m_current_slo m_error_budget m_slo_id m_total_count
       m_target slo_measurements slos slo_definitions slo_alerts].
  rewrite Hdef.
  repeat split; try reflexivity; try lia; tauto.
Qed.

Lemma simulate_measurements_records_one_row_witness :
  exists (m : measurement) (st' : monitor),
    Binary64.simulate_measurements 7 "query-latency" 120
      (final (define_slos fresh)) = Done m st' /\
    slo_measurements st'
    = slo_measurements (final (define_slos fresh)) ++
        [MeasurementRow "query-latency" 7 (m_success_count m) 1000
           (Binary64.round_2 (m_current_slo m))
           (Binary64.round_2 (m_error_budget m))] /\
    (-2147483648 <= m_success_count m <= 2147483647)%Z /\
    -1000 < Binary64.round_2 (m_current_slo m) < 1000 /\
    -100000000 < Binary64.round_2 (m_error_budget m) < 100000000 /\
    m_slo_id m = "query-latency" /\
    m_total_count m = 1000%Z /\
    target <$> slo_definitions (final (define_slos fresh)) !! "query-latency"
    = Some (m_target m) /\
    slos st' = slos (final (define_slos fresh)) /\
    slo_definitions st' = slo_definitions (final (define_slos fresh)) /\
    slo_alerts st' = slo_alerts (final (define_slos fresh)).
Proof.
  destruct (Binary64.simulate_measurements 7 "query-latency" 120
              (final (define_slos fresh))) as [m st'|e st'] eqn:E.
  - exists m, st'. split; [reflexivity|].
    exact (simulate_measurements_records_one_row _ _ _ _ _ _ E).
  - vm_compute in E. discriminate.
Defined.

(** What a returned measurement was computed from. *)
Lemma simulate_measurements_done_inv
    (now : Z) (id : string) (success_rate : Q) (st st' : monitor)
    (m : measurement) :
  simulate_measurements now id success_rate st = Done m st' ->
  exists d,
    slo_definitions st !! id = Some d /\
    ~ target d == 100 /\
    m = Measurement id
          (inject_Z (successes_of success_rate) / inject_Z 1000 * 100)
          (target d)
          ((allowed_errors_of (target d) 1000
            - inject_Z (1000 - successes_of success_rate))
           / allowed_errors_of (target d) 1000 * 100)
          (successes_of success_rate) 1000 /\
    st' = Monitor (slos st) (slo_definitions st)
            (slo_measurements st ++
               [MeasurementRow id now (m_success_count m) 1000
                  (m_current_slo m) (m_error_budget m)])
            (slo_alerts st).
Proof.
  intros H.
  destruct (slo_definitions st !! id) as [d|] eqn:Hdef.
  - destruct (Qeq_dec (target d) 100) as [H100|H100].
    + rewrite (simulate_measurements_target_100 _ _ _ _ d Hdef H100) in H.
      discriminate.
    + assert (Ha : ~ allowed_errors_of (target d) 1000 == 0).
      { intros E. apply H100. now apply (allowed_errors_zero_iff _ 1000). }
      erewrite simulate_measurements_eq in H;
        [|exact Hdef|apply error_budget_eq; [discriminate|exact Ha]].
      injection H as <- <-. exists d. repeat split; assumption.
  - rewrite simulate_measurements_unknown in H by assumption. discriminate.
Qed.

(** The table after [define_slos] has the literal of the code under every id
    that was free before. *)
Lemma define_slos_stores_literal (st : monitor) (d : slo) :
  In d bootstrap_slos ->
  slo_definitions st !! slo_id d = None ->
  slo_definitions (final (define_slos st)) !! slo_id d = Some d.
Proof.
  intros Hin Hfree. rewrite define_slos_eq. cbn [final].
  assert (Hstep : forall (d0 : slo) (s : monitor),
            slo_definitions s !! slo_id d = None ->
            slo_id d0 <> slo_id d ->
            slo_definitions (register d0 s) !! slo_id d = None).
  { intros d0 s Hs Hne. unfold register, on_conflict_do_nothing.
    cbn [slo_definitions].
    destruct (slo_definitions s !! slo_id d0); [assumption|].
    now rewrite lookup_insert_ne. }
  assert (Hhere : forall s : monitor,
            slo_definitions s !! slo_id d = None ->
            slo_definitions (register d s) !! slo_id d = Some d).
  { intros s Hs. unfold register, on_conflict_do_nothing.
    cbn [slo_definitions]. rewrite Hs. apply lookup_insert_eq. }
  destruct Hin as [<-|[<-|[<-|[]]]].
  - do 2 apply register_lookup. now apply Hhere.
  - apply register_lookup. apply Hhere. now apply Hstep.
  - apply Hhere. apply Hstep; [|discriminate]. now apply Hstep.
Qed.


(** The targets of the bootstrap list have two decimals and are not 100. *)
Lemma bootstrap_targets (d : slo) :
  In d bootstrap_slos -> decimal_5_2 (target d) /\ ~ target d == 100.
Proof.
  intros [<-|[<-|[<-|[]]]]; (split; [|intros E; vm_compute in E; discriminate]).
  - exists 9990%Z. split; [lia|reflexivity].
  - exists 9500%Z. split; [lia|reflexivity].
  - exists 9950%Z. split; [lia|reflexivity].
Qed.

(** X3: after [define_slos], every SLO of the bootstrap list whose id was
    not stored before can be measured: [simulate_measurements] returns for
    every success rate between 0 and 100, against the target of the literal,
    with a success count between 0 and 1000 and [current_slo] in
    [[0, 100]]. *)
Theorem bootstrap_makes_slos_measurable
    (st : monitor) (d : slo) (now : Z) (success_rate : float) :
  In d bootstrap_slos ->
  slo_definitions st !! slo_id d = None ->
  Binary64.percentage success_rate ->
  exists (m : measurement) (st' : monitor),
    Binary64.simulate_measurements now (slo_id d) success_rate
      (final (define_slos st)) = Done m st' /\
    m_target m = target d /\
    (0 <= m_success_count m <= 1000)%Z /\
    0 <= m_current_slo m <= 100.
Proof.
  intros Hin Hfree Hrate.
  pose proof (define_slos_stores_literal st d Hin Hfree) as Hdef.
  destruct (bootstrap_targets d Hin) as [Hdec H100].
  destruct (binary64_simulate_measurements_percentage now (slo_id d)
              success_rate (final (define_slos st)) d Hrate Hdef Hdec H100)
    as (s & ratio & stored & _ & Hrange & _ & Hc & _ & _ & Hdone).
  cbv zeta in Hdone. do 2 eexists. split; [exact Hdone|].
  cbn [m_target m_success_count m_current_slo]. auto.
Qed.

Lemma bootstrap_makes_slos_measurable_witness :
  exists (m : measurement) (st' : monitor),
    Binary64.simulate_measurements 5 (slo_id api_success_rate)
      0x1.8d9999999999ap+6 (final (define_slos fresh)) = Done m st' /\
    m_target m = target api_success_rate /\
    (0 <= m_success_count m <= 1000)%Z /\
    0 <= m_current_slo m <= 100.
Proof.
  apply (bootstrap_makes_slos_measurable fresh api_success_rate 5
           0x1.8d9999999999ap+6).
  - simpl. auto.
  - reflexivity.
  - split; vm_compute; reflexivity.
Defined.

(** X23: for every rate between 0 and 100 and every registered SLO whose
    stored target has two decimals and is not 100, [simulate_measurements]
    returns a measurement with [total_count = 1000], the success count
    [int(1000 * (success_rate / 100))] between 0 and 1000 and [current_slo]
    in [[0, 100]], and records one row for it; the column [current_slo] of
    the row holds exactly a tenth of the success count, the rounding error
    of the float being below the two decimals of the column. *)
Theorem simulate_measurements_in_range
    (now : Z) (id : string) (success_rate : float) (st : monitor) (d : slo) :
  Binary64.percentage success_rate ->
  slo_definitions st !! id = Some d ->
  decimal_5_2 (target d) ->
  ~ target d == 100 ->
  exists (m : measurement) (st' : monitor) (row : measurement_row),
    Binary64.simulate_measurements now id success_rate st = Done m st' /\
    m_total_count m = 1000%Z /\
    Binary64.py_int (1000 * (success_rate / 100))%float
    = Ok (m_success_count m) /\
    (0 <= m_success_count m <= m_total_count m)%Z /\
    0 <= m_current_slo m <= 100 /\
    slo_measurements st' = slo_measurements st ++ [row] /\
    row_success_count row = m_success_count m /\
    row_total_count row = 1000%Z /\
    row_current_slo row == inject_Z (m_success_count m) / 10 /\
    row_error_budget_remaining row = Binary64.round_2 (m_error_budget m).
Proof.
  intros Hrate Hdef Hdec H100.
  destruct (binary64_simulate_measurements_percentage now id success_rate st
              d Hrate Hdef Hdec H100)
    as (s & ratio & stored & Hs & Hrange & _ & Hc & _ & Hstored & Hdone).
  cbv zeta in Hdone. do 3 eexists. split; [exact Hdone|].
  cbn [m_total_count m_success_count m_current_slo m_error_budget
       slo_measurements row_success_count row_total_count row_current_slo
       row_error_budget_remaining].
  repeat split; try assumption; try reflexivity; apply Hrange || apply Hc.
Qed.

Lemma simulate_measurements_in_range_witness :
  exists (m : measurement) (st' : monitor) (row : measurement_row),
    Binary64.simulate_measurements 3 "query-latency" 7
      (final (define_slos fresh)) = Done m st' /\
    m_total_count m = 1000%Z /\
    Binary64.py_int (1000 * (7 / 100))%float = Ok (m_success_count m) /\
    (0 <= m_success_count m <= m_total_count m)%Z /\
    0 <= m_current_slo m <= 100 /\
    slo_measurements st'
    = slo_measurements (final (define_slos fresh)) ++ [row] /\
    row_success_count row = m_success_count m /\
    row_total_count row = 1000%Z /\
    row_current_slo row == inject_Z (m_success_count m) / 10 /\
    row_error_budget_remaining row = Binary64.round_2 (m_error_budget m).
Proof.
  apply (simulate_measurements_in_range 3 "query-latency" 7
           (final (define_slos fresh)) query_latency).
  - split; vm_compute; reflexivity.
  - vm_compute. reflexivity.
  - exists 9500%Z. split; [lia|reflexivity].
  - intros H. vm_compute in H. discriminate.
Defined.

(** X24: outside [[0, 100]] the routine has three more ways to fail, each
    before anything is recorded: a rate [nan] ends in [ValueError] and an
    infinite one in [OverflowError] at [int(...)] on line 123, and a rate of
    1000 gives [current_slo = 1000.0], which the column [DECIMAL(5,2)]
    refuses. *)
Example simulate_measurements_out_of_range :
  let st := final (define_slos fresh) in
  Binary64.simulate_measurements 0 "db-availability" nan st
  = Failed ValueError st /\
  Binary64.simulate_measurements 0 "db-availability" infinity st
  = Failed OverflowError st /\
  Binary64.counts_and_slo 1000 = Ok (10000%Z, 1000%Z, 1000%float) /\
  Binary64.simulate_measurements 0 "db-availability" 1000 st
  = Failed NumericValueOutOfRange st.
Proof.
  repeat split; vm_compute; reflexivity.
Qed.

(** ** Budget against target *)

(** X4: for a positive number of requests and a target below 100 the
    remaining budget is [100 * (p - target) / (100 - target)], where
    [p = 100 * success_count / total_count] is the exact percentage of
    successes, whatever the total: it is negative exactly when
    [100 * success_count < target * total_count], and it is 100 exactly when
    every request succeeded.  (The float [current_slo] is [p] up to
    rounding, so the sign of the budget goes by the counts, not by
    [current_slo].) *)
Theorem error_budget_tracks_target (target : Q) (total successes : Z) :
  (0 < total)%Z ->
  target < 100 ->
  exists current_slo error_budget_remaining,
    error_budget target total successes
    = Ok (current_slo, error_budget_remaining) /\
    error_budget_remaining
    == 100 * (100 * inject_Z successes / inject_Z total - target)
       / (100 - target) /\
    (error_budget_remaining < 0
     <-> 100 * inject_Z successes < target * inject_Z total) /\
    (error_budget_remaining == 100 <-> successes = total).
Proof.
  intros Htotal Htarget.
  pose proof (allowed_errors_pos target total Htotal Htarget) as Ha.
  assert (Ht : 0 < inject_Z total).
  { change 0 with (inject_Z 0). now rewrite <- Zlt_Qlt. }
  do 2 eexists. split; [apply error_budget_eq; [lia|lra]|].
  set (p := 100 * inject_Z successes / inject_Z total).
  set (eb := (allowed_errors_of target total - inject_Z (total - successes))
             / allowed_errors_of target total * 100).
  assert (E : eb == 100 * (p - target) / (100 - target)).
  { subst eb p. unfold allowed_errors_of, Zminus.
    rewrite inject_Z_plus, inject_Z_opp. field. split; lra. }
  assert (E2 : eb * (100 - target) == 100 * (p - target)).
  { rewrite E. field. lra. }
  assert (Ep : p * inject_Z total == 100 * inject_Z successes).
  { subst p. field. lra. }
  assert (Hsign : eb < 0 <-> p < target) by (split; intros H; nra).
  assert (Hcount : p < target
                   <-> 100 * inject_Z successes < target * inject_Z total).
  { rewrite <- Ep. symmetry. now apply Qmult_lt_r. }
  split; [exact E|]. split.
  - now rewrite Hsign.
  - split.
    + intros H.
      assert (Hp : p == 100) by nra.
      assert (Hs : inject_Z successes == inject_Z total).
      { rewrite Hp in Ep. lra. }
      unfold Qeq in Hs. simpl in Hs. lia.
    + intros ->. rewrite E.
      assert (Hp : p == 100) by (subst p; field; lra).
      rewrite Hp. field. lra.
Qed.

Lemma error_budget_tracks_target_witness :
  exists current_slo error_budget_remaining,
    error_budget 95 200 180 = Ok (current_slo, error_budget_remaining) /\
    error_budget_remaining
    == 100 * (100 * inject_Z 180 / inject_Z 200 - 95) / (100 - 95) /\
    (error_budget_remaining < 0 <-> 100 * inject_Z 180 < 95 * inject_Z 200) /\
    (error_budget_remaining == 100 <-> 180%Z = 200%Z).
Proof.
  apply (error_budget_tracks_target 95 200 180); reflexivity.
Defined.

(** X5: a measurement that [simulate_measurements] returns for a rate
    between 0 and 100 against a target of two decimals below 100, and whose
    float [current_slo] lies below this target, has no budget left (the
    budget is 0 when only the rounding of [current_slo] puts it below the
    target), so [check_slo_alerts] raises the target alert (high) and, right
    after it, the budget alert as critical. *)
Theorem target_violation_comes_with_critical_budget
    (now : Z) (id : string) (success_rate : float) (st st' : monitor)
    (m : measurement) :
  Binary64.percentage success_rate ->
  Binary64.simulate_measurements now id success_rate st = Done m st' ->
  decimal_5_2 (m_target m) ->
  m_target m < 100 ->
  m_current_slo m < m_target m ->
  m_error_budget m <= 0 /\
  exists third : list alert_row,
    check_slo_alerts now m st'
    = Done tt
        (with_alerts st'
           (slo_alerts st' ++
              [AlertRow id now "high"
                 (SLO_below_target (m_current_slo m) (m_target m)) 0;
               AlertRow id now "critical"
                 (Error_budget_low (m_error_budget m)) 0] ++ third)).
Proof.
  intros [H0 H100] Hsim Hdec Htarget Hbelow.
  pose proof (binary64_simulate_measurements_inv now id success_rate st)
    as Hinv.
  rewrite Hsim in Hinv.
  destruct Hinv as (d & s & ratio & spent & stored_slo & stored_budget
                    & Hs & Hdef & Hratio & Hspent & _ & _ & _ & Hm & Hst').
  assert (Hbudget : m_error_budget m <= 0).
  { rewrite Hm in Hdec, Htarget, Hbelow |- *.
    cbn [m_target m_current_slo m_error_budget] in *.
    destruct (successes_in_range success_rate H0 H100) as (s' & Hs' & Hrange).
    rewrite Hs in Hs'. injection Hs' as <-.
    destruct (binary64_current_slo_stored s Hrange)
      as (ratio' & stored & Hratio' & _ & _ & Hlo & _).
    rewrite Hratio in Hratio'. injection Hratio' as <-.
    destruct Hdec as (k & _ & Hk).
    pose proof (allowed_errors_pos (target d) 1000 eq_refl Htarget) as Ha.
    rewrite decimal_div_nonzero in Hspent by lra.
    injection Hspent as <-.
    assert (Hsk : (10 * s <= k)%Z).
    { assert (H : inject_Z (20 * s - 1) < inject_Z (2 * k)).
      { unfold Zminus. rewrite inject_Z_plus, !inject_Z_mult, inject_Z_opp.
        change (inject_Z 20) with 20. change (inject_Z 2) with 2.
        change (inject_Z 1) with 1.
        assert (E1 : inject_Z s / 10 == inject_Z s * (1 # 10)) by field.
        assert (E2 : inject_Z k / 100 == inject_Z k * (1 # 100)) by field.
        rewrite Hk, E2 in Hbelow. rewrite E1 in Hlo. lra. }
      rewrite <- Zlt_Qlt in H. lia. }
    assert (Hsk' : 10 * inject_Z s <= inject_Z k).
    { change 10 with (inject_Z 10). rewrite <- inject_Z_mult, <- Zle_Qle.
      exact Hsk. }
    assert (Ea : allowed_errors_of (target d) 1000
                 == 1000 - inject_Z k * (1 # 10)).
    { unfold allowed_errors_of. rewrite Hk. change (inject_Z 1000) with 1000.
      field. }
    assert (Es : inject_Z (1000 - s) == 1000 - inject_Z s).
    { unfold Zminus. rewrite inject_Z_plus, inject_Z_opp.
      change (inject_Z 1000) with 1000. ring. }
    assert ((allowed_errors_of (target d) 1000 - inject_Z (1000 - s))
            / allowed_errors_of (target d) 1000 <= 0).
    { apply Qle_shift_div_r; [assumption|]. lra. }
    lra. }
  split; [assumption|].
  destruct (check_slo_alerts_eq now m st') as (rate & _ & Hcheck).
  exists (burn_rate_high now m rate). rewrite Hcheck.
  unfold target_violation, budget_low.
  assert (Hid : m_slo_id m = id) by (rewrite Hm; reflexivity).
  apply Qltb_lt in Hbelow. rewrite Hbelow.
  assert (H20 : Qltb (m_error_budget m) 20 = true) by (apply Qltb_lt; lra).
  assert (H10 : Qltb (m_error_budget m) 10 = true) by (apply Qltb_lt; lra).
  rewrite H20, H10, Hid. reflexivity.
Qed.

(** The rate 57 against a stored target of 57.00: 570 successes, a
    [current_slo] of 56.99999999999999 below the target, and a budget of
    exactly 0. *)
Lemma target_violation_comes_with_critical_budget_witness :
  let fifty_seven := Slo "slo-57" "api" "success_rate" 57 168 "57 percent" in
  let st := Monitor ∅ {["slo-57" := fifty_seven]} [] [] in
  exists (m : measurement) (st' : monitor),
    Binary64.simulate_measurements 9 "slo-57" 57 st = Done m st' /\
    m_current_slo m < 57 /\
    m_error_budget m == 0 /\
    m_error_budget m <= 0 /\
    exists third : list alert_row,
      check_slo_alerts 9 m st'
      = Done tt
          (with_alerts st'
             (slo_alerts st' ++
                [AlertRow "slo-57" 9 "high"
                   (SLO_below_target (m_current_slo m) (m_target m)) 0;
                 AlertRow "slo-57" 9 "critical"
                   (Error_budget_low (m_error_budget m)) 0] ++ third)).
Proof.
  intros fifty_seven st.
  destruct (Binary64.simulate_measurements 9 "slo-57" 57 st)
    as [m st'|e st'] eqn:E.
  - exists m, st'. split; [reflexivity|].
    assert (Hm : m_current_slo m < 57 /\ m_error_budget m == 0 /\
                 m_target m = 57).
    { vm_compute in E. injection E as <- <-. repeat split. }
    destruct Hm as (Hc & Hb & Ht).
    split; [exact Hc|]. split; [exact Hb|].
    apply (target_violation_comes_with_critical_budget 9 "slo-57" 57 st
             st' m).
    + split; vm_compute; reflexivity.
    + exact E.
    + rewrite Ht. exists 5700%Z. split; [lia|reflexivity].
    + rewrite Ht. reflexivity.
    + rewrite Ht. exact Hc.
  - vm_compute in E. discriminate.
Defined.

(** ** Burn rate over the table *)

Lemma calculate_burn_rate_reads_only_aux
    (now : Z) (id : string) (st : monitor) :
  exists rate : Q,
    calculate_burn_rate now id st = Done rate st /\
    burn_rate (last_hour now id (slo_measurements st)) = Ok rate.
Proof.
  destruct (calculate_burn_rate_eq now id st) as (rate & Hrate & Hcalc).
  exists rate. split; [|assumption].
  specialize (Hcalc (slo_alerts st)). now rewrite with_alerts_same in Hcalc.
Qed.

(** X6: a measurement of another SLO, or one that is an hour old or older,
    takes no part in the burn rate, wherever it stands in the table. *)
Theorem burn_rate_ignores_other_rows
    (now : Z) (id : string) (row : measurement_row)
    (before after : list measurement_row) :
  row_slo_id row <> id \/ (row_timestamp row <= now - 3600)%Z ->
  last_hour now id (before ++ row :: after)
  = last_hour now id (before ++ after).
Proof.
  intros H. unfold last_hour. rewrite !List.filter_app. cbn [List.filter].
  assert (E : String.eqb (row_slo_id row) id
              && (now - 3600 <? row_timestamp row)%Z = false).
  { destruct H as [H|H].
    - apply String.eqb_neq in H. now rewrite H.
    - apply andb_false_iff. right. apply Z.ltb_ge. assumption. }
  now rewrite E.
Qed.

Lemma burn_rate_ignores_other_rows_witness :
  last_hour 4000 "query-latency"
    ([MeasurementRow "query-latency" 3990 990 1000 99 80] ++
     MeasurementRow "query-latency" 100 900 1000 90 (-100) ::
     [MeasurementRow "query-latency" 3995 980 1000 98 60])
  = last_hour 4000 "query-latency"
      ([MeasurementRow "query-latency" 3990 990 1000 99 80] ++
       [MeasurementRow "query-latency" 3995 980 1000 98 60]).
Proof.
  apply burn_rate_ignores_other_rows. right. simpl. lia.
Defined.

(** X7: the rate exceeds the alert threshold of 5 exactly when there are at
    least two samples and the budget fell, from the first sample to the last,
    by more than 5 points per sample; a budget that holds or recovers never
    reaches it. *)
Theorem burn_rate_above_threshold (measurements : list Q) (rate : Q) :
  burn_rate measurements = Ok rate ->
  (5 < rate <->
   exists oldest newest,
     (2 <= length measurements)%nat /\
     head measurements = Some oldest /\
     last measurements = Some newest /\
     5 * inject_Z (Z.of_nat (length measurements)) < oldest - newest).
Proof.
  intros H.
  destruct (Nat.ltb_spec (length measurements) 2) as [Hlt|Hge].
  - rewrite burn_rate_few in H by assumption.
    injection H as <-. split.
    + intros H5. lra.
    + intros (o & n & Hlen & _). lia.
  - destruct measurements as [|x l]; [simpl in Hge; lia|].
    destruct (last_is_Some (x :: l)) as [y Hy]; [simpl; lia|].
    rewrite (burn_rate_eq (x :: l) x y Hge eq_refl Hy) in H.
    injection H as <-.
    assert (Hn : 0 < inject_Z (Z.of_nat (length (x :: l)))).
    { change 0 with (inject_Z 0). rewrite <- Zlt_Qlt. simpl. lia. }
    split.
    + intros H5. exists x, y. repeat split; try assumption.
      assert (E : x - y == (x - y) / inject_Z (Z.of_nat (length (x :: l)))
                           * inject_Z (Z.of_nat (length (x :: l))))
        by (field; lra).
      rewrite E. apply Qmult_lt_r; assumption.
    + intros (o & n & _ & Ho & Hl & Hdrop).
      injection Ho as <-. rewrite Hy in Hl. injection Hl as <-.
      apply Qlt_shift_div_l; assumption.
Qed.

Lemma burn_rate_above_threshold_witness :
  5 < 40 # 2 <->
  exists oldest newest,
    (2 <= length [80; 40])%nat /\
    head [80; 40] = Some oldest /\
    last [80; 40] = Some newest /\
    5 * inject_Z (Z.of_nat (length [80; 40])) < oldest - newest.
Proof.
  apply (burn_rate_above_threshold [80; 40] (40 # 2)). reflexivity.
Defined.

(** *** [ORDER BY timestamp] *)

Lemma insert_by_timestamp_perm (r : measurement_row)
    (l : list measurement_row) :
  Permutation (insert_by_timestamp r l) (r :: l).
Proof.
  induction l as [|r' l IH]; cbn [insert_by_timestamp]; [reflexivity|].
  destruct (row_timestamp r <? row_timestamp r')%Z; [reflexivity|].
  rewrite IH. apply perm_swap.
Qed.

Lemma insert_by_timestamp_sorted (r : measurement_row)
    (l : list measurement_row) :
  StronglySorted by_timestamp l ->
  StronglySorted by_timestamp (insert_by_timestamp r l).
Proof.
  induction l as [|r' l IH]; intros Hs; cbn [insert_by_timestamp].
  - repeat constructor.
  - apply StronglySorted_inv in Hs as [Hs Hall].
    destruct (Z.ltb_spec (row_timestamp r) (row_timestamp r')) as [Hlt|Hge].
    + constructor; [now constructor|].
      constructor; [unfold by_timestamp; lia|].
      eapply Forall_impl; [exact Hall|].
      unfold by_timestamp. intros a Ha. lia.
    + constructor; [now apply IH|].
      rewrite (insert_by_timestamp_perm r l).
      constructor; [exact Hge|exact Hall].
Qed.

Lemma order_by_timestamp_acc (l acc : list measurement_row) :
  Permutation (fold_left (fun a r => insert_by_timestamp r a) l acc)
              (acc ++ l) /\
  (StronglySorted by_timestamp acc ->
   StronglySorted by_timestamp
     (fold_left (fun a r => insert_by_timestamp r a) l acc)).
Proof.
  revert acc. induction l as [|r l IH]; intros acc; cbn [fold_left].
  - rewrite app_nil_r. split; [reflexivity|auto].
  - destruct (IH (insert_by_timestamp r acc)) as [Hp Hs]. split.
    + rewrite Hp, insert_by_timestamp_perm.
      now rewrite <- Permutation_middle.
    + intros Hacc. now apply Hs, insert_by_timestamp_sorted.
Qed.

Lemma order_by_timestamp_perm (l : list measurement_row) :
  Permutation (order_by_timestamp l) l.
Proof. apply (order_by_timestamp_acc l []). Qed.

Lemma order_by_timestamp_sorted (l : list measurement_row) :
  StronglySorted by_timestamp (order_by_timestamp l).
Proof. apply (order_by_timestamp_acc l []). constructor. Qed.

Lemma order_by_timestamp_length (l : list measurement_row) :
  length (order_by_timestamp l) = length l.
Proof. apply Permutation_length, order_by_timestamp_perm. Qed.

(** The first row of a sorted list is the oldest, the last the newest. *)
Lemma sorted_last_newest (l : list measurement_row)
    (newest r : measurement_row) :
  StronglySorted by_timestamp l ->
  last l = Some newest -> In r l ->
  (row_timestamp r <= row_timestamp newest)%Z.
Proof.
  intros Hs. induction Hs as [|a l Hs IH Hall]; intros Hlast Hin.
  - discriminate.
  - rewrite Forall_forall in Hall. destruct l as [|b l].
    + injection Hlast as ->. destruct Hin as [->|[]]. lia.
    + change (last (a :: b :: l)) with (last (b :: l)) in Hlast.
      destruct Hin as [->|Hin]; [|now apply IH].
      apply Hall, last_Some_elem_of. exact Hlast.
Qed.

Lemma sorted_head_oldest (l : list measurement_row)
    (oldest r : measurement_row) :
  StronglySorted by_timestamp l ->
  head l = Some oldest -> In r l ->
  (row_timestamp oldest <= row_timestamp r)%Z.
Proof.
  intros Hs Hhd Hin. destruct Hs as [|a l Hs Hall]; [discriminate|].
  injection Hhd as ->. rewrite Forall_forall in Hall.
  destruct Hin as [->|Hin]; [lia|].
  apply Hall, list_elem_of_In. exact Hin.
Qed.

(** X8: the rate runs from the earliest to the latest sample of the last hour
    by timestamp, in whatever order the rows stand in the table: with at
    least two rows of the SLO in the last hour, [calculate_burn_rate] returns
    the budget of a row of least timestamp minus the budget of a row of
    greatest timestamp, divided by the number of those rows. *)
Theorem burn_rate_spans_the_window (now : Z) (id : string) (st : monitor) :
  let selected :=
    List.filter
      (fun r => String.eqb (row_slo_id r) id
                && (now - 3600 <? row_timestamp r)%Z)
      (slo_measurements st) in
  (2 <= length selected)%nat ->
  exists oldest newest : measurement_row,
    In oldest selected /\ In newest selected /\
    (forall r, In r selected ->
       (row_timestamp oldest <= row_timestamp r <= row_timestamp newest)%Z) /\
    calculate_burn_rate now id st
    = Done ((row_error_budget_remaining oldest
             - row_error_budget_remaining newest)
            / inject_Z (Z.of_nat (length selected))) st.
Proof.
  intros selected Hlen.
  pose proof (order_by_timestamp_perm selected) as Hperm.
  pose proof (order_by_timestamp_sorted selected) as Hsorted.
  pose proof (order_by_timestamp_length selected) as Hlength.
  destruct (order_by_timestamp selected) as [|oldest rest] eqn:Hrows;
    [simpl in Hlength; lia|].
  destruct (last_is_Some (oldest :: rest)) as [newest Hnewest];
    [simpl; lia|].
  exists oldest, newest.
  assert (Hin : forall r, In r (oldest :: rest) -> In r selected).
  { intros r Hr. eapply Permutation_in; [exact Hperm|exact Hr]. }
  split; [apply Hin; now left|]. split.
  { apply Hin, list_elem_of_In, last_Some_elem_of. exact Hnewest. }
  split.
  { intros r Hr.
    assert (Hr' : In r (oldest :: rest)).
    { eapply Permutation_in; [symmetry; exact Hperm|exact Hr]. }
    split.
    - now apply (sorted_head_oldest (oldest :: rest)).
    - now apply (sorted_last_newest (oldest :: rest)). }
  destruct (calculate_burn_rate_reads_only_aux now id st)
    as (rate & Hcalc & Hrate).
  rewrite Hcalc. f_equal.
  unfold last_hour in Hrate. fold selected in Hrate. rewrite Hrows in Hrate.
  rewrite (burn_rate_eq _ (row_error_budget_remaining oldest)
             (row_error_budget_remaining newest)) in Hrate.
  - injection Hrate as <-. do 3 f_equal.
    change (length (row_error_budget_remaining <$> oldest :: rest)
            = length selected).
    now rewrite length_fmap.
  - rewrite length_fmap, Hlength. exact Hlen.
  - reflexivity.
  - rewrite fmap_last, Hnewest. reflexivity.
Qed.

Lemma burn_rate_spans_the_window_witness :
  let st :=
    Monitor ∅ ∅
      [MeasurementRow "query-latency" 4020 970 1000 97 40;
       MeasurementRow "query-latency" 4000 990 1000 99 80;
       MeasurementRow "query-latency" 4010 980 1000 98 60]
      [] in
  let selected :=
    List.filter
      (fun r => String.eqb (row_slo_id r) "query-latency"
                && (4030 - 3600 <? row_timestamp r)%Z)
      (slo_measurements st) in
  exists oldest newest : measurement_row,
    In oldest selected /\ In newest selected /\
    (forall r, In r selected ->
       (row_timestamp oldest <= row_timestamp r <= row_timestamp newest)%Z) /\
    calculate_burn_rate 4030 "query-latency" st
    = Done ((row_error_budget_remaining oldest
             - row_error_budget_remaining newest)
            / inject_Z (Z.of_nat (length selected))) st.
Proof.
  intros st selected.
  apply (burn_rate_spans_the_window 4030 "query-latency" st).
  simpl. lia.
Defined.

(** ** Alerts over the tables *)

(** X9: the first measurement of an SLO within an hour cannot raise the
    burn-rate alert: when the last hour holds no measurement of the id, the
    evaluation of the measurement that [simulate_measurements] has just
    recorded appends the alerts of the first two rules only. *)
Theorem first_measurement_raises_no_burn_alert
    (now : Z) (id : string) (success_rate : Q) (st st' : monitor)
    (m : measurement) :
  last_hour now id (slo_measurements st) = [] ->
  simulate_measurements now id success_rate st = Done m st' ->
  check_slo_alerts now m st'
  = Done tt
      (with_alerts st'
         (slo_alerts st' ++ target_violation now m ++ budget_low now m)).
Proof.
  intros Hempty Hsim.
  destruct (simulate_measurements_done_inv _ _ _ _ _ _ Hsim)
    as (d & Hdef & H100 & Hm & Hst').
  assert (Hid : m_slo_id m = id) by (rewrite Hm; reflexivity).
  assert (Hnone :
    List.filter
      (fun r => String.eqb (row_slo_id r) id
                && (now - 3600 <? row_timestamp r)%Z)
      (slo_measurements st) = []).
  { apply (f_equal length) in Hempty. unfold last_hour in Hempty.
    rewrite length_fmap, order_by_timestamp_length in Hempty.
    now apply length_zero_iff_nil. }
  assert (Hwindow : last_hour now id (slo_measurements st')
                    = [m_error_budget m]).
  { rewrite Hst'. cbn [slo_measurements]. unfold last_hour.
    rewrite List.filter_app, Hnone. cbn [List.filter app row_slo_id
                                          row_timestamp].
    rewrite String.eqb_refl.
    replace (now - 3600 <? now)%Z with true by (symmetry; apply Z.ltb_lt; lia).
    reflexivity. }
  destruct (check_slo_alerts_eq now m st') as (rate & Hrate & Hcheck).
  destruct (calculate_burn_rate_reads_only_aux now (m_slo_id m) st')
    as (rate' & Hrate' & Hburn).
  rewrite Hrate in Hrate'. injection Hrate' as <-.
  rewrite Hid, Hwindow in Hburn.
  rewrite burn_rate_few in Hburn by (simpl; lia).
  injection Hburn as <-.
  rewrite Hcheck. unfold burn_rate_high.
  replace (Qltb 5 0) with false by reflexivity.
  now rewrite app_nil_r.
Qed.

Lemma first_measurement_raises_no_burn_alert_witness :
  exists (m : measurement) (st' : monitor),
    simulate_measurements 9 "query-latency" 90 (final (define_slos fresh))
    = Done m st' /\
    check_slo_alerts 9 m st'
    = Done tt
        (with_alerts st'
           (slo_alerts st' ++ target_violation 9 m ++ budget_low 9 m)).
Proof.
  destruct (simulate_measurements 9 "query-latency" 90
              (final (define_slos fresh))) as [m st'|e st'] eqn:E.
  - exists m, st'. split; [reflexivity|].
    apply (first_measurement_raises_no_burn_alert 9 "query-latency" 90
             (final (define_slos fresh)) st' m); [reflexivity|exact E].
  - vm_compute in E. discriminate.
Defined.


(** X11: an evaluation leaves the monitor exactly as it was if and only if
    the measurement meets its target, has a budget of 20 or more, and the
    burn rate of its SLO is 5 or less. *)
Theorem check_slo_alerts_quiet_iff_healthy
    (now : Z) (m : measurement) (st : monitor) (rate : Q) :
  calculate_burn_rate now (m_slo_id m) st = Done rate st ->
  (check_slo_alerts now m st = Done tt st <->
   m_target m <= m_current_slo m /\ 20 <= m_error_budget m /\ rate <= 5).
Proof.
  intros Hrate.
  destruct (check_slo_alerts_eq now m st) as (rate' & Hrate' & Hcheck).
  rewrite Hrate in Hrate'. injection Hrate' as <-.
  rewrite Hcheck. unfold target_violation, budget_low, burn_rate_high.
  split.
  - intros H. injection H as H.
    apply (f_equal slo_alerts) in H.
    rewrite <- (with_alerts_same st) in H at 2.
    cbn [slo_alerts with_alerts] in H.
    rewrite <- (app_nil_r (slo_alerts st)) in H at 2.
    apply app_inv_head in H.
    destruct (Qltb (m_current_slo m) (m_target m)) eqn:H1;
      [discriminate|].
    destruct (Qltb (m_error_budget m) 20) eqn:H2; [discriminate|].
    destruct (Qltb 5 rate) eqn:H3; [discriminate|].
    apply Qltb_ge in H1, H2, H3. auto.
  - intros (H1 & H2 & H3).
    apply Qltb_ge in H1, H2, H3. rewrite H1, H2, H3.
    cbn [app]. now rewrite app_nil_r, with_alerts_same.
Qed.

Lemma check_slo_alerts_quiet_iff_healthy_witness :
  let m := Measurement "api-success-rate" 99.7 99.5 40 997 1000 in
  check_slo_alerts 3 m fresh = Done tt fresh <->
  m_target m <= m_current_slo m /\ 20 <= m_error_budget m /\ 0 <= 5.
Proof.
  intros m.
  apply (check_slo_alerts_quiet_iff_healthy 3 m fresh 0). reflexivity.
Defined.

(** X12: nothing is deduplicated: evaluating the same measurement a second
    time appends the same alerts once more. *)
Theorem check_slo_alerts_fires_again
    (now : Z) (m : measurement) (st : monitor) :
  exists (added : list alert_row) (st1 : monitor),
    check_slo_alerts now m st = Done tt st1 /\
    slo_alerts st1 = slo_alerts st ++ added /\
    check_slo_alerts now m st1
    = Done tt (with_alerts st (slo_alerts st ++ added ++ added)).
Proof.
  destruct (check_slo_alerts_eq now m st) as (rate & Hrate & Hcheck).
  destruct (calculate_burn_rate_eq now (m_slo_id m) st)
    as (rate0 & _ & Hcalc).
  assert (E0 : rate0 = rate).
  { specialize (Hcalc (slo_alerts st)). rewrite with_alerts_same in Hcalc.
    rewrite Hrate in Hcalc. now injection Hcalc. }
  subst rate0.
  set (added := target_violation now m ++ budget_low now m
                ++ burn_rate_high now m rate) in *.
  set (st1 := with_alerts st (slo_alerts st ++ added)) in *.
  exists added, st1. split; [exact Hcheck|]. split; [reflexivity|].
  destruct (check_slo_alerts_eq now m st1) as (rate1 & Hrate1 & Hcheck1).
  assert (E1 : rate1 = rate).
  { unfold st1 in Hrate1. rewrite Hcalc in Hrate1. now injection Hrate1. }
  subst rate1. rewrite Hcheck1. fold added.
  unfold st1, with_alerts. cbn [slos slo_definitions slo_measurements
                                 slo_alerts].
  now rewrite <- app_assoc.
Qed.

(** ** Dashboard *)

(** X13: the dashboard shows CRITICAL exactly when the figures would raise
    the target alert or the budget alert of [check_slo_alerts], or the budget
    is exactly 20: the dashboard counts a budget of 20 as critical, the
    alert rule does not.  HEALTHY needs the target met and a budget above
    50. *)
Theorem status_indicator_against_alerts (now : Z) (m : measurement) :
  let status :=
    fst (status_indicator (m_current_slo m) (m_target m) (m_error_budget m)) in
  (status = "CRITICAL" <->
   target_violation now m ++ budget_low now m <> [] \/
   m_error_budget m == 20) /\
  (status = "HEALTHY" <->
   m_target m <= m_current_slo m /\ 50 < m_error_budget m) /\
  (status = "HEALTHY" \/ status = "WARNING" \/ status = "CRITICAL").
Proof.
  unfold status_indicator, target_violation, budget_low.
  destruct (Qgeb (m_current_slo m) (m_target m)) eqn:Hmet.
  - apply Qgeb_ge in Hmet.
    assert (Hnot : Qltb (m_current_slo m) (m_target m) = false)
      by now apply Qltb_ge.
    rewrite Hnot.
    destruct (Qltb 50 (m_error_budget m)) eqn:H50.
    + apply Qltb_lt in H50.
      assert (H20 : Qltb (m_error_budget m) 20 = false)
        by (apply Qltb_ge; lra).
      rewrite H20. cbn. repeat split; auto; try discriminate.
      intros [H|H]; [congruence|lra].
    + apply Qltb_ge in H50. cbn [andb].
      destruct (Qltb 20 (m_error_budget m)) eqn:H20.
      * apply Qltb_lt in H20.
        assert (H20' : Qltb (m_error_budget m) 20 = false)
          by (apply Qltb_ge; lra).
        rewrite H20'. cbn. repeat split; auto; try discriminate.
        -- intros [H|H]; [congruence|lra].
        -- intros [_ H]. lra.
      * apply Qltb_ge in H20. cbn [fst].
        destruct (Qltb (m_error_budget m) 20) eqn:H20'.
        -- cbn. repeat split; auto; try discriminate.
           intros [_ H]. lra.
        -- apply Qltb_ge in H20'. cbn. repeat split; auto; try discriminate.
           ++ intros _. right. lra.
           ++ intros [_ H]. lra.
  - apply Qgeb_lt in Hmet.
    assert (Hlt : Qltb (m_current_slo m) (m_target m) = true)
      by now apply Qltb_lt.
    rewrite Hlt. cbn. repeat split; auto; try discriminate.
    intros [H _]. lra.
Qed.

(** The newest row of an SLO, when there is one. *)
Lemma latest_measurement_Some (id : string) (rows : list measurement_row)
    (r : measurement_row) :
  latest_measurement id rows = Some r ->
  In r rows /\ row_slo_id r = id /\
  forall r', In r' rows -> row_slo_id r' = id ->
             (row_timestamp r' <= row_timestamp r)%Z.
Proof.
  unfold latest_measurement. intros H.
  set (mine := List.filter (fun x => String.eqb (row_slo_id x) id) rows) in *.
  pose proof (order_by_timestamp_perm mine) as Hperm.
  pose proof (order_by_timestamp_sorted mine) as Hsorted.
  assert (Hr : In r mine).
  { eapply Permutation_in; [exact Hperm|].
    apply list_elem_of_In, last_Some_elem_of. exact H. }
  apply filter_In in Hr as [Hin Hid]. apply String.eqb_eq in Hid.
  repeat split; [assumption..|].
  intros r' Hin' Hid'.
  apply (sorted_last_newest (order_by_timestamp mine)); [assumption..|].
  eapply Permutation_in; [symmetry; exact Hperm|].
  apply filter_In. split; [assumption|]. now apply String.eqb_eq.
Qed.

Lemma latest_measurement_None (id : string) (rows : list measurement_row) :
  latest_measurement id rows = None <->
  forall r, In r rows -> row_slo_id r <> id.
Proof.
  unfold latest_measurement. rewrite last_None. split.
  - intros H r Hin Hid.
    assert (Hr : In r (List.filter
                         (fun x => String.eqb (row_slo_id x) id) rows)).
    { apply filter_In. split; [assumption|]. now apply String.eqb_eq. }
    apply (Permutation_in _ (Permutation_sym (order_by_timestamp_perm _)))
      in Hr.
    rewrite H in Hr. destruct Hr.
  - intros H.
    destruct (order_by_timestamp _) as [|r l] eqn:E; [reflexivity|].
    exfalso.
    assert (Hr : In r (List.filter
                         (fun x => String.eqb (row_slo_id x) id) rows)).
    { eapply Permutation_in; [apply order_by_timestamp_perm|].
      rewrite E. now left. }
    apply filter_In in Hr as [Hin Hid]. apply String.eqb_eq in Hid.
    exact (H r Hin Hid).
Qed.

(** X14: an SLO appears on the dashboard exactly when it is a key of
    [self.slos] and has a measurement.  What is shown is its newest
    measurement, with the status computed against the target held in
    [self.slos]; the turn raises only when that row has [total_count = 0],
    and then it is the division error. *)
Theorem dashboard_turn_shows_newest (st : monitor) (id : string) :
  (dashboard_turn st id = None <->
   slos st !! id = None \/
   forall r, In r (slo_measurements st) -> row_slo_id r <> id) /\
  (forall outcome, dashboard_turn st id = Some outcome ->
   exists (d : slo) (r : measurement_row),
     slos st !! id = Some d /\
     In r (slo_measurements st) /\ row_slo_id r = id /\
     (forall r', In r' (slo_measurements st) -> row_slo_id r' = id ->
                 (row_timestamp r' <= row_timestamp r)%Z) /\
     match outcome with
     | Ok e =>
         row_total_count r <> 0%Z /\
         de_current_slo e = row_current_slo r /\
         de_error_budget e = row_error_budget_remaining r /\
         de_target e = target d /\
         (de_status e, de_symbol e)
         = status_indicator (row_current_slo r) (target d)
             (row_error_budget_remaining r) /\
         de_last_updated e = row_timestamp r
     | Raise e => e = ZeroDivisionError /\ row_total_count r = 0%Z
     end).
Proof.
  unfold dashboard_turn. split.
  - destruct (slos st !! id) as [d|] eqn:Hd; cbn.
    + destruct (latest_measurement id (slo_measurements st)) as [r|] eqn:Hr;
        cbn.
      * destruct (status_indicator _ _ _). split; [discriminate|].
        intros [H|H]; [discriminate|].
        apply latest_measurement_None in H. congruence.
      * split; [|reflexivity]. intros _. right.
        now apply latest_measurement_None.
    + split; auto.
  - intros outcome H.
    destruct (slos st !! id) as [d|] eqn:Hd; cbn in H; [|discriminate].
    destruct (latest_measurement id (slo_measurements st)) as [r|] eqn:Hr;
      cbn in H; [|discriminate].
    destruct (latest_measurement_Some _ _ _ Hr) as (Hin & Hid & Hmax).
    exists d, r. repeat split; try assumption.
    destruct (status_indicator (row_current_slo r) (target d)
                (row_error_budget_remaining r)) as [status symbol] eqn:Hs.
    injection H as <-.
    destruct (Z.eq_dec (row_total_count r) 0%Z) as [Hz|Hnz].
    + rewrite py_div_zero by (rewrite Hz; reflexivity). cbn. auto.
    + rewrite py_div_nonzero by now apply inject_Z_nonzero.
      cbn. repeat split; assumption.
Qed.

(** *** Recent alerts *)

Lemma insert_by_triggered_at_perm (a : alert_row) (l : list alert_row) :
  Permutation (insert_by_triggered_at a l) (a :: l).
Proof.
  induction l as [|a' l IH]; cbn [insert_by_triggered_at]; [reflexivity|].
  destruct (triggered_at a' <? triggered_at a)%Z; [reflexivity|].
  rewrite IH. apply perm_swap.
Qed.

Lemma insert_by_triggered_at_sorted (a : alert_row) (l : list alert_row) :
  StronglySorted newest_first l ->
  StronglySorted newest_first (insert_by_triggered_at a l).
Proof.
  induction l as [|a' l IH]; intros Hs; cbn [insert_by_triggered_at].
  - repeat constructor.
  - apply StronglySorted_inv in Hs as [Hs Hall].
    destruct (Z.ltb_spec (triggered_at a') (triggered_at a)) as [Hlt|Hge].
    + constructor; [now constructor|].
      constructor; [unfold newest_first; lia|].
      eapply Forall_impl; [exact Hall|].
      unfold newest_first. intros x Hx. lia.
    + constructor; [now apply IH|].
      rewrite (insert_by_triggered_at_perm a l).
      constructor; [exact Hge|exact Hall].
Qed.

Lemma order_by_triggered_at_desc_acc (l acc : list alert_row) :
  Permutation (fold_left (fun s a => insert_by_triggered_at a s) l acc)
              (acc ++ l) /\
  (StronglySorted newest_first acc ->
   StronglySorted newest_first
     (fold_left (fun s a => insert_by_triggered_at a s) l acc)).
Proof.
  revert acc. induction l as [|a l IH]; intros acc; cbn [fold_left].
  - rewrite app_nil_r. split; [reflexivity|auto].
  - destruct (IH (insert_by_triggered_at a acc)) as [Hp Hs]. split.
    + rewrite Hp, insert_by_triggered_at_perm.
      now rewrite <- Permutation_middle.
    + intros Hacc. now apply Hs, insert_by_triggered_at_sorted.
Qed.

Lemma sorted_app_inv {A} (R : A -> A -> Prop) (l1 l2 : list A) :
  StronglySorted R (l1 ++ l2) ->
  StronglySorted R l1 /\
  forall a b, In a l1 -> In b l2 -> R a b.
Proof.
  induction l1 as [|x l1 IH]; cbn [app]; intros Hs.
  - split; [constructor|]. intros a b [].
  - apply StronglySorted_inv in Hs as [Hs Hall].
    destruct (IH Hs) as [Hs1 Hcross]. split.
    + constructor; [assumption|].
      apply Forall_app in Hall as [Hall _]. exact Hall.
    + intros a b [<-|Ha] Hb; [|now apply Hcross].
      rewrite Forall_forall in Hall. apply Hall.
      apply list_elem_of_In, in_or_app. now right.
Qed.

(** X15: the dashboard lists at most five alerts, all of them stored alerts
    of the last hour, newest first, and no alert of the last hour that is
    left out is newer than one that is listed. *)
Theorem recent_alerts_are_the_newest_five (now : Z) (alerts : list alert_row) :
  let shown := recent_alerts now alerts in
  (length shown <= 5)%nat /\
  StronglySorted newest_first shown /\
  (forall a, In a shown ->
     In a alerts /\ (now - 3600 < triggered_at a)%Z) /\
  (forall a b,
     In a shown -> In b alerts -> (now - 3600 < triggered_at b)%Z ->
     ~ In b shown -> (triggered_at b <= triggered_at a)%Z).
Proof.
  intros shown. unfold recent_alerts in shown.
  set (inside := List.filter (fun a => (now - 3600 <? triggered_at a)%Z)
                   alerts) in *.
  set (sorted := order_by_triggered_at_desc inside) in *.
  assert (Hperm : Permutation sorted inside)
    by apply (order_by_triggered_at_desc_acc inside []).
  assert (Hsorted : StronglySorted newest_first sorted).
  { apply (order_by_triggered_at_desc_acc inside []). constructor. }
  assert (Hsplit : sorted = shown ++ drop 5 sorted)
    by (symmetry; apply take_drop).
  rewrite Hsplit in Hsorted.
  apply sorted_app_inv in Hsorted as [Hshown Hcross].
  split; [subst shown; rewrite length_take; lia|].
  split; [assumption|]. split.
  - intros a Ha.
    assert (Hin : In a inside).
    { eapply Permutation_in; [exact Hperm|].
      rewrite Hsplit. apply in_or_app. now left. }
    apply filter_In in Hin as [Hin Hnew]. apply Z.ltb_lt in Hnew. auto.
  - intros a b Ha Hb Hnew Hout.
    assert (Hin : In b sorted).
    { eapply Permutation_in; [symmetry; exact Hperm|].
      apply filter_In. split; [assumption|]. now apply Z.ltb_lt. }
    rewrite Hsplit in Hin. apply in_app_or in Hin as [Hin|Hin];
      [contradiction|].
    exact (Hcross a b Ha Hin).
Qed.

(** ** Summary report *)

Lemma sum_ge (t : Q) (values : list Q) :
  Forall (fun v => t <= v) values ->
  inject_Z (Z.of_nat (length values)) * t <= fold_right Qplus 0 values.
Proof.
  induction 1 as [|v values Hv _ IH]; cbn [fold_right length].
  - change (inject_Z (Z.of_nat 0)) with 0. lra.
  - rewrite Nat2Z.inj_succ. unfold Z.succ. rewrite inject_Z_plus.
    change (inject_Z 1) with 1. lra.
Qed.

Lemma sum_lt (t : Q) (values : list Q) :
  values <> [] ->
  Forall (fun v => v < t) values ->
  fold_right Qplus 0 values < inject_Z (Z.of_nat (length values)) * t.
Proof.
  intros Hne Hall. induction Hall as [|v values Hv Hall IH];
    [congruence|].
  cbn [fold_right length].
  rewrite Nat2Z.inj_succ. unfold Z.succ. rewrite inject_Z_plus.
  change (inject_Z 1) with 1.
  destruct values as [|w values].
  - cbn [fold_right length]. change (inject_Z (Z.of_nat 0)) with 0. lra.
  - assert (w :: values <> []) by discriminate. specialize (IH H). lra.
Qed.

Lemma avg_ge (t : Q) (values : list Q) :
  values <> [] -> Forall (fun v => t <= v) values -> t <= avg values.
Proof.
  intros Hne Hall. unfold avg.
  apply Qle_shift_div_l.
  - change 0 with (inject_Z 0). rewrite <- Zlt_Qlt.
    destruct values; [congruence|simpl; lia].
  - rewrite Qmult_comm. now apply sum_ge.
Qed.

Lemma avg_lt (t : Q) (values : list Q) :
  values <> [] -> Forall (fun v => v < t) values -> avg values < t.
Proof.
  intros Hne Hall. unfold avg.
  apply Qlt_shift_div_r.
  - change 0 with (inject_Z 0). rewrite <- Zlt_Qlt.
    destruct values; [congruence|simpl; lia].
  - rewrite Qmult_comm. now apply sum_lt.
Qed.

(** X16: the report has a row for a definition exactly when the SLO has
    measurements, with their number; the row shows the average of their
    [current_slo] and the verdict goes by this average: COMPLIANT exactly
    when the average is at least the target, NON-COMPLIANT exactly when it
    is below.  So an SLO whose measurements all meet the target is reported
    COMPLIANT, and one whose measurements all miss it NON-COMPLIANT. *)
Theorem summary_of_compliance (st : monitor) (d : slo) :
  let rows :=
    List.filter (fun m => String.eqb (slo_id d) (row_slo_id m))
      (slo_measurements st) in
  (summary_of st d = None <-> rows = []) /\
  (forall s, summary_of st d = Some s ->
     sr_count s = length rows /\
     sr_avg_slo s = avg (row_current_slo <$> rows) /\
     sr_avg_budget s = avg (row_error_budget_remaining <$> rows) /\
     (sr_compliance s = "COMPLIANT" <-> target d <= sr_avg_slo s) /\
     (sr_compliance s = "NON-COMPLIANT" <-> sr_avg_slo s < target d) /\
     (Forall (fun r => target d <= row_current_slo r) rows ->
      sr_compliance s = "COMPLIANT") /\
     (Forall (fun r => row_current_slo r < target d) rows ->
      sr_compliance s = "NON-COMPLIANT")).
Proof.
  intros rows. unfold summary_of. fold rows.
  destruct rows as [|r rows'] eqn:Hrows.
  - split; [tauto|]. discriminate.
  - split; [split; discriminate|].
    intros s H. injection H as <-.
    cbn [sr_count sr_compliance sr_avg_slo sr_avg_budget].
    split; [reflexivity|]. split; [reflexivity|]. split; [reflexivity|].
    set (average := avg (row_current_slo <$> r :: rows')).
    assert (Hverdict :
      ((if Qgeb average (target d) then "COMPLIANT" else "NON-COMPLIANT")
       = "COMPLIANT" <-> target d <= average) /\
      ((if Qgeb average (target d) then "COMPLIANT" else "NON-COMPLIANT")
       = "NON-COMPLIANT" <-> average < target d)).
    { destruct (Qgeb average (target d)) eqn:E.
      - apply Qgeb_ge in E. split; split; try discriminate; try tauto.
        intros H. exfalso. apply (Qlt_not_le _ _ H). exact E.
      - apply Qgeb_lt in E. split; split; try discriminate; try tauto.
        intros H. exfalso. apply (Qlt_not_le _ _ E). exact H. }
    destruct Hverdict as [Hc Hn].
    split; [exact Hc|]. split; [exact Hn|]. split.
    + intros Hall. apply Hc. subst average.
      apply avg_ge; [discriminate|]. now apply Forall_fmap.
    + intros Hall. apply Hn. subst average.
      apply avg_lt; [discriminate|]. now apply Forall_fmap.
Qed.

Lemma summary_of_compliance_witness :
  let st :=
    Monitor ∅ {["query-latency" := query_latency]}
      [MeasurementRow "query-latency" 1 960 1000 96 20;
       MeasurementRow "query-latency" 2 920 1000 92 (-60)] [] in
  exists s,
    summary_of st query_latency = Some s /\
    sr_count s = 2%nat /\
    sr_avg_slo s == 94 /\
    sr_compliance s = "NON-COMPLIANT".
Proof.
  intros st.
  destruct (summary_of st query_latency) as [s|] eqn:E;
    [|vm_compute in E; discriminate].
  exists s. split; [reflexivity|].
  destruct (proj2 (summary_of_compliance st query_latency) s E)
    as (Hcount & Havg & _ & _ & Hn & _).
  split; [exact Hcount|].
  assert (H94 : sr_avg_slo s == 94) by (rewrite Havg; reflexivity).
  split; [exact H94|].
  apply Hn. rewrite H94. reflexivity.
Defined.

(** ** The monitoring loop *)

(** One measurement and its evaluation, as the loop runs them. *)
Lemma measure_then_check
    (now : Z) (id : string) (success_rate : float) (st : monitor) (d : slo) :
  Binary64.percentage success_rate ->
  slo_definitions st !! id = Some d ->
  decimal_5_2 (target d) ->
  ~ target d == 100 ->
  exists (m : measurement) (st1 st2 : monitor) (row : measurement_row)
         (added : list alert_row),
    Binary64.simulate_measurements now id success_rate st = Done m st1 /\
    check_slo_alerts now m st1 = Done tt st2 /\
    slos st2 = slos st /\
    slo_definitions st2 = slo_definitions st /\
    slo_measurements st2 = slo_measurements st ++ [row] /\
    row_slo_id row = id /\ row_total_count row = 1000%Z /\
    row_timestamp row = now /\
    slo_alerts st2 = slo_alerts st ++ added /\
    Forall high_or_critical added.
Proof.
  intros Hrate Hdef Hdec H100.
  destruct (binary64_simulate_measurements_percentage now id success_rate st
              d Hrate Hdef Hdec H100)
    as (s & ratio & stored & _ & _ & _ & _ & _ & _ & Hsim).
  cbv zeta in Hsim.
  match type of Hsim with _ = Done ?m ?st1 =>
    set (m0 := m) in *; set (s1 := st1) in *
  end.
  destruct (check_slo_alerts_eq now m0 s1) as (rate & _ & Hcheck).
  eexists m0, s1, _, _, _. split; [exact Hsim|]. split; [exact Hcheck|].
  cbn [slos slo_definitions slo_measurements slo_alerts with_alerts s1].
  do 7 (split; [reflexivity|]).
  unfold target_violation, budget_low, burn_rate_high, high_or_critical.
  repeat apply Forall_app_2;
    repeat match goal with
           | |- context [if ?b then _ else _] => destruct b
           end;
    repeat (apply List.Forall_cons; [cbn [severity]; auto|]);
    apply List.Forall_nil.
Qed.

Lemma measurable_same_definitions (st st' : monitor) :
  slo_definitions st' = slo_definitions st ->
  Binary64.measurable st -> Binary64.measurable st'.
Proof.
  intros E H d Hin. rewrite E. now apply H.
Qed.

(** One pass of the loop on a monitor whose three SLOs are stored with
    targets other than 100: three measurements, in the order of the code, and
    alerts of severity high or critical only. *)
Lemma monitoring_pass_eq
    (now : Z) (d : Binary64.draws) (st : monitor) :
  Binary64.measurable st ->
  Binary64.percentages d ->
  exists (st' : monitor) (rows : list measurement_row)
         (added : list alert_row),
    Binary64.monitoring_pass now d st = Done tt st' /\
    slo_measurements st' = slo_measurements st ++ rows /\
    row_slo_id <$> rows
    = ["db-availability"; "query-latency"; "api-success-rate"] /\
    Forall (fun r => row_total_count r = 1000%Z /\ row_timestamp r = now)
      rows /\
    slo_alerts st' = slo_alerts st ++ added /\
    Forall high_or_critical added /\
    slos st' = slos st /\
    slo_definitions st' = slo_definitions st.
Proof.
  intros Hst (Hr1 & Hr2 & Hr3).
  destruct (Hst db_availability ltac:(simpl; auto))
    as (d1 & Hd1 & Hc1' & Ht1).
  destruct (measure_then_check now "db-availability" (Binary64.db_rate d) st
              d1 Hr1 Hd1 Hc1' Ht1)
    as (m1 & sa & s1 & r1 & a1 & Hs1 & Hc1 & Hslos1 & Hdefs1 & Hm1 & Hi1
        & Hn1 & Hw1 & Ha1 & Hf1).
  pose proof (measurable_same_definitions st s1 Hdefs1 Hst) as Hst1.
  destruct (Hst1 query_latency ltac:(simpl; auto))
    as (d2 & Hd2 & Hc2' & Ht2).
  destruct (measure_then_check now "query-latency" (Binary64.latency_rate d)
              s1 d2 Hr2 Hd2 Hc2' Ht2)
    as (m2 & sb & s2 & r2 & a2 & Hs2 & Hc2 & Hslos2 & Hdefs2 & Hm2 & Hi2
        & Hn2 & Hw2 & Ha2 & Hf2).
  pose proof (measurable_same_definitions s1 s2 Hdefs2 Hst1) as Hst2.
  destruct (Hst2 api_success_rate ltac:(simpl; auto))
    as (d3 & Hd3 & Hc3' & Ht3).
  destruct (measure_then_check now "api-success-rate" (Binary64.api_rate d)
              s2 d3 Hr3 Hd3 Hc3' Ht3)
    as (m3 & sc & s3 & r3 & a3 & Hs3 & Hc3 & Hslos3 & Hdefs3 & Hm3 & Hi3
        & Hn3 & Hw3 & Ha3 & Hf3).
  exists s3, [r1; r2; r3], (a1 ++ a2 ++ a3). split.
  { unfold Binary64.monitoring_pass.
    erewrite bind_done by exact Hs1. erewrite bind_done by exact Hc1.
    erewrite bind_done by exact Hs2. erewrite bind_done by exact Hc2.
    erewrite bind_done by exact Hs3. exact Hc3. }
  split; [rewrite Hm3, Hm2, Hm1, <- !app_assoc; reflexivity|].
  split; [cbn; now rewrite Hi1, Hi2, Hi3|].
  split; [repeat constructor; assumption|].
  split; [rewrite Ha3, Ha2, Ha1, <- !app_assoc; reflexivity|].
  split; [repeat apply Forall_app_2; assumption|].
  split; congruence.
Qed.

Lemma define_slos_measurable (st : monitor) :
  (forall d d0, In d bootstrap_slos ->
     slo_definitions st !! slo_id d = Some d0 ->
     decimal_5_2 (target d0) /\ ~ target d0 == 100) ->
  Binary64.measurable (final (define_slos st)).
Proof.
  intros Hstored d Hin.
  destruct (slo_definitions st !! slo_id d) as [d0|] eqn:Hd.
  - exists d0. split; [|now apply (Hstored d d0)].
    rewrite define_slos_eq. cbn [final]. now do 3 apply register_lookup.
  - exists d. split; [now apply define_slos_stores_literal|].
    now apply bootstrap_targets.
Qed.

(** A turn of the dashboard raises only on a stored row without requests. *)
Lemma dashboard_turn_raises (st : monitor) (id : string) (e : exn) :
  dashboard_turn st id = Some (Raise e) ->
  exists r, In r (slo_measurements st) /\ row_total_count r = 0%Z.
Proof.
  unfold dashboard_turn. intros H.
  destruct (slos st !! id) as [d|] eqn:Hd; cbn in H; [|discriminate].
  destruct (latest_measurement id (slo_measurements st)) as [r|] eqn:Hr;
    cbn in H; [|discriminate].
  destruct (latest_measurement_Some _ _ _ Hr) as (Hin & _ & _).
  exists r. split; [assumption|].
  destruct (status_indicator (row_current_slo r) (target d)
              (row_error_budget_remaining r)) as [status symbol].
  destruct (Z.eq_dec (row_total_count r) 0%Z) as [Hz|Hnz]; [assumption|].
  rewrite py_div_nonzero in H by now apply inject_Z_nonzero.
  cbn in H. discriminate.
Qed.

(** On a table whose rows all count requests the dashboard prints every
    turn. *)
Lemma print_slo_dashboard_done (st : monitor) :
  Forall (fun r => row_total_count r <> 0%Z) (slo_measurements st) ->
  print_slo_dashboard st = Done tt st.
Proof.
  intros Hrows. unfold print_slo_dashboard.
  erewrite bind_done by reflexivity.
  induction ((map_to_list (slos st)).*1) as [|id ids IH];
    cbn [for_each]; [reflexivity|].
  erewrite bind_done; [exact IH|].
  destruct (dashboard_turn st id) as [[entry|e]|] eqn:Hturn;
    try reflexivity.
  destruct (dashboard_turn_raises st id e Hturn) as (r & Hin & Hz).
  rewrite List.Forall_forall in Hrows. now destruct (Hrows r Hin).
Qed.

(** The ids and times of the rows that the turns of the loop record. *)
Lemma monitoring_loop_eq (ticks : list (Z * Binary64.draws)) :
  forall (iteration : Z) (st : monitor),
  Binary64.measurable st ->
  Forall (fun r => row_total_count r <> 0%Z) (slo_measurements st) ->
  Forall (fun tick => Binary64.percentages (snd tick)) ticks ->
  exists (st' : monitor) (rows : list measurement_row)
         (added : list alert_row),
    Binary64.monitoring_loop iteration ticks st = Done tt st' /\
    slo_measurements st' = slo_measurements st ++ rows /\
    (fun r => (row_slo_id r, row_timestamp r)) <$> rows
    = ticks ≫= (fun tick => [("db-availability", fst tick);
                             ("query-latency", fst tick);
                             ("api-success-rate", fst tick)]) /\
    Forall (fun r => row_total_count r = 1000%Z) rows /\
    slo_alerts st' = slo_alerts st ++ added /\
    Forall high_or_critical added.
Proof.
  induction ticks as [|[now d] ticks IH]; intros iteration st Hst Hrows Hticks.
  - exists st, [], []. cbn. rewrite !app_nil_r. repeat split; constructor.
  - apply List.Forall_cons_iff in Hticks as [Hd Hticks]. cbn [snd] in Hd.
    destruct (monitoring_pass_eq now d st Hst Hd)
      as (s1 & rows1 & added1 & Hpass & Hm1 & Hids1 & Hrows1 & Ha1 & Hf1
          & _ & Hdefs1).
    pose proof (measurable_same_definitions st s1 Hdefs1 Hst) as Hst1.
    assert (Hrows_s1 :
      Forall (fun r => row_total_count r <> 0%Z) (slo_measurements s1)).
    { rewrite Hm1. apply Forall_app_2; [assumption|].
      eapply Forall_impl; [exact Hrows1|]. intros r [H _]. rewrite H. lia. }
    destruct (IH (iteration + 1)%Z s1 Hst1 Hrows_s1 Hticks)
      as (s2 & rows2 & added2 & Hrest & Hm2 & Hids2 & Hrows2 & Ha2 & Hf2).
    exists s2, (rows1 ++ rows2), (added1 ++ added2).
    split.
    { cbn [Binary64.monitoring_loop fst snd].
      erewrite bind_done by exact Hpass.
      erewrite bind_done; [exact Hrest|].
      destruct (_ =? 0)%Z; [|reflexivity].
      now apply print_slo_dashboard_done. }
    split; [rewrite Hm2, Hm1, <- app_assoc; reflexivity|].
    split.
    { rewrite fmap_app, Hids2. cbn [mbind list_bind fst].
      destruct rows1 as [|r1 [|r2 [|r3 [|r4 rows1]]]]; try discriminate.
      injection Hids1 as E1 E2 E3.
      apply Forall_cons in Hrows1 as [[_ T1] Hrows1].
      apply Forall_cons in Hrows1 as [[_ T2] Hrows1].
      apply Forall_cons in Hrows1 as [[_ T3] _].
      cbn. now rewrite E1, E2, E3, T1, T2, T3. }
    split.
    { apply Forall_app_2; [|assumption].
      eapply Forall_impl; [exact Hrows1|]. now intros r [H _]. }
    split; [rewrite Ha2, Ha1, <- app_assoc; reflexivity|].
    now apply Forall_app_2.
Qed.

(** X17: [run_monitoring], with the dashboard of every second turn and the
    final report, never raises when the rates drawn lie between 0 and 100
    (the code draws between 88 and 99.95), no SLO of the bootstrap list is
    already stored with a target of 100 (the stored targets have the two
    decimals of their column) and no stored measurement has
    [total_count = 0].  Every pass records three measurements, for
    db-availability, query-latency and api-success-rate in this order, at
    the time of the pass and with [total_count = 1000]; the alerts it
    appends all have severity high or critical. *)
Theorem run_monitoring_records_every_pass
    (ticks : list (Z * Binary64.draws)) (st : monitor) :
  (forall d d0, In d bootstrap_slos ->
     slo_definitions st !! slo_id d = Some d0 ->
     decimal_5_2 (target d0) /\ ~ target d0 == 100) ->
  Forall (fun r => row_total_count r <> 0%Z) (slo_measurements st) ->
  Forall (fun tick => Binary64.percentages (snd tick)) ticks ->
  exists (st' : monitor) (rows : list measurement_row)
         (added : list alert_row),
    Binary64.run_monitoring ticks st = Done tt st' /\
    slo_measurements st' = slo_measurements st ++ rows /\
    (fun r => (row_slo_id r, row_timestamp r)) <$> rows
    = ticks ≫= (fun tick => [("db-availability", fst tick);
                             ("query-latency", fst tick);
                             ("api-success-rate", fst tick)]) /\
    Forall (fun r => row_total_count r = 1000%Z) rows /\
    slo_alerts st' = slo_alerts st ++ added /\
    Forall high_or_critical added.
Proof.
  intros Hstored Hrows Hticks.
  pose proof (define_slos_measurable st Hstored) as Hst.
  rewrite define_slos_eq in Hst. cbn [final] in Hst.
  destruct (monitoring_loop_eq ticks 0%Z _ Hst Hrows Hticks)
    as (st' & rows & added & Hrun & Hm & Hids & Hrows' & Ha & Hf).
  exists st', rows, added. split.
  { unfold Binary64.run_monitoring.
    erewrite bind_done by apply define_slos_eq.
    erewrite bind_done by exact Hrun. reflexivity. }
  repeat split; assumption.
Qed.

(** Two turns, the second with the dashboard, on an empty database. *)
Lemma run_monitoring_records_every_pass_witness :
  let ticks :=
    [(0%Z, Binary64.Draws 0x1.8f9999999999ap+6 95 99.5);
     (5%Z, Binary64.Draws 0x1.8f70a3d70a3d7p+6 90 0x1.8d9999999999ap+6)] in
  exists (st' : monitor) (rows : list measurement_row)
         (added : list alert_row),
    Binary64.run_monitoring ticks fresh = Done tt st' /\
    slo_measurements st' = slo_measurements fresh ++ rows /\
    (fun r => (row_slo_id r, row_timestamp r)) <$> rows
    = ticks ≫= (fun tick => [("db-availability", fst tick);
                             ("query-latency", fst tick);
                             ("api-success-rate", fst tick)]) /\
    Forall (fun r => row_total_count r = 1000%Z) rows /\
    slo_alerts st' = slo_alerts fresh ++ added /\
    Forall high_or_critical added.
Proof.
  intros ticks. apply (run_monitoring_records_every_pass ticks fresh).
  - intros d d0 _ H. vm_compute in H. discriminate.
  - apply List.Forall_nil.
  - repeat (apply List.Forall_cons;
            [repeat split; vm_compute; reflexivity|]).
    apply List.Forall_nil.
Defined.

(** X18: on an alert table that holds only alerts of severity high or
    critical, as [check_slo_alerts] writes them, the two groups of the report
    add up to the total, and no other severity has a group. *)
Theorem report_counts_add_up (st : monitor) :
  Forall high_or_critical (slo_alerts st) ->
  (alerts_of_severity "high" st + alerts_of_severity "critical" st
   = total_alerts st)%nat /\
  forall sev, sev <> "high" -> sev <> "critical" ->
              alerts_of_severity sev st = 0%nat.
Proof.
  unfold alerts_of_severity, total_alerts.
  induction 1 as [|a alerts Ha _ [IH1 IH2]]; [split; reflexivity|].
  cbn [List.filter length]. split.
  - destruct Ha as [-> | ->]; cbn [String.eqb Ascii.eqb Bool.eqb andb length];
      lia.
  - intros sev H1 H2.
    replace (String.eqb (severity a) sev) with false.
    + now apply IH2.
    + symmetry. apply String.eqb_neq. destruct Ha as [-> | ->]; congruence.
Qed.

Lemma report_counts_add_up_witness :
  let st :=
    Monitor ∅ ∅ []
      [AlertRow "query-latency" 1 "high" (SLO_below_target 90 95) 0;
       AlertRow "query-latency" 1 "critical" (Error_budget_low (-100)) 0;
       AlertRow "db-availability" 2 "critical" (Error_budget_low 0) 0] in
  (alerts_of_severity "high" st + alerts_of_severity "critical" st
   = total_alerts st)%nat /\
  forall sev, sev <> "high" -> sev <> "critical" ->
              alerts_of_severity sev st = 0%nat.
Proof.
  intros st. apply (report_counts_add_up st).
  unfold high_or_critical.
  repeat (apply List.Forall_cons; [cbn [severity]; auto|]).
  apply List.Forall_nil.
Defined.

(** ** The rates of the loop *)

Lemma successes_of_between (success_rate : Q) (lo hi : Z) :
  0 <= success_rate ->
  inject_Z lo <= 10 * success_rate ->
  10 * success_rate < inject_Z (hi + 1) ->
  (lo <= successes_of success_rate <= hi)%Z.
Proof.
  intros H0 Hlo Hhi. rewrite successes_of_floor by assumption.
  assert (E : 1000 * success_rate / 100 == 10 * success_rate) by field.
  rewrite E.
  pose proof (Qfloor_le (10 * success_rate)) as Hfl.
  pose proof (Qlt_floor (10 * success_rate)) as Hfu.
  split.
  - assert (H : inject_Z lo < inject_Z (Qfloor (10 * success_rate) + 1))
      by lra.
    rewrite <- Zlt_Qlt in H. lia.
  - assert (H : inject_Z (Qfloor (10 * success_rate)) < inject_Z (hi + 1))
      by lra.
    rewrite <- Zlt_Qlt in H. lia.
Qed.

(** The measurement of a rate whose ten-fold lies in [[lo, hi + 1)], against
    a stored target below 100. *)
Lemma drawn_measurement
    (now : Z) (id : string) (success_rate : Q) (st : monitor) (d : slo)
    (lo hi : Z) :
  slo_definitions st !! id = Some d ->
  target d < 100 ->
  0 <= success_rate ->
  inject_Z lo <= 10 * success_rate ->
  10 * success_rate < inject_Z (hi + 1) ->
  exists (m : measurement) (st' : monitor),
    simulate_measurements now id success_rate st = Done m st' /\
    m_slo_id m = id /\
    m_target m = target d /\
    (lo <= m_success_count m <= hi)%Z /\
    m_current_slo m * 10 == inject_Z (m_success_count m) /\
    m_error_budget m * (100 - target d)
    == 100 * (m_current_slo m - target d).
Proof.
  intros Hdef Htarget H0 Hlo Hhi.
  pose proof (allowed_errors_pos (target d) 1000 eq_refl Htarget) as Ha.
  do 2 eexists. split.
  { eapply simulate_measurements_eq; [exact Hdef|].
    apply error_budget_eq; [discriminate|lra]. }
  cbn [m_slo_id m_target m_success_count m_current_slo m_error_budget].
  split; [reflexivity|]. split; [reflexivity|].
  split; [now apply successes_of_between|].
  split.
  - change (inject_Z 1000) with 1000. field.
  - unfold allowed_errors_of, Zminus. rewrite inject_Z_plus, inject_Z_opp.
    change (inject_Z 1000) with 1000. field. lra.
Qed.

Lemma inject_Z_le (x y : Z) : (x <= y)%Z -> inject_Z x <= inject_Z y.
Proof. intros H. now rewrite <- Zle_Qle. Qed.

(** X19: in every pass of the loop the measurement of db-availability, drawn
    between 99.85 and 99.95 against the target 99.9 of the bootstrap, counts
    998 or 999 successes: its one allowed error is spent, the budget is 0 or
    less, and [check_slo_alerts] raises the budget alert as critical. *)
Theorem db_availability_budget_is_always_spent
    (iteration now : Z) (d : draws) (st : monitor) :
  drawn_at iteration d ->
  slo_definitions st !! "db-availability" = Some db_availability ->
  exists (m : measurement) (st' : monitor),
    simulate_measurements now "db-availability" (db_rate d) st = Done m st' /\
    (m_success_count m = 998 \/ m_success_count m = 999)%Z /\
    m_error_budget m <= 0 /\
    budget_low now m
    = [AlertRow "db-availability" now "critical"
         (Error_budget_low (m_error_budget m)) 0].
Proof.
  intros ([Hlo Hhi] & _ & _) Hdef.
  destruct (drawn_measurement now "db-availability" (db_rate d) st
              db_availability 998 999 Hdef)
    as (m & st' & Hsim & Hid & Ht & Hs & Hc & Hb);
    [reflexivity|lra|change (inject_Z 998) with 998; lra
    |change (inject_Z (999 + 1)) with 1000; lra|].
  exists m, st'. split; [exact Hsim|].
  split; [lia|].
  assert (Hs' : inject_Z (m_success_count m) <= 999)
    by (change 999 with (inject_Z 999); apply inject_Z_le; lia).
  change (target db_availability) with 99.9 in Hb.
  assert (Hbudget : m_error_budget m <= 0) by lra.
  split; [exact Hbudget|].
  unfold budget_low.
  assert (H20 : Qltb (m_error_budget m) 20 = true) by (apply Qltb_lt; lra).
  assert (H10 : Qltb (m_error_budget m) 10 = true) by (apply Qltb_lt; lra).
  now rewrite H20, H10, Hid.
Qed.

Lemma db_availability_budget_is_always_spent_witness :
  exists (m : measurement) (st' : monitor),
    simulate_measurements 3 "db-availability" (db_rate (Draws 99.93 94 99.5))
      (final (define_slos fresh)) = Done m st' /\
    (m_success_count m = 998 \/ m_success_count m = 999)%Z /\
    m_error_budget m <= 0 /\
    budget_low 3 m
    = [AlertRow "db-availability" 3 "critical"
         (Error_budget_low (m_error_budget m)) 0].
Proof.
  apply (db_availability_budget_is_always_spent 1 3 (Draws 99.93 94 99.5)
           (final (define_slos fresh))).
  - repeat split; discriminate.
  - vm_compute. reflexivity.
Defined.

(** X20: in every fifth pass the latency rate is drawn between 88 and 92,
    below the target 95 of the bootstrap: the measurement misses its target,
    its budget is -60 or less, and [check_slo_alerts] raises both the target
    alert (high) and the budget alert (critical). *)
Theorem fifth_pass_violates_latency
    (iteration now : Z) (d : draws) (st : monitor) :
  drawn_at iteration d ->
  (iteration mod 5 = 0)%Z ->
  slo_definitions st !! "query-latency" = Some query_latency ->
  exists (m : measurement) (st' : monitor),
    simulate_measurements now "query-latency" (latency_rate d) st
    = Done m st' /\
    m_current_slo m <= 92 /\
    m_error_budget m <= -60 /\
    target_violation now m ++ budget_low now m
    = [AlertRow "query-latency" now "high"
         (SLO_below_target (m_current_slo m) (m_target m)) 0;
       AlertRow "query-latency" now "critical"
         (Error_budget_low (m_error_budget m)) 0].
Proof.
  intros (_ & Hlat & _) Hfifth Hdef.
  apply Z.eqb_eq in Hfifth. rewrite Hfifth in Hlat. destruct Hlat as [Hlo Hhi].
  destruct (drawn_measurement now "query-latency" (latency_rate d) st
              query_latency 880 920 Hdef)
    as (m & st' & Hsim & Hid & Ht & Hs & Hc & Hb);
    [reflexivity|lra|change (inject_Z 880) with 880; lra
    |change (inject_Z (920 + 1)) with 921; lra|].
  exists m, st'. split; [exact Hsim|].
  assert (Hs' : inject_Z (m_success_count m) <= 920)
    by (change 920 with (inject_Z 920); apply inject_Z_le; lia).
  change (target query_latency) with 95.0 in Hb, Ht.
  assert (Hcur : m_current_slo m <= 92) by lra.
  assert (Hbudget : m_error_budget m <= -60) by lra.
  split; [exact Hcur|]. split; [exact Hbudget|].
  unfold target_violation, budget_low.
  assert (H1 : Qltb (m_current_slo m) (m_target m) = true)
    by (apply Qltb_lt; rewrite Ht; lra).
  assert (H20 : Qltb (m_error_budget m) 20 = true) by (apply Qltb_lt; lra).
  assert (H10 : Qltb (m_error_budget m) 10 = true) by (apply Qltb_lt; lra).
  now rewrite H1, H20, H10, Hid.
Qed.

Lemma fifth_pass_violates_latency_witness :
  exists (m : measurement) (st' : monitor),
    simulate_measurements 3 "query-latency"
      (latency_rate (Draws 99.9 90.5 99.5)) (final (define_slos fresh))
    = Done m st' /\
    m_current_slo m <= 92 /\
    m_error_budget m <= -60 /\
    target_violation 3 m ++ budget_low 3 m
    = [AlertRow "query-latency" 3 "high"
         (SLO_below_target (m_current_slo m) (m_target m)) 0;
       AlertRow "query-latency" 3 "critical"
         (Error_budget_low (m_error_budget m)) 0].
Proof.
  apply (fifth_pass_violates_latency 10 3 (Draws 99.9 90.5 99.5)
           (final (define_slos fresh))).
  - repeat split; discriminate.
  - reflexivity.
  - vm_compute. reflexivity.
Defined.

Lemma not_healthy_below_50 (current_slo shown_target error_budget : Q) :
  error_budget <= 50 ->
  fst (status_indicator current_slo shown_target error_budget) <> "HEALTHY".
Proof.
  intros H. unfold status_indicator.
  assert (E : Qltb 50 error_budget = false) by now apply Qltb_ge.
  rewrite E, andb_false_r.
  destruct (Qgeb current_slo shown_target && Qltb 20 error_budget);
    discriminate.
Qed.

(** X21: with the rates the loop draws and the targets of the bootstrap, no
    measurement of the loop leaves more than 40 percent of its budget, so the
    dashboard, which asks for more than 50, never shows any of the three SLOs
    as HEALTHY, whatever target [self.slos] holds. *)
Theorem loop_measurements_are_never_healthy
    (iteration now : Z) (d : draws) (st : monitor) (s : slo)
    (success_rate : Q) :
  drawn_at iteration d ->
  In (s, success_rate)
     [(db_availability, db_rate d); (query_latency, latency_rate d);
      (api_success_rate, api_rate d)] ->
  slo_definitions st !! slo_id s = Some s ->
  exists (m : measurement) (st' : monitor),
    simulate_measurements now (slo_id s) success_rate st = Done m st' /\
    m_error_budget m <= 40 /\
    forall shown_target,
      fst (status_indicator (m_current_slo m) shown_target
             (m_error_budget m)) <> "HEALTHY".
Proof.
  intros (Hdb & Hlat & Hapi) Hin Hdef.
  assert (Hlat' : 88 <= latency_rate d <= 97).
  { destruct (iteration mod 5 =? 0)%Z; lra. }
  assert (Hmain : exists (m : measurement) (st' : monitor),
            simulate_measurements now (slo_id s) success_rate st
            = Done m st' /\ m_error_budget m <= 40).
  { destruct Hin as [E|[E|[E|[]]]]; injection E as <- <-.
    - destruct (drawn_measurement now (slo_id db_availability) (db_rate d)
                  st db_availability 998 999 Hdef)
        as (m & st' & Hsim & _ & _ & Hs & Hc & Hb);
        [reflexivity|lra|change (inject_Z 998) with 998; lra
        |change (inject_Z (999 + 1)) with 1000; lra|].
      exists m, st'. split; [exact Hsim|].
      assert (Hs' : inject_Z (m_success_count m) <= 999)
        by (change 999 with (inject_Z 999); apply inject_Z_le; lia).
      change (target db_availability) with 99.9 in Hb. lra.
    - destruct (drawn_measurement now (slo_id query_latency)
                  (latency_rate d) st query_latency 880 970 Hdef)
        as (m & st' & Hsim & _ & _ & Hs & Hc & Hb);
        [reflexivity|lra|change (inject_Z 880) with 880; lra
        |change (inject_Z (970 + 1)) with 971; lra|].
      exists m, st'. split; [exact Hsim|].
      assert (Hs' : inject_Z (m_success_count m) <= 970)
        by (change 970 with (inject_Z 970); apply inject_Z_le; lia).
      change (target query_latency) with 95.0 in Hb. lra.
    - destruct (drawn_measurement now (slo_id api_success_rate)
                  (api_rate d) st api_success_rate 993 997 Hdef)
        as (m & st' & Hsim & _ & _ & Hs & Hc & Hb);
        [reflexivity|lra|change (inject_Z 993) with 993; lra
        |change (inject_Z (997 + 1)) with 998; lra|].
      exists m, st'. split; [exact Hsim|].
      assert (Hs' : inject_Z (m_success_count m) <= 997)
        by (change 997 with (inject_Z 997); apply inject_Z_le; lia).
      change (target api_success_rate) with 99.5 in Hb. lra. }
  destruct Hmain as (m & st' & Hsim & Hbudget).
  exists m, st'. split; [exact Hsim|]. split; [exact Hbudget|].
  intros shown_target. apply not_healthy_below_50. lra.
Qed.

Lemma loop_measurements_are_never_healthy_witness :
  exists (m : measurement) (st' : monitor),
    simulate_measurements 3 (slo_id api_success_rate) 99.7
      (final (define_slos fresh)) = Done m st' /\
    m_error_budget m <= 40 /\
    forall shown_target,
      fst (status_indicator (m_current_slo m) shown_target
             (m_error_budget m)) <> "HEALTHY".
Proof.
  apply (loop_measurements_are_never_healthy 1 3 (Draws 99.9 96 99.7)
           (final (define_slos fresh)) api_success_rate 99.7).
  - repeat split; discriminate.
  - simpl. auto.
  - vm_compute. reflexivity.
Defined.

(** ** Bootstrap *)

(** X22: [define_slos] never raises and puts the literal of the code into
    [self.slos] under each of its three ids, whatever was there before, also
    where [slo_definitions] keeps an older row; every other key of
    [self.slos] and of [slo_definitions] is left as it was, and so are the
    measurements and the alerts. *)
Theorem define_slos_overwrites_self_slos (st : monitor) :
  exists st' : monitor,
    define_slos st = Done tt st' /\
    (forall d, In d bootstrap_slos -> slos st' !! slo_id d = Some d) /\
    (forall id,
       (forall d, In d bootstrap_slos -> slo_id d <> id) ->
       slos st' !! id = slos st !! id /\
       slo_definitions st' !! id = slo_definitions st !! id) /\
    slo_measurements st' = slo_measurements st /\
    slo_alerts st' = slo_alerts st.
Proof.
  eexists. split; [apply define_slos_eq|].
  unfold register. cbn [slos slo_definitions slo_measurements slo_alerts].
  split; [|split; [|split; reflexivity]].
  - intros d [<-|[<-|[<-|[]]]].
    + rewrite !lookup_insert_ne by discriminate. apply lookup_insert_eq.
    + rewrite lookup_insert_ne by discriminate. apply lookup_insert_eq.
    + apply lookup_insert_eq.
  - intros id Hother.
    assert (H1 : slo_id db_availability <> id)
      by (apply Hother; simpl; auto).
    assert (H2 : slo_id query_latency <> id)
      by (apply Hother; simpl; auto).
    assert (H3 : slo_id api_success_rate <> id)
      by (apply Hother; simpl; auto).
    split; [now rewrite !lookup_insert_ne by assumption|].
    assert (Hstep : forall (d : slo) (defs : gmap string slo),
              slo_id d <> id ->
              on_conflict_do_nothing d defs !! id = defs !! id).
    { intros d defs Hne. unfold on_conflict_do_nothing.
      destruct (defs !! slo_id d); [reflexivity|].
      now rewrite lookup_insert_ne. }
    now rewrite !Hstep by assumption.
Qed.
